(** * Scenario outcome analyzer: the analysis engine and the job pipeline

    A shallow embedding of [scenario_analyzer.py] (the [ScenarioAnalyzer]
    class) and of [api_server.py] (the in-memory job store, the background
    task and the read operations), followed by the properties of the
    specification that can be stated over them.

    Conventions of the embedding.
    - A Python [str] is a list of code points.  What Python does on ASCII
      text is defined here; what it does on other code points, the iteration
      order of a [set] and the rendering of an arbitrary object by an
      f-string belong to the Python runtime and are the fields of
      [PyRuntime]: every theorem holds for every runtime.
    - A [float] is a binary64 primitive float.
    - A [dict] is an association list in insertion order.
    - [datetime.now().isoformat()] and [uuid.uuid4()] are inputs of the
      operation that calls them.
    - An exception is the text [str(e)] it carries; a call that may raise
      returns a [result].
    - The engine and the server come twice.  The first modules follow the
      code on values of the declared types, where the engine does not
      raise.  The modules [json], [dynamic_engine], [dynamic_server] and
      [dynamic_pipeline] follow it on every value that [json.loads]
      returns for a reply of the provider, where [analyze] and the
      conversion to the response model raise; the two agree on values of
      the declared types ([DynamicFacts.analyze_declared]). *)

From Stdlib Require Import List Bool Arith NArith ZArith Lia.
From Stdlib Require Import String Ascii PrimFloat.
From Stdlib Require Import Sorted Permutation DecimalNat.
Import ListNotations.

Set Warnings "-inexact-float".
Set Implicit Arguments.

(* ===================================================================== *)
(** * Part I. Definitions                                                 *)
(* ===================================================================== *)

(** ** Python text and the runtime *)

Module Py.

Definition char := N.
Definition str := list char.

(** A literal of the source, as code points. *)
Definition txt (s : string) : str :=
  map N_of_ascii (list_ascii_of_string s).

Definition is_ascii (c : char) : bool := (c <? 128)%N.

Definition ascii_lower (c : char) : char :=
  if ((65 <=? c) && (c <=? 90))%N then (c + 32)%N else c.

(** [[a-zA-Z0-9_]], the ASCII part of the regex class [\w]. *)
Definition ascii_word (c : char) : bool :=
  ((48 <=? c) && (c <=? 57) || (65 <=? c) && (c <=? 90)
   || (c =? 95) || (97 <=? c) && (c <=? 122))%N.

Class PyRuntime := {
  (** [str.lower] on a string that has a code point outside ASCII *)
  unicode_lower : str -> str;
  (** membership in [\w] of a code point outside ASCII *)
  unicode_word : char -> bool;
  (** the values of type [Any] and what an f-string prints for them *)
  py_object : Type;
  py_format : py_object -> str;
  py_str : str -> py_object;
  py_format_str : forall s, py_format (py_str s) = s;
  (** [list(set(l))]: the distinct elements of [l], in the set's order *)
  set_iter : list str -> list str;
  set_iter_NoDup : forall l, NoDup (set_iter l);
  set_iter_In : forall l x, In x (set_iter l) <-> In x l
}.

Section Text.
Context {RT : PyRuntime}.

(** [s.lower()] *)
Definition lower (s : str) : str :=
  if forallb is_ascii s then map ascii_lower s else unicode_lower s.

(** [\w] *)
Definition is_word (c : char) : bool :=
  if is_ascii c then ascii_word c else unicode_word c.

Fixpoint starts_with (p s : str) : bool :=
  match p, s with
  | [], _ => true
  | a :: p', b :: s' => (a =? b)%N && starts_with p' s'
  | _ :: _, [] => false
  end.

(** [needle in hay] on strings *)
Fixpoint contains (needle hay : str) : bool :=
  starts_with needle hay
  || match hay with
     | [] => false
     | _ :: hay' => contains needle hay'
     end.

(** The regex [\b(k1|...|kn)\b] of [re.search].  A position of the subject
    is given by the character before it ([None] at the start) and the
    rest of the subject from it. *)
Definition word_at (c : option char) : bool :=
  match c with
  | Some c => is_word c
  | None => false
  end.

(** [\b]: exactly one of the two neighbours is a word character. *)
Definition boundary (prev next : option char) : bool :=
  xorb (word_at prev) (word_at next).

(** the literal [kw] followed by [\b] *)
Fixpoint match_literal (kw : str) (prev : option char) (s : str) : bool :=
  match kw with
  | [] => boundary prev (hd_error s)
  | k :: kw' =>
      match s with
      | c :: s' => (k =? c)%N && match_literal kw' (Some c) s'
      | [] => false
      end
  end.

(** the whole pattern at one position: [\b], then the alternatives in
    their order *)
Definition match_here (alts : list str) (prev : option char) (s : str) : bool :=
  boundary prev (hd_error s) && existsb (fun kw => match_literal kw prev s) alts.

Fixpoint search_from (alts : list str) (prev : option char) (s : str) : bool :=
  match_here alts prev s
  || match s with
     | [] => false
     | c :: s' => search_from alts (Some c) s'
     end.

(** [re.search(r'\b(k1|...|kn)\b', s)] is not [None] *)
Definition re_search_words (alts : list str) (s : str) : bool :=
  search_from alts None s.

End Text.

(** Lexicographic order on code points: [a <= b] on strings. *)
Fixpoint str_leb (a b : str) : bool :=
  match a, b with
  | [], _ => true
  | _ :: _, [] => false
  | x :: a', y :: b' =>
      match (x ?= y)%N with
      | Lt => true
      | Eq => str_leb a' b'
      | Gt => false
      end
  end.

Definition str_eq_dec : forall a b : str, {a = b} + {a <> b} :=
  list_eq_dec N.eq_dec.

Definition str_eqb (a b : str) : bool :=
  if str_eq_dec a b then true else false.

(** A runtime to evaluate with: no code point outside ASCII is a word
    character or changes in [lower], an object is its text, and a set
    keeps the first occurrence of each element.  The sample inputs below
    are ASCII text, and what is evaluated on them with this runtime does
    not depend on these choices unless it says so. *)
Definition first_occurrences (l : list str) : list str :=
  rev (nodup str_eq_dec (rev l)).

#[refine] Instance plain_runtime : PyRuntime := {
  unicode_lower := map ascii_lower;
  unicode_word := fun _ => false;
  py_object := str;
  py_format := fun s => s;
  py_str := fun s => s;
  set_iter := first_occurrences
}.
Proof.
  - reflexivity.
  - intro l. unfold first_occurrences.
    apply NoDup_rev, NoDup_nodup.
  - intros l x. unfold first_occurrences.
    rewrite <- in_rev, nodup_In, <- in_rev. reflexivity.
Defined.

End Py.

(** ** [scenario_analyzer.py] *)

Module scenario_analyzer.
Import Py.

(** A call that may raise: its value, or the text of the exception. *)
Inductive result (A : Type) : Type :=
| Ok (a : A)
| Raise (e : str).
Arguments Ok {A} a.
Arguments Raise {A} e.

Record Outcome := {
  description : str;
  probability : float;
  impact_level : str;
  risk_factors : list str;
  opportunities : list str;
  timeline : str;
  confidence_score : float
}.

Record ScenarioAnalysis := {
  situation : str;
  context_factors : list str;
  outcomes : list Outcome;
  key_variables : list str;
  recommendations : list str;
  analysis_timestamp : str
}.

(** The client of the provider, and the analyzer object. *)
Inductive OpenAI := OpenAI_client (api_key : str).

Record ScenarioAnalyzer := {
  client : option OpenAI;
  model : str
}.

(** What the [try] block of [_ai_generate_outcomes] evaluates to: the
    request to the provider, [json.loads] of the reply and the [Outcome]
    constructor applied to the keys of each element, or the exception one
    of them raised.  The constructor checks the names of the fields and
    nothing else, so the fields of an accepted outcome are what the
    payload carries.  This module follows the code on the payloads whose
    values have the declared types; [dynamic_engine] below follows it on
    every payload. *)
Definition ai_reply := result (list Outcome).

(** A Python [str] is true when it is not empty. *)
Definition truthy (s : str) : bool :=
  match s with
  | [] => false
  | _ :: _ => true
  end.

Section Engine.
Context {RT : PyRuntime}.

(** [ScenarioAnalyzer(api_key, model)]; [connect] is the outcome of
    [OpenAI(api_key=api_key)], evaluated only when a key is given. *)
Definition __init__ (connect : result unit) (api_key : option str) (model : str)
  : result ScenarioAnalyzer :=
  match api_key with
  | Some k =>
      if truthy k then
        match connect with
        | Ok _ => Ok {| client := Some (OpenAI_client k); model := model |}
        | Raise e => Raise e
        end
      else Ok {| client := None; model := model |}
  | None => Ok {| client := None; model := model |}
  end.

Definition _extract_context_factors
  (situation : str) (context : option (list (str * py_object))) : list str :=
  let factors : list str := [] in
  let factors :=
    if re_search_words [txt "business"; txt "company"; txt "startup"] (lower situation)
    then factors ++ [txt "Business/Commercial context"] else factors in
  let factors :=
    if re_search_words [txt "market"; txt "economy"; txt "financial"] (lower situation)
    then factors ++ [txt "Economic factors"] else factors in
  let factors :=
    if re_search_words [txt "team"; txt "people"; txt "employee"] (lower situation)
    then factors ++ [txt "Human resources"] else factors in
  let factors :=
    if re_search_words [txt "technology"; txt "tech"; txt "digital"] (lower situation)
    then factors ++ [txt "Technology factors"] else factors in
  let factors :=
    if re_search_words [txt "time"; txt "deadline"; txt "urgent"] (lower situation)
    then factors ++ [txt "Time constraints"] else factors in
  let factors :=
    match context with
    | Some ((_ :: _) as items) =>
        fold_left
          (fun factors kv => factors ++ [fst kv ++ txt ": " ++ py_format (snd kv)])
          items factors
    | _ => factors
    end in
  match factors with
  | [] => [txt "General situational context"]
  | _ :: _ => factors
  end.

Definition _rule_based_outcomes (situation : str) (context_factors : list str)
  : list Outcome :=
  let outcomes : list Outcome := [] in
  let outcomes := outcomes ++ [
    {| description := txt "Optimal outcome - all factors align favorably";
       probability := 0.25;
       impact_level := txt "High";
       risk_factors := [txt "Overconfidence"; txt "External disruptions"];
       opportunities := [txt "Maximum benefit realization"; txt "Positive momentum"];
       timeline := txt "Short to medium term";
       confidence_score := 0.7 |}] in
  let outcomes := outcomes ++ [
    {| description := txt "Expected outcome - moderate success with some challenges";
       probability := 0.45;
       impact_level := txt "Medium";
       risk_factors := [txt "Resource constraints"; txt "Execution challenges"];
       opportunities := [txt "Learning opportunities"; txt "Incremental progress"];
       timeline := txt "Medium term";
       confidence_score := 0.85 |}] in
  let outcomes := outcomes ++ [
    {| description := txt "Difficult outcome - significant obstacles encountered";
       probability := 0.25;
       impact_level := txt "Medium";
       risk_factors := [txt "Major setbacks"; txt "Resource depletion"];
       opportunities := [txt "Resilience building"; txt "Alternative paths"];
       timeline := txt "Extended timeline";
       confidence_score := 0.75 |}] in
  let outcomes := outcomes ++ [
    {| description := txt "Adverse outcome - multiple failures compound";
       probability := 0.05;
       impact_level := txt "High";
       risk_factors := [txt "Complete failure"; txt "Reputation damage"];
       opportunities := [txt "Lessons learned"; txt "Fresh start potential"];
       timeline := txt "Long term recovery";
       confidence_score := 0.6 |}] in
  outcomes.

(** The [except] branch also prints the exception; nothing reads it. *)
Definition _ai_generate_outcomes
  (reply : ai_reply) (situation : str) (context_factors : list str) : list Outcome :=
  match reply with
  | Ok ai_outcomes => ai_outcomes
  | Raise _ => _rule_based_outcomes situation context_factors
  end.

Definition _generate_outcomes (self : ScenarioAnalyzer)
  (reply : ai_reply) (situation : str) (context_factors : list str) : list Outcome :=
  match client self with
  | Some _ => _ai_generate_outcomes reply situation context_factors
  | None => _rule_based_outcomes situation context_factors
  end.

(** [all_risks] and [all_opportunities]: one [extend] per outcome. *)
Definition pooled (field : Outcome -> list str) (outcomes : list Outcome) : list str :=
  fold_left (fun acc outcome => acc ++ field outcome) outcomes [].

Definition _identify_key_variables (situation : str) (outcomes : list Outcome)
  : list str :=
  let variables : list str := [] in
  let variables :=
    if contains (txt "decision") (lower situation)
    then variables ++ [txt "Decision quality and timing"] else variables in
  let variables :=
    if contains (txt "resource") (lower situation)
    then variables ++ [txt "Resource availability"] else variables in
  let variables :=
    if contains (txt "market") (lower situation)
    then variables ++ [txt "Market conditions"] else variables in
  let variables :=
    if contains (txt "team") (lower situation)
    then variables ++ [txt "Team performance and dynamics"] else variables in
  let all_risks := pooled risk_factors outcomes in
  let variables :=
    if existsb (fun risk => contains (txt "resource") (lower risk)) all_risks
    then variables ++ [txt "Resource management"] else variables in
  let variables :=
    if existsb (fun risk => contains (txt "execution") (lower risk)) all_risks
    then variables ++ [txt "Execution capability"] else variables in
  let variables :=
    if existsb (fun risk => contains (txt "external") (lower risk)) all_risks
    then variables ++ [txt "External environment"] else variables in
  match variables with
  | [] => [txt "Situational dynamics"; txt "External factors"]
  | _ :: _ => variables
  end.

Definition _generate_recommendations (situation : str) (outcomes : list Outcome)
  : list str :=
  let recommendations : list str := [] in
  let high_prob_outcomes := filter (fun o => (0.3 <? probability o)%float) outcomes in
  let recommendations :=
    match high_prob_outcomes with
    | o :: _ => recommendations ++ [txt "Prepare primarily for: " ++ description o]
    | [] => recommendations
    end in
  let all_risks := pooled risk_factors outcomes in
  let common_risks := firstn 3 (set_iter all_risks) in
  let recommendations :=
    fold_left (fun recs risk => recs ++ [txt "Mitigate risk: " ++ risk])
      common_risks recommendations in
  let all_opportunities := pooled opportunities outcomes in
  let common_opportunities := firstn 2 (set_iter all_opportunities) in
  let recommendations :=
    fold_left (fun recs opp => recs ++ [txt "Leverage opportunity: " ++ opp])
      common_opportunities recommendations in
  let recommendations := recommendations ++ [txt "Monitor key variables closely"] in
  let recommendations :=
    recommendations ++ [txt "Maintain flexibility for scenario pivots"] in
  recommendations.

(** [analyze]; [reply] is what the provider call evaluates to when the
    analyzer has a client, [now] is [datetime.now().isoformat()].  On
    values of the declared types no step of it raises;
    [dynamic_engine.analyze] below is the function on values of any type,
    where it does. *)
Definition analyze (self : ScenarioAnalyzer) (reply : ai_reply) (now : str)
  (situation : str) (context : option (list (str * py_object))) : ScenarioAnalysis :=
  let context_factors := _extract_context_factors situation context in
  let outcomes := _generate_outcomes self reply situation context_factors in
  let key_variables := _identify_key_variables situation outcomes in
  let recommendations := _generate_recommendations situation outcomes in
  {| situation := situation;
     context_factors := context_factors;
     outcomes := outcomes;
     key_variables := key_variables;
     recommendations := recommendations;
     analysis_timestamp := now |}.

End Engine.

End scenario_analyzer.

(** ** [api_server.py] *)

Module api_server.
Import Py scenario_analyzer.

(** *** Python containers *)

Definition dict (V : Type) := list (str * V).

Section Dict.
Variable V : Type.

(** [d.get(k)], and [d[k]] when it is [Some] *)
Fixpoint dict_get (d : dict V) (k : str) : option V :=
  match d with
  | [] => None
  | (k', v) :: d' => if str_eqb k' k then Some v else dict_get d' k
  end.

(** [d[k] = v]: in place when [k] is a key, at the end otherwise *)
Fixpoint dict_set (d : dict V) (k : str) (v : V) : dict V :=
  match d with
  | [] => [(k, v)]
  | (k', v') :: d' =>
      if str_eqb k' k then (k', v) :: d' else (k', v') :: dict_set d' k v
  end.

(** [del d[k]] for a key [k] of [d]: the entry of [k] goes (a dictionary
    has one at most) *)
Fixpoint dict_del (d : dict V) (k : str) : dict V :=
  match d with
  | [] => []
  | (k', v') :: d' =>
      if str_eqb k' k then dict_del d' k else (k', v') :: dict_del d' k
  end.

(** [k in d] *)
Definition dict_mem (d : dict V) (k : str) : bool :=
  match dict_get d k with
  | Some _ => true
  | None => false
  end.

(** [list(d.values())] *)
Definition dict_values (d : dict V) : list V := map snd d.

(** [l[:n]] for an [int] [n]: a negative [n] counts from the end *)
Definition slice_to (n : Z) (l : list V) : list V :=
  if (0 <=? n)%Z then firstn (Z.to_nat n) l
  else firstn (Z.to_nat (Z.of_nat (List.length l) + n)) l.

(** [l.sort(key=key, reverse=True)] with string keys.  The sort of Python
    is stable, also in reverse, and a stable sort has one result: that of
    this insertion sort. *)
Definition str_ltb (a b : str) : bool := negb (str_leb b a).

Fixpoint insert_reverse (key : V -> str) (x : V) (l : list V) : list V :=
  match l with
  | [] => [x]
  | y :: l' =>
      if str_ltb (key x) (key y) then y :: insert_reverse key x l' else x :: l
  end.

Definition sort_reverse (key : V -> str) (l : list V) : list V :=
  fold_right (insert_reverse key) [] l.

End Dict.

(** *** The models of the requests and answers *)

Module AnalysisRequest.
Record t {RT : PyRuntime} := {
  situation : str;
  context : option (list (str * py_object));
  api_key : option str;
  model : str
}.
End AnalysisRequest.

Module OutcomeResponse.
Record t := {
  description : str;
  probability : float;
  impact_level : str;
  risk_factors : list str;
  opportunities : list str;
  timeline : str;
  confidence_score : float
}.
End OutcomeResponse.

Module AnalysisResponse.
Record t := {
  analysis_id : str;
  situation : str;
  context_factors : list str;
  outcomes : list OutcomeResponse.t;
  key_variables : list str;
  recommendations : list str;
  analysis_timestamp : str;
  status : str
}.
End AnalysisResponse.

Module AnalysisStatus.
Record t := {
  analysis_id : str;
  status : str;
  created_at : str;
  completed_at : option str;
  error : option str
}.
End AnalysisStatus.

(** A value of [analysis_store]: the dictionary built by
    [create_analysis], with its seven keys. *)
Module JobRecord.
Record t {RT : PyRuntime} := {
  analysis_id : str;
  status : str;
  created_at : str;
  request : AnalysisRequest.t;
  analysis : option ScenarioAnalysis;
  completed_at : option str;
  error : option str
}.
End JobRecord.

(** [raise HTTPException(status_code, detail)] or the returned value *)
Inductive response (A : Type) : Type :=
| Return (a : A)
| HTTPException (status_code : Z) (detail : str).
Arguments Return {A} a.
Arguments HTTPException {A} status_code detail.

(** What one run of the background task reads from outside: whether
    building the client raises, what the provider call evaluates to, and
    the two readings of the clock. *)
Record effects := {
  connect : result unit;
  reply : ai_reply;
  t_analysis : str;
  t_completed : str
}.

Section Server.
Context {RT : PyRuntime}.

Definition Store := dict JobRecord.t.

Definition convert_outcome_to_response (outcome : Outcome) : OutcomeResponse.t :=
  {| OutcomeResponse.description := description outcome;
     OutcomeResponse.probability := probability outcome;
     OutcomeResponse.impact_level := impact_level outcome;
     OutcomeResponse.risk_factors := risk_factors outcome;
     OutcomeResponse.opportunities := opportunities outcome;
     OutcomeResponse.timeline := timeline outcome;
     OutcomeResponse.confidence_score := confidence_score outcome |}.

Definition convert_analysis_to_response
  (analysis : ScenarioAnalysis) (analysis_id : str) : AnalysisResponse.t :=
  {| AnalysisResponse.analysis_id := analysis_id;
     AnalysisResponse.situation := situation analysis;
     AnalysisResponse.context_factors := context_factors analysis;
     AnalysisResponse.outcomes := map convert_outcome_to_response (outcomes analysis);
     AnalysisResponse.key_variables := key_variables analysis;
     AnalysisResponse.recommendations := recommendations analysis;
     AnalysisResponse.analysis_timestamp := analysis_timestamp analysis;
     AnalysisResponse.status := txt "completed" |}.

(** [str(KeyError(k))] for a key without quotes or escapes *)
Definition key_error (k : str) : str := txt "'" ++ k ++ txt "'".

(** [record["status"] = s] *)
Definition set_status (record : JobRecord.t) (s : str) : JobRecord.t :=
  {| JobRecord.analysis_id := JobRecord.analysis_id record;
     JobRecord.status := s;
     JobRecord.created_at := JobRecord.created_at record;
     JobRecord.request := JobRecord.request record;
     JobRecord.analysis := JobRecord.analysis record;
     JobRecord.completed_at := JobRecord.completed_at record;
     JobRecord.error := JobRecord.error record |}.

(** [record.update({"status": "completed", "analysis": a, "completed_at": t})] *)
Definition update_completed (record : JobRecord.t) (a : ScenarioAnalysis) (t : str)
  : JobRecord.t :=
  {| JobRecord.analysis_id := JobRecord.analysis_id record;
     JobRecord.status := txt "completed";
     JobRecord.created_at := JobRecord.created_at record;
     JobRecord.request := JobRecord.request record;
     JobRecord.analysis := Some a;
     JobRecord.completed_at := Some t;
     JobRecord.error := JobRecord.error record |}.

(** [record.update({"status": "failed", "error": e, "completed_at": t})] *)
Definition update_failed (record : JobRecord.t) (e : str) (t : str) : JobRecord.t :=
  {| JobRecord.analysis_id := JobRecord.analysis_id record;
     JobRecord.status := txt "failed";
     JobRecord.created_at := JobRecord.created_at record;
     JobRecord.request := JobRecord.request record;
     JobRecord.analysis := JobRecord.analysis record;
     JobRecord.completed_at := Some t;
     JobRecord.error := Some e |}.

(** The [try] block of [perform_analysis]: the contents of
    [analysis_store] after each of its writes, in order, and how the block
    ends. *)
Definition perform_analysis_try
  (analysis_store : Store) (analysis_id : str) (request : AnalysisRequest.t)
  (w : effects) : list Store * result unit :=
  match dict_get analysis_store analysis_id with
  | None => ([], Raise (key_error analysis_id))
  | Some record =>
      let store1 :=
        dict_set analysis_store analysis_id (set_status record (txt "processing")) in
      match __init__ (connect w) (AnalysisRequest.api_key request)
              (AnalysisRequest.model request) with
      | Raise e => ([store1], Raise e)
      | Ok analyzer =>
          let analysis :=
            analyze analyzer (reply w) (t_analysis w)
              (AnalysisRequest.situation request) (AnalysisRequest.context request) in
          match dict_get store1 analysis_id with
          | None => ([store1], Raise (key_error analysis_id))
          | Some record =>
              ([store1;
                dict_set store1 analysis_id
                  (update_completed record analysis (t_completed w))],
               Ok tt)
          end
      end
  end.

(** [perform_analysis] with the [except Exception] handler: the successive
    contents of the store, and the exception that leaves the task, if
    any. *)
Definition perform_analysis_writes
  (analysis_store : Store) (analysis_id : str) (request : AnalysisRequest.t)
  (w : effects) : list Store * result unit :=
  let (writes, r) := perform_analysis_try analysis_store analysis_id request w in
  match r with
  | Ok _ => (writes, Ok tt)
  | Raise e =>
      let current := last writes analysis_store in
      match dict_get current analysis_id with
      | None => (writes, Raise (key_error analysis_id))
      | Some record =>
          (writes ++ [dict_set current analysis_id
                        (update_failed record e (t_completed w))],
           Ok tt)
      end
  end.

(** [perform_analysis]: the store it leaves and how it ends. *)
Definition perform_analysis
  (analysis_store : Store) (analysis_id : str) (request : AnalysisRequest.t)
  (w : effects) : Store * result unit :=
  let (writes, r) := perform_analysis_writes analysis_store analysis_id request w in
  (last writes analysis_store, r).

(** [create_analysis]; [uuid] is [str(uuid.uuid4())], [background_tasks]
    the tasks scheduled so far. *)
Definition create_analysis
  (analysis_store : Store) (background_tasks : list (str * AnalysisRequest.t))
  (request : AnalysisRequest.t) (uuid now : str)
  : Store * list (str * AnalysisRequest.t) * AnalysisStatus.t :=
  let analysis_id := uuid in
  let record :=
    {| JobRecord.analysis_id := analysis_id;
       JobRecord.status := txt "queued";
       JobRecord.created_at := now;
       JobRecord.request := request;
       JobRecord.analysis := None;
       JobRecord.completed_at := None;
       JobRecord.error := None |} in
  let analysis_store := dict_set analysis_store analysis_id record in
  let background_tasks := background_tasks ++ [(analysis_id, request)] in
  (analysis_store, background_tasks,
   {| AnalysisStatus.analysis_id := analysis_id;
      AnalysisStatus.status := txt "queued";
      AnalysisStatus.created_at := now;
      AnalysisStatus.completed_at := None;
      AnalysisStatus.error := None |}).

Definition status_of_record (analysis_id : str) (record : JobRecord.t)
  : AnalysisStatus.t :=
  {| AnalysisStatus.analysis_id := analysis_id;
     AnalysisStatus.status := JobRecord.status record;
     AnalysisStatus.created_at := JobRecord.created_at record;
     AnalysisStatus.completed_at := JobRecord.completed_at record;
     AnalysisStatus.error := JobRecord.error record |}.

Definition get_analysis_status (analysis_store : Store) (analysis_id : str)
  : response AnalysisStatus.t :=
  match dict_get analysis_store analysis_id with
  | None => HTTPException 404 (txt "Analysis not found")
  | Some record => Return (status_of_record analysis_id record)
  end.

Definition get_analysis_result (analysis_store : Store) (analysis_id : str)
  : response AnalysisResponse.t :=
  match dict_get analysis_store analysis_id with
  | None => HTTPException 404 (txt "Analysis not found")
  | Some record =>
      if negb (str_eqb (JobRecord.status record) (txt "completed")) then
        HTTPException 400
          (txt "Analysis not completed. Status: " ++ JobRecord.status record)
      else
        match JobRecord.analysis record with
        | None => HTTPException 500 (txt "Analysis data not available")
        | Some analysis => Return (convert_analysis_to_response analysis analysis_id)
        end
  end.

(** [list_analyses]; an absent [limit] is the default [10]. *)
Definition list_analyses
  (analysis_store : Store) (limit : option Z) (status : option str)
  : list AnalysisStatus.t :=
  let limit := match limit with Some n => n | None => 10%Z end in
  let analyses := dict_values analysis_store in
  let analyses :=
    match status with
    | Some s =>
        if truthy s
        then filter (fun a => str_eqb (JobRecord.status a) s) analyses
        else analyses
    | None => analyses
    end in
  let analyses := sort_reverse JobRecord.created_at analyses in
  let analyses := slice_to limit analyses in
  map (fun a => status_of_record (JobRecord.analysis_id a) a) analyses.

Definition delete_analysis (analysis_store : Store) (analysis_id : str)
  : Store * response str :=
  if negb (dict_mem analysis_store analysis_id) then
    (analysis_store, HTTPException 404 (txt "Analysis not found"))
  else (dict_del analysis_store analysis_id,
        Return (txt "Analysis deleted successfully")).

End Server.

(** *** The other routes *)

(** The dictionary that [health_check] returns. *)
Module HealthResponse.
Record t := {
  status : str;
  timestamp : str;
  active_analyses : nat
}.
End HealthResponse.

Section Routes.
Context {RT : PyRuntime}.

Definition health_check (analysis_store : Store) (now : str) : HealthResponse.t :=
  {| HealthResponse.status := txt "healthy";
     HealthResponse.timestamp := now;
     HealthResponse.active_analyses :=
       List.length
         (filter (fun a => str_eqb (JobRecord.status a) (txt "processing"))
            (dict_values analysis_store)) |}.

End Routes.

End api_server.

(** ** [web_interface.py]: the data of the dashboard

    The tables that the two chart functions hand to the plotting library,
    and the summary metrics of the result page.  The widgets and the
    plotting calls are outside the embedding. *)

Module web_interface.
Import Py scenario_analyzer.

(** The exceptions that this code can raise, and a computation that may
    raise one of them. *)
Inductive error :=
| KeyError (key : str)
| ZeroDivisionError.

Inductive raising (A : Type) : Type :=
| Done (a : A)
| Raises (e : error).
Arguments Done {A} a.
Arguments Raises {A} e.

(** [str(n)] for a natural number *)
Fixpoint uint_chars (u : Decimal.uint) : str :=
  match u with
  | Decimal.Nil => []
  | Decimal.D0 u' => 48%N :: uint_chars u'
  | Decimal.D1 u' => 49%N :: uint_chars u'
  | Decimal.D2 u' => 50%N :: uint_chars u'
  | Decimal.D3 u' => 51%N :: uint_chars u'
  | Decimal.D4 u' => 52%N :: uint_chars u'
  | Decimal.D5 u' => 53%N :: uint_chars u'
  | Decimal.D6 u' => 54%N :: uint_chars u'
  | Decimal.D7 u' => 55%N :: uint_chars u'
  | Decimal.D8 u' => 56%N :: uint_chars u'
  | Decimal.D9 u' => 57%N :: uint_chars u'
  end.

Definition str_of_nat (n : nat) : str := uint_chars (Nat.to_uint n).

(** [enumerate(l)], counting from [i] *)
Fixpoint enumerate_from (A : Type) (i : nat) (l : list A) : list (nat * A) :=
  match l with
  | [] => []
  | x :: l' => (i, x) :: enumerate_from (S i) l'
  end.

(** A row of the table of [create_probability_chart]. *)
Module ProbabilityRow.
Record t := {
  Outcome : str;
  Description : str;
  Probability : float;
  Impact : str;
  Confidence : float
}.
End ProbabilityRow.

(** A row of the table of [create_impact_confidence_scatter]. *)
Module ScatterRow.
Record t := {
  Outcome : str;
  Impact_Score : Z;
  Confidence : float;
  Probability : float;
  Description : str
}.
End ScatterRow.

(** The list comprehension of [create_probability_chart]. *)
Definition probability_chart_rows (outcomes : list Outcome) : list ProbabilityRow.t :=
  map
    (fun item =>
       let i := fst item in
       let outcome := snd item in
       {| ProbabilityRow.Outcome := txt "Outcome " ++ str_of_nat (i + 1);
          ProbabilityRow.Description :=
            if 50 <? List.length (description outcome)
            then firstn 50 (description outcome) ++ txt "..."
            else description outcome;
          ProbabilityRow.Probability := (probability outcome * 100)%float;
          ProbabilityRow.Impact := impact_level outcome;
          ProbabilityRow.Confidence := (confidence_score outcome * 100)%float |})
    (enumerate_from 0 outcomes).

(** [{'Low': 1, 'Medium': 2, 'High': 3}[level]] *)
Definition impact_score (level : str) : raising Z :=
  if str_eqb level (txt "Low") then Done 1%Z
  else if str_eqb level (txt "Medium") then Done 2%Z
  else if str_eqb level (txt "High") then Done 3%Z
  else Raises (KeyError level).

(** The list comprehension of [create_impact_confidence_scatter], from
    the index [i]: the first outcome whose level is not a key of the
    dictionary ends it. *)
Fixpoint scatter_rows_from (i : nat) (outcomes : list Outcome)
  : raising (list ScatterRow.t) :=
  match outcomes with
  | [] => Done []
  | outcome :: rest =>
      match impact_score (impact_level outcome) with
      | Raises e => Raises e
      | Done score =>
          let row :=
            {| ScatterRow.Outcome := txt "Outcome " ++ str_of_nat (i + 1);
               ScatterRow.Impact_Score := score;
               ScatterRow.Confidence := (confidence_score outcome * 100)%float;
               ScatterRow.Probability := (probability outcome * 100)%float;
               ScatterRow.Description := firstn 30 (description outcome) ++ txt "..." |} in
          match scatter_rows_from (S i) rest with
          | Raises e => Raises e
          | Done rows => Done (row :: rows)
          end
      end
  end.

Definition impact_confidence_rows (outcomes : list Outcome)
  : raising (list ScatterRow.t) :=
  scatter_rows_from 0 outcomes.

(** The four summary metrics of the result page. *)
Module SummaryMetrics.
Record t := {
  total_outcomes : nat;
  avg_prob : float;
  high_impact : nat;
  avg_confidence : float
}.
End SummaryMetrics.

Section Metrics.

(** [sum(values) / len(values)] for a list that is not empty: the sum of
    the floats and its division by the length, as the Python at hand
    rounds them. *)
Variable mean : list float -> float.

(** [sum(...) / len(analysis.outcomes)] *)
Definition average (values : list float) : raising float :=
  match values with
  | [] => Raises ZeroDivisionError
  | _ :: _ => Done (mean values)
  end.

Definition summary_metrics (analysis : ScenarioAnalysis) : raising SummaryMetrics.t :=
  let total := List.length (outcomes analysis) in
  match average (map probability (outcomes analysis)) with
  | Raises e => Raises e
  | Done avg_prob =>
      let high_impact :=
        List.length
          (filter (fun o => str_eqb (impact_level o) (txt "High"))
             (outcomes analysis)) in
      match average (map confidence_score (outcomes analysis)) with
      | Raises e => Raises e
      | Done avg_confidence =>
          Done {| SummaryMetrics.total_outcomes := total;
                  SummaryMetrics.avg_prob := avg_prob;
                  SummaryMetrics.high_impact := high_impact;
                  SummaryMetrics.avg_confidence := avg_confidence |}
      end
  end.

End Metrics.

End web_interface.

(** ** The job pipeline: the server around the store

    One state of the server: the store, the background tasks that are
    scheduled and have not run, and the identifiers handed out so far.
    An event is one request that writes the store, or one run of a
    background task; [str(uuid.uuid4())] never gives an identifier twice. *)

Module pipeline.
Import Py scenario_analyzer api_server.

Section WithRuntime.
Context {RT : PyRuntime}.

Record system := {
  analysis_store : Store;
  background_tasks : list (str * AnalysisRequest.t);
  issued : list str
}.

Inductive event :=
| Submit (request : AnalysisRequest.t) (uuid now : str)
| Execute (analysis_id : str) (w : effects)
| Delete (analysis_id : str).

Definition initial : system :=
  {| analysis_store := []; background_tasks := []; issued := [] |}.

(** the first scheduled task of a job, and the others *)
Fixpoint take_task (analysis_id : str) (tasks : list (str * AnalysisRequest.t))
  : option (AnalysisRequest.t * list (str * AnalysisRequest.t)) :=
  match tasks with
  | [] => None
  | (k, request) :: tasks' =>
      if str_eqb k analysis_id then Some (request, tasks')
      else
        match take_task analysis_id tasks' with
        | Some (r, rest) => Some (r, (k, request) :: rest)
        | None => None
        end
  end.

(** One event: the state it leaves and the successive contents of the
    store it writes; [None] when the event cannot happen. *)
Definition step (s : system) (e : event) : option (system * list Store) :=
  match e with
  | Submit request uuid now =>
      if existsb (str_eqb uuid) (issued s) then None
      else
        let '(store, tasks, _) :=
          create_analysis (analysis_store s) (background_tasks s) request uuid now in
        Some ({| analysis_store := store;
                 background_tasks := tasks;
                 issued := uuid :: issued s |},
              [store])
  | Execute analysis_id w =>
      match take_task analysis_id (background_tasks s) with
      | None => None
      | Some (request, tasks) =>
          let (writes, _) :=
            perform_analysis_writes (analysis_store s) analysis_id request w in
          Some ({| analysis_store := last writes (analysis_store s);
                   background_tasks := tasks;
                   issued := issued s |},
                writes)
      end
  | Delete analysis_id =>
      let (store, _) := delete_analysis (analysis_store s) analysis_id in
      Some ({| analysis_store := store;
               background_tasks := background_tasks s;
               issued := issued s |},
            [store])
  end.

(** A sequence of events: the final state and the history of the store. *)
Fixpoint run (s : system) (events : list event) : option (system * list Store) :=
  match events with
  | [] => Some (s, [])
  | e :: events' =>
      match step s e with
      | None => None
      | Some (s', writes) =>
          match run s' events' with
          | None => None
          | Some (s'', history) => Some (s'', writes ++ history)
          end
      end
  end.

(** The status values a job's record takes along a history of the store,
    oldest first; a store without the job contributes nothing. *)
Definition status_history (analysis_id : str) (history : list Store) : list str :=
  flat_map
    (fun store =>
       match dict_get store analysis_id with
       | Some record => [JobRecord.status record]
       | None => []
       end)
    history.

End WithRuntime.
End pipeline.

(** ** The vocabulary of the specification *)

Module Spec.
Import Py scenario_analyzer.

(** The five categories of context-factor extraction, in their order. *)
Record category := {
  keywords : list str;
  factor : str
}.

Definition categories : list category := [
  {| keywords := [txt "business"; txt "company"; txt "startup"];
     factor := txt "Business/Commercial context" |};
  {| keywords := [txt "market"; txt "economy"; txt "financial"];
     factor := txt "Economic factors" |};
  {| keywords := [txt "team"; txt "people"; txt "employee"];
     factor := txt "Human resources" |};
  {| keywords := [txt "technology"; txt "tech"; txt "digital"];
     factor := txt "Technology factors" |};
  {| keywords := [txt "time"; txt "deadline"; txt "urgent"];
     factor := txt "Time constraints" |}
].

(** [selected P l l']: [l'] keeps the elements of [l] that satisfy [P], in
    the order of [l]. *)
Inductive selected (A : Type) (P : A -> Prop) : list A -> list A -> Prop :=
| selected_nil : selected P [] []
| selected_keep x l l' : P x -> selected P l l' -> selected P (x :: l) (x :: l')
| selected_skip x l l' : ~ P x -> selected P l l' -> selected P (x :: l) l'.

(** the last element of [l], or [prev] when [l] is empty *)
Definition last_from (A : Type) (prev : option A) (l : list A) : option A :=
  fold_left (fun _ c => Some c) l prev.

Section WithRuntime.
Context {RT : PyRuntime}.

(** [kw] occurs in [s] as a whole word: neither the character before the
    occurrence nor the one after it is a word character. *)
Definition occurs_as_whole_word (kw s : str) : Prop :=
  exists pre post,
    s = pre ++ kw ++ post
    /\ word_at (last_from None pre) = false
    /\ word_at (hd_error post) = false.

Definition category_matches (s : str) (c : category) : Prop :=
  exists kw, In kw (keywords c) /\ occurs_as_whole_word kw s.

(** one ["<key>: <value>"] per pair of the mapping, in its order *)
Definition context_entries (context : option (list (str * py_object))) : list str :=
  match context with
  | Some items => map (fun kv => fst kv ++ txt ": " ++ py_format (snd kv)) items
  | None => []
  end.

(** A keyword that starts and ends with a word character. *)
Definition wordy (kw : str) : bool :=
  word_at (hd_error kw) && word_at (last_from None kw).

(** [needle] occurs in [hay] *)
Definition occurs_in (needle hay : str) : Prop :=
  exists pre post, hay = pre ++ needle ++ post.

(** The variables named by the scan of the situation text. *)
Definition situation_scan (situation : str) : list str :=
  (if contains (txt "decision") (lower situation)
   then [txt "Decision quality and timing"] else [])
  ++ (if contains (txt "resource") (lower situation)
      then [txt "Resource availability"] else [])
  ++ (if contains (txt "market") (lower situation)
      then [txt "Market conditions"] else [])
  ++ (if contains (txt "team") (lower situation)
      then [txt "Team performance and dynamics"] else []).

(** The input of the end-to-end example. *)
Definition startup_situation : str :=
  txt "I'm launching a startup with my team, market conditions are uncertain".

Definition startup_context : option (list (str * py_object)) :=
  Some [(txt "industry", py_str (txt "Technology"))].

End WithRuntime.

(** Both numbers of an outcome lie in [[0, 1]]. *)
Definition in_unit_interval (x : float) : Prop :=
  (0 <=? x)%float = true /\ (x <=? 1)%float = true.

Definition bounded (o : Outcome) : Prop :=
  in_unit_interval (probability o) /\ in_unit_interval (confidence_score o).

(** The rule-based strategy supplies the outcomes: the analyzer has no
    client, or the attempt with the provider raised. *)
Definition rule_based_path (self : ScenarioAnalyzer) (reply : ai_reply) : Prop :=
  client self = None \/ exists e, reply = Raise e.

(** the list [l], or the default when [l] is empty *)
Definition or_default (A : Type) (default l : list A) : list A :=
  match l with
  | [] => default
  | _ :: _ => l
  end.

(** [l] is made of the first [n] of the distinct values of [pool], in
    some order of them. *)
Definition first_distinct (n : nat) (pool l : list str) : Prop :=
  exists distinct,
    NoDup distinct
    /\ (forall x, In x distinct <-> In x pool)
    /\ l = firstn n distinct.

(** The entry for the first outcome, in generation order, whose
    probability exceeds 0.3; no entry when there is none. *)
Definition prepare_entry (outs : list Outcome) : list str :=
  match find (fun o => (0.3 <? probability o)%float) outs with
  | Some o => [txt "Prepare primarily for: " ++ description o]
  | None => []
  end.

Definition closing_recommendations : list str :=
  [txt "Monitor key variables closely";
   txt "Maintain flexibility for scenario pivots"].

(** *** The job lifecycle and the errors of the boundary *)

Definition queued : str := txt "queued".
Definition processing : str := txt "processing".
Definition completed : str := txt "completed".
Definition failed : str := txt "failed".

(** [l] with each run of equal consecutive values reduced to one value:
    the sequence of the changes of status. *)
Fixpoint changes_from (last : option str) (l : list str) : list str :=
  match l with
  | [] => []
  | x :: l' =>
      match last with
      | Some y => if str_eqb y x then changes_from (Some x) l'
                  else x :: changes_from (Some x) l'
      | None => x :: changes_from (Some x) l'
      end
  end.

Definition changes (l : list str) : list str := changes_from None l.

Definition is_prefix (A : Type) (l full : list A) : Prop :=
  exists rest, full = l ++ rest.

(** [b] is a later stage of the lifecycle than [a]. *)
Definition later_stage (a b : str) : Prop :=
  (a = queued /\ (b = processing \/ b = completed \/ b = failed))
  \/ (a = processing /\ (b = completed \/ b = failed)).

(** two readings of a status, the first one earlier: the same value, or
    a later stage *)
Definition no_regress (a b : str) : Prop := a = b \/ later_stage a b.

(** one write of a status after another: no change, or the next stage *)
Definition next_status (a b : str) : Prop :=
  a = b
  \/ (a = queued /\ b = processing)
  \/ (a = processing /\ (b = completed \/ b = failed)).

(** [l] continues a history whose last status is [last]: it starts with
    "queued" when the job has no status yet, and each status follows the
    one before it. *)
Fixpoint follows (last : option str) (l : list str) : Prop :=
  match l with
  | [] => True
  | x :: l' =>
      match last with
      | None => x = queued
      | Some a => next_status a x
      end
      /\ follows (Some x) l'
  end.

(** What holds of a job between two events, [last] being the last status
    its record took: the record, when it is there, has that status; a
    task that has not run means the job is still queued; no job has two
    tasks; tasks belong to issued identifiers; a job that was never
    submitted has no status. *)
Definition job_invariant {RT : PyRuntime}
  (analysis_id : str) (last : option str) (s : pipeline.system) : Prop :=
  (forall r, api_server.dict_get (pipeline.analysis_store s) analysis_id = Some r ->
             last = Some (api_server.JobRecord.status r))
  /\ (In analysis_id (map fst (pipeline.background_tasks s)) -> last = Some queued)
  /\ NoDup (map fst (pipeline.background_tasks s))
  /\ (forall k, In k (map fst (pipeline.background_tasks s)) ->
                In k (pipeline.issued s))
  /\ (~ In analysis_id (pipeline.issued s) -> last = None).

(** The analysis that a response of [GetResult] carries. *)
Definition outcome_of_response (o : api_server.OutcomeResponse.t) : Outcome :=
  {| description := api_server.OutcomeResponse.description o;
     probability := api_server.OutcomeResponse.probability o;
     impact_level := api_server.OutcomeResponse.impact_level o;
     risk_factors := api_server.OutcomeResponse.risk_factors o;
     opportunities := api_server.OutcomeResponse.opportunities o;
     timeline := api_server.OutcomeResponse.timeline o;
     confidence_score := api_server.OutcomeResponse.confidence_score o |}.

Definition analysis_of_response (r : api_server.AnalysisResponse.t) : ScenarioAnalysis :=
  {| situation := api_server.AnalysisResponse.situation r;
     context_factors := api_server.AnalysisResponse.context_factors r;
     outcomes := map outcome_of_response (api_server.AnalysisResponse.outcomes r);
     key_variables := api_server.AnalysisResponse.key_variables r;
     recommendations := api_server.AnalysisResponse.recommendations r;
     analysis_timestamp := api_server.AnalysisResponse.analysis_timestamp r |}.

(** What the engine does for one request of the background task: the
    analyzer is built, then [analyze] runs. *)
Definition run_engine {RT : PyRuntime}
  (w : api_server.effects) (request : api_server.AnalysisRequest.t)
  : result ScenarioAnalysis :=
  match __init__ (api_server.connect w)
          (api_server.AnalysisRequest.api_key request)
          (api_server.AnalysisRequest.model request) with
  | Raise e => Raise e
  | Ok analyzer =>
      Ok (analyze analyzer (api_server.reply w) (api_server.t_analysis w)
            (api_server.AnalysisRequest.situation request)
            (api_server.AnalysisRequest.context request))
  end.

(** [a] may stand before [b] in a list sorted in reverse on [key] *)
Definition key_ge (V : Type) (key : V -> str) (a b : V) : Prop :=
  str_leb (key b) (key a) = true.

(** [a] is listed before [b]: [a] was not created before [b]. *)
Definition newest_first (a b : api_server.AnalysisStatus.t) : Prop :=
  key_ge api_server.AnalysisStatus.created_at a b.

(** The three errors of [GetResult] and the status code that carries each
    of them at the boundary. *)
Inductive error_kind := NotFound | InvalidState | InternalInconsistency.

Definition status_code_of (k : error_kind) : Z :=
  match k with
  | NotFound => 404
  | InvalidState => 400
  | InternalInconsistency => 500
  end.

Definition fails_with (A : Type) (r : api_server.response A) (k : error_kind) : Prop :=
  exists detail, r = api_server.HTTPException (status_code_of k) detail.

End Spec.

(** ** Sample data *)

Module Examples.
Import Py scenario_analyzer api_server pipeline Spec.

(** An analyzer without credentials and one with a key, and an outcome
    that a reply of the provider may carry. *)
Definition no_credentials : ScenarioAnalyzer :=
  {| client := None; model := txt "gpt-4" |}.

Definition with_credentials : ScenarioAnalyzer :=
  {| client := Some (OpenAI_client (txt "sk-test")); model := txt "gpt-4" |}.

Definition certain_success : Outcome :=
  {| description := txt "Certain success";
     probability := 1.5;
     impact_level := txt "High";
     risk_factors := [txt "None"];
     opportunities := [txt "Growth"];
     timeline := txt "Short term";
     confidence_score := 0.9 |}.

Definition market_request : AnalysisRequest.t (RT := plain_runtime) :=
  {| AnalysisRequest.situation := txt "Should we expand to a new market?";
     AnalysisRequest.context := None;
     AnalysisRequest.api_key := None;
     AnalysisRequest.model := txt "gpt-4" |}.

Definition keyed_request : AnalysisRequest.t (RT := plain_runtime) :=
  {| AnalysisRequest.situation := txt "Should we expand to a new market?";
     AnalysisRequest.context := None;
     AnalysisRequest.api_key := Some (txt "sk-test");
     AnalysisRequest.model := txt "gpt-4" |}.

Definition job (analysis_id status created_at : str)
  (analysis : option ScenarioAnalysis) (completed_at : option str)
  : JobRecord.t (RT := plain_runtime) :=
  {| JobRecord.analysis_id := analysis_id;
     JobRecord.status := status;
     JobRecord.created_at := created_at;
     JobRecord.request := market_request;
     JobRecord.analysis := analysis;
     JobRecord.completed_at := completed_at;
     JobRecord.error := None |}.

Definition market_analysis : ScenarioAnalysis :=
  analyze (RT := plain_runtime) no_credentials (Raise (txt "unused"))
    (txt "2024-05-01T10:00:01") (txt "Should we expand to a new market?") None.

(** two jobs that wait *)
Definition two_jobs : Store (RT := plain_runtime) :=
  [(txt "job-1", job (txt "job-1") queued (txt "2024-05-01T10:00:00") None None);
   (txt "job-2", job (txt "job-2") queued (txt "2024-05-01T11:00:00") None None)].

(** a job that waits, a completed one, and a completed one without its
    analysis *)
Definition three_jobs : Store (RT := plain_runtime) :=
  [(txt "job-1", job (txt "job-1") queued (txt "2024-05-01T10:00:00") None None);
   (txt "job-2", job (txt "job-2") completed (txt "2024-05-01T11:00:00")
                   (Some market_analysis) (Some (txt "2024-05-01T11:00:02")));
   (txt "job-3", job (txt "job-3") completed (txt "2024-05-01T12:00:00")
                   None (Some (txt "2024-05-01T12:00:02")))].

Definition provider_up : effects :=
  {| connect := Ok tt;
     reply := Ok [certain_success];
     t_analysis := txt "2024-05-01T10:00:01";
     t_completed := txt "2024-05-01T10:00:02" |}.

Definition provider_down : effects :=
  {| connect := Raise (txt "Connection error.");
     reply := Raise (txt "unused");
     t_analysis := txt "2024-05-01T10:00:01";
     t_completed := txt "2024-05-01T10:00:02" |}.

(** two submissions, the two tasks, the second one first, and a delete *)
Definition busy_morning : list (event (RT := plain_runtime)) :=
  [Submit market_request (txt "job-1") (txt "2024-05-01T10:00:00");
   Submit keyed_request (txt "job-2") (txt "2024-05-01T10:00:05");
   Execute (txt "job-2") provider_down;
   Execute (txt "job-1") provider_up;
   Delete (txt "job-2")].

End Examples.

(** ** More vocabulary *)

Module MoreSpec.
Import Py scenario_analyzer api_server pipeline Spec.

(** the names whose test succeeded, in the order of the tests *)
Definition named (tests : list (bool * str)) : list str :=
  flat_map (fun t : bool * str => if fst t then [snd t] else []) tests.

(** the number of distinct values of a list *)
Definition distinct_count (l : list str) : nat :=
  List.length (nodup str_eq_dec l).

Definition canonical_risks : list str :=
  [txt "Overconfidence"; txt "External disruptions";
   txt "Resource constraints"; txt "Execution challenges";
   txt "Major setbacks"; txt "Resource depletion";
   txt "Complete failure"; txt "Reputation damage"].

Definition canonical_opportunities : list str :=
  [txt "Maximum benefit realization"; txt "Positive momentum";
   txt "Learning opportunities"; txt "Incremental progress";
   txt "Resilience building"; txt "Alternative paths";
   txt "Lessons learned"; txt "Fresh start potential"].

(** no credentials: no key, or the empty string *)
Definition no_key (api_key : option str) : Prop :=
  api_key = None \/ api_key = Some [].

Section WithRuntime.
Context {RT : PyRuntime}.

(** The seven tests of [_identify_key_variables] and the variable each
    one names. *)
Definition key_variable_tests (situation : str) (outcomes : list Outcome)
  : list (bool * str) :=
  let all_risks := flat_map risk_factors outcomes in
  [(contains (txt "decision") (lower situation), txt "Decision quality and timing");
   (contains (txt "resource") (lower situation), txt "Resource availability");
   (contains (txt "market") (lower situation), txt "Market conditions");
   (contains (txt "team") (lower situation), txt "Team performance and dynamics");
   (existsb (fun risk => contains (txt "resource") (lower risk)) all_risks,
    txt "Resource management");
   (existsb (fun risk => contains (txt "execution") (lower risk)) all_risks,
    txt "Execution capability");
   (existsb (fun risk => contains (txt "external") (lower risk)) all_risks,
    txt "External environment")].

(** The records that the status filter of [list_analyses] keeps. *)
Definition matching (store : Store) (status : option str) : list JobRecord.t :=
  match status with
  | Some s =>
      if truthy s
      then filter (fun a => str_eqb (JobRecord.status a) s) (dict_values store)
      else dict_values store
  | None => dict_values store
  end.

Definition summary (a : JobRecord.t) : AnalysisStatus.t :=
  status_of_record (JobRecord.analysis_id a) a.

(** The fields of a record agree with its status. *)
Definition consistent_record (r : JobRecord.t) : Prop :=
  (JobRecord.status r = queued
   /\ JobRecord.analysis r = None
   /\ JobRecord.error r = None
   /\ JobRecord.completed_at r = None)
  \/ (JobRecord.status r = completed
      /\ (exists a, JobRecord.analysis r = Some a)
      /\ JobRecord.error r = None
      /\ (exists t, JobRecord.completed_at r = Some t))
  \/ (JobRecord.status r = failed
      /\ JobRecord.analysis r = None
      /\ (exists e, JobRecord.error r = Some e)
      /\ (exists t, JobRecord.completed_at r = Some t)).

(** What holds of the whole server between two events: the keys of the
    store are distinct and issued, every record is stored under its own
    identifier and is consistent, a job whose task has not run is queued,
    and no job has two tasks. *)
Definition server_invariant (s : system) : Prop :=
  NoDup (map fst (analysis_store s))
  /\ (forall k, In k (map fst (analysis_store s)) -> In k (issued s))
  /\ (forall k r, dict_get (analysis_store s) k = Some r ->
        JobRecord.analysis_id r = k
        /\ consistent_record r
        /\ (In k (map fst (background_tasks s)) -> JobRecord.status r = queued))
  /\ NoDup (map fst (background_tasks s))
  /\ (forall k, In k (map fst (background_tasks s)) -> In k (issued s)).

End WithRuntime.

(** an impact level that the scatter chart knows *)
Definition valid_level (level : str) : Prop :=
  level = txt "Low" \/ level = txt "Medium" \/ level = txt "High".

End MoreSpec.

(** ** More sample data *)

Module MoreExamples.
Import Py scenario_analyzer api_server pipeline Spec Examples.

(** an outcome that a reply of the provider may carry, with a level that
    the scatter chart does not know *)
Definition critical_outcome : Outcome :=
  {| description := txt "Regulators block the launch";
     probability := 0.2;
     impact_level := txt "Critical";
     risk_factors := [txt "Compliance"];
     opportunities := [];
     timeline := txt "Short term";
     confidence_score := 0.5 |}.

(** a stand-in for the mean of a list of floats; the facts evaluated with
    it do not look at the averages *)
Definition first_value (values : list float) : float := hd 0%float values.

(** two jobs submitted, none of the tasks run yet *)
Definition waiting : system (RT := plain_runtime) :=
  {| analysis_store := two_jobs;
     background_tasks := [(txt "job-1", market_request); (txt "job-2", keyed_request)];
     issued := [txt "job-2"; txt "job-1"] |}.

(** the task of the first job runs after the delete of the job *)
Definition late_task : list (event (RT := plain_runtime)) :=
  [Execute (txt "job-1") provider_up; Execute (txt "job-2") provider_down].

End MoreExamples.

(** ** Replies of the provider with values of any type

    [Outcome] is a dataclass: its constructor checks the names of the
    fields and not the types of the values, so a reply of the provider
    that [json.loads] parses and that has the seven keys is accepted
    whatever its values are.  The modules above follow the code on values
    of the declared types.  The modules below follow it on every value
    that [json.loads] returns: the engine then raises from
    [_identify_key_variables] and [_generate_recommendations], outside the
    [try] of [_ai_generate_outcomes], and the conversion to the response
    model raises the validation error of pydantic. *)

Module json.
Import Py scenario_analyzer.

(** What [json.loads] returns. *)
#[local] Set Warnings "-register-all".
Inductive value :=
| VNone
| VBool (b : bool)
| VInt (n : Z)
| VFloat (x : float)
| VStr (s : str)
| VList (items : list value)
| VDict (items : list (str * value)).

(** [for x in v]: the elements of a list, the characters of a string, the
    keys of a dictionary; the other values are not iterable. *)
Definition iterate (v : value) : option (list value) :=
  match v with
  | VList items => Some items
  | VStr s => Some (map (fun c => VStr [c]) s)
  | VDict items => Some (map (fun kv => VStr (fst kv)) items)
  | VNone | VBool _ | VInt _ | VFloat _ => None
  end.

(** [hash(v)] is defined. *)
Definition hashable (v : value) : bool :=
  match v with
  | VList _ | VDict _ => false
  | VNone | VBool _ | VInt _ | VFloat _ | VStr _ => true
  end.

(** The exceptions that the engine raises on a value of another type than
    the declared one. *)
Inductive exception :=
(** [TypeError]: [list.extend(v)] for a [v] that is not iterable *)
| TypeError_not_iterable (v : value)
(** [AttributeError]: [v.lower()] for a [v] that is not a string *)
| AttributeError_lower (v : value)
(** [TypeError]: [v > 0.3] for a [v] that is not a number *)
| TypeError_not_ordered (v : value)
(** [TypeError]: [set(l)] for an [l] with the unhashable [v] *)
| TypeError_unhashable (v : value).

(** What the interpreter decides for these values. *)
Class PyValues {RT : PyRuntime} := {
  (** [str(e)] *)
  str_of_exception : exception -> str;
  (** what an f-string prints for a value *)
  format_value : value -> str;
  format_value_str : forall s, format_value (VStr s) = s;
  (** [list(set(l))] for hashable values: on strings it is the [set_iter]
      of the runtime, and its elements are elements of [l] *)
  set_iter_values : list value -> list value;
  set_iter_values_str :
    forall l : list str, set_iter_values (map VStr l) = map VStr (set_iter l);
  set_iter_values_In :
    forall (l : list value) (x : value), In x (set_iter_values l) -> In x l
}.

(** Sequencing of calls that may raise. *)
Definition bind (A B : Type) (r : result A) (k : A -> result B) : result B :=
  match r with
  | Ok a => k a
  | Raise e => Raise e
  end.

End json.

Notation "x <- r ;; k" := (json.bind r (fun x => k))
  (at level 61, r at next level, right associativity).

(** ** [scenario_analyzer.py] on values of any type *)

Module dynamic_engine.
Import Py scenario_analyzer api_server json.

(** An [Outcome] object: each field holds what the payload carried. *)
Record Outcome := {
  description : value;
  probability : value;
  impact_level : value;
  risk_factors : value;
  opportunities : value;
  timeline : value;
  confidence_score : value
}.

Record ScenarioAnalysis := {
  situation : str;
  context_factors : list str;
  outcomes : list Outcome;
  key_variables : list str;
  recommendations : list str;
  analysis_timestamp : str
}.

(** An outcome with values of the declared types, as an object. *)
Definition object_of (o : scenario_analyzer.Outcome) : Outcome :=
  {| description := VStr (scenario_analyzer.description o);
     probability := VFloat (scenario_analyzer.probability o);
     impact_level := VStr (scenario_analyzer.impact_level o);
     risk_factors := VList (map VStr (scenario_analyzer.risk_factors o));
     opportunities := VList (map VStr (scenario_analyzer.opportunities o));
     timeline := VStr (scenario_analyzer.timeline o);
     confidence_score := VFloat (scenario_analyzer.confidence_score o) |}.

(** What the request to the provider and [json.loads] of the reply
    evaluate to: the parsed value, or the exception one of them raised. *)
Definition ai_reply := result value.

(** The [Outcome] constructor applied to the keys of [outcome], which
    must be a mapping with the seven names of the fields as its keys, no
    more and no less; [None] is the [TypeError] of the call otherwise. *)
Definition Outcome_of (outcome : value) : option Outcome :=
  match outcome with
  | VDict items =>
      if (List.length items =? 7)%nat then
        match dict_get items (txt "description"),
              dict_get items (txt "probability"),
              dict_get items (txt "impact_level"),
              dict_get items (txt "risk_factors"),
              dict_get items (txt "opportunities"),
              dict_get items (txt "timeline"),
              dict_get items (txt "confidence_score") with
        | Some d, Some p, Some i, Some r, Some o, Some t, Some c =>
            Some {| description := d;
                    probability := p;
                    impact_level := i;
                    risk_factors := r;
                    opportunities := o;
                    timeline := t;
                    confidence_score := c |}
        | _, _, _, _, _, _, _ => None
        end
      else None
  | _ => None
  end.

(** The comprehension: the constructor for each element, in order. *)
Fixpoint Outcomes_of (items : list value) : option (list Outcome) :=
  match items with
  | [] => Some []
  | outcome :: rest =>
      match Outcome_of outcome with
      | None => None
      | Some o =>
          match Outcomes_of rest with
          | None => None
          | Some outcomes => Some (o :: outcomes)
          end
      end
  end.

Section Engine.
Context {RT : PyRuntime} {PV : PyValues}.

Definition raise {A : Type} (e : exception) : result A :=
  Raise (str_of_exception e).

Definition _rule_based_outcomes (situation : str) (context_factors : list str)
  : list Outcome :=
  map object_of (scenario_analyzer._rule_based_outcomes situation context_factors).

(** The [try] block after the request: the comprehension over the parsed
    value.  Every exception of the block ends in the rule-based outcomes;
    the [except] branch also prints the exception, and nothing reads it. *)
Definition _ai_generate_outcomes
  (reply : ai_reply) (situation : str) (context_factors : list str) : list Outcome :=
  match reply with
  | Raise _ => _rule_based_outcomes situation context_factors
  | Ok ai_outcomes =>
      match iterate ai_outcomes with
      | None => _rule_based_outcomes situation context_factors
      | Some items =>
          match Outcomes_of items with
          | None => _rule_based_outcomes situation context_factors
          | Some outcomes => outcomes
          end
      end
  end.

Definition _generate_outcomes (self : ScenarioAnalyzer)
  (reply : ai_reply) (situation : str) (context_factors : list str) : list Outcome :=
  match client self with
  | Some _ => _ai_generate_outcomes reply situation context_factors
  | None => _rule_based_outcomes situation context_factors
  end.

(** [all.extend(field(outcome))] for each outcome in turn, from [all]. *)
Fixpoint pooled (field : Outcome -> value) (outcomes : list Outcome)
  (all : list value) : result (list value) :=
  match outcomes with
  | [] => Ok all
  | outcome :: rest =>
      match iterate (field outcome) with
      | None => raise (TypeError_not_iterable (field outcome))
      | Some items => pooled field rest (all ++ items)
      end
  end.

(** [any(kw in risk.lower() for risk in all_risks)]: it stops at the first
    risk that has the keyword, and raises at a risk that is not a string
    when it gets there. *)
Fixpoint any_lower_contains (kw : str) (all_risks : list value) : result bool :=
  match all_risks with
  | [] => Ok false
  | VStr risk :: rest =>
      if contains kw (lower risk) then Ok true else any_lower_contains kw rest
  | v :: _ => raise (AttributeError_lower v)
  end.

Definition _identify_key_variables (situation : str) (outcomes : list Outcome)
  : result (list str) :=
  let variables : list str := [] in
  let variables :=
    if contains (txt "decision") (lower situation)
    then variables ++ [txt "Decision quality and timing"] else variables in
  let variables :=
    if contains (txt "resource") (lower situation)
    then variables ++ [txt "Resource availability"] else variables in
  let variables :=
    if contains (txt "market") (lower situation)
    then variables ++ [txt "Market conditions"] else variables in
  let variables :=
    if contains (txt "team") (lower situation)
    then variables ++ [txt "Team performance and dynamics"] else variables in
  all_risks <- pooled risk_factors outcomes [] ;;
  resource <- any_lower_contains (txt "resource") all_risks ;;
  let variables :=
    if resource then variables ++ [txt "Resource management"] else variables in
  execution <- any_lower_contains (txt "execution") all_risks ;;
  let variables :=
    if execution then variables ++ [txt "Execution capability"] else variables in
  external <- any_lower_contains (txt "external") all_risks ;;
  let variables :=
    if external then variables ++ [txt "External environment"] else variables in
  Ok match variables with
     | [] => [txt "Situational dynamics"; txt "External factors"]
     | _ :: _ => variables
     end.

(** [v > 0.3]: numbers are compared by their values, a Boolean counts as 0
    or 1, and the other values are not ordered with a float. *)
Definition above_03 (v : value) : result bool :=
  match v with
  | VFloat x => Ok (0.3 <? x)%float
  | VInt n => Ok (0 <? n)%Z
  | VBool b => Ok b
  | VNone | VStr _ | VList _ | VDict _ => raise (TypeError_not_ordered v)
  end.

(** [[o for o in outcomes if o.probability > 0.3]] *)
Fixpoint high_prob (outcomes : list Outcome) : result (list Outcome) :=
  match outcomes with
  | [] => Ok []
  | o :: rest =>
      keep <- above_03 (probability o) ;;
      others <- high_prob rest ;;
      Ok (if keep then o :: others else others)
  end.

(** [list(set(l))] *)
Definition list_set (l : list value) : result (list value) :=
  match find (fun v => negb (hashable v)) l with
  | Some v => raise (TypeError_unhashable v)
  | None => Ok (set_iter_values l)
  end.

Definition _generate_recommendations (situation : str) (outcomes : list Outcome)
  : result (list str) :=
  let recommendations : list str := [] in
  high_prob_outcomes <- high_prob outcomes ;;
  let recommendations :=
    match high_prob_outcomes with
    | o :: _ =>
        recommendations
        ++ [txt "Prepare primarily for: " ++ format_value (description o)]
    | [] => recommendations
    end in
  all_risks <- pooled risk_factors outcomes [] ;;
  distinct_risks <- list_set all_risks ;;
  let common_risks := firstn 3 distinct_risks in
  let recommendations :=
    fold_left (fun recs risk => recs ++ [txt "Mitigate risk: " ++ format_value risk])
      common_risks recommendations in
  all_opportunities <- pooled opportunities outcomes [] ;;
  distinct_opportunities <- list_set all_opportunities ;;
  let common_opportunities := firstn 2 distinct_opportunities in
  let recommendations :=
    fold_left
      (fun recs opp => recs ++ [txt "Leverage opportunity: " ++ format_value opp])
      common_opportunities recommendations in
  let recommendations := recommendations ++ [txt "Monitor key variables closely"] in
  let recommendations :=
    recommendations ++ [txt "Maintain flexibility for scenario pivots"] in
  Ok recommendations.

(** [analyze]: the value it returns, or the exception that leaves it. *)
Definition analyze (self : ScenarioAnalyzer) (reply : ai_reply) (now : str)
  (situation : str) (context : option (list (str * py_object)))
  : result ScenarioAnalysis :=
  let context_factors := _extract_context_factors situation context in
  let outcomes := _generate_outcomes self reply situation context_factors in
  key_variables <- _identify_key_variables situation outcomes ;;
  recommendations <- _generate_recommendations situation outcomes ;;
  Ok {| situation := situation;
        context_factors := context_factors;
        outcomes := outcomes;
        key_variables := key_variables;
        recommendations := recommendations;
        analysis_timestamp := now |}.

End Engine.

End dynamic_engine.

(** ** [api_server.py] on values of any type *)

Module dynamic_server.
Import Py scenario_analyzer api_server json.

(** A value of [analysis_store]; the analysis is what [analyze]
    returned. *)
Module JobRecord.
Record t {RT : PyRuntime} := {
  analysis_id : str;
  status : str;
  created_at : str;
  request : AnalysisRequest.t;
  analysis : option dynamic_engine.ScenarioAnalysis;
  completed_at : option str;
  error : option str
}.
End JobRecord.

(** What one run of the engine reads from outside: whether building the
    client raises, what the request and [json.loads] evaluate to, and the
    two readings of the clock. *)
Record effects := {
  connect : result unit;
  reply : dynamic_engine.ai_reply;
  t_analysis : str;
  t_completed : str
}.

(** The validation of pydantic: [OutcomeResponse(...)] with the seven
    fields of an outcome returns the model or raises [ValidationError],
    [Raise] with its text.  Values of the declared types pass unchanged,
    and [None] is not accepted for a field, none being optional. *)
Class Pydantic := {
  OutcomeResponse_of : dynamic_engine.Outcome -> result OutcomeResponse.t;
  OutcomeResponse_of_declared :
    forall o : Outcome,
      OutcomeResponse_of (dynamic_engine.object_of o)
      = Ok (convert_outcome_to_response o);
  OutcomeResponse_of_None :
    forall o : dynamic_engine.Outcome,
      In VNone
        [dynamic_engine.description o; dynamic_engine.probability o;
         dynamic_engine.impact_level o; dynamic_engine.risk_factors o;
         dynamic_engine.opportunities o; dynamic_engine.timeline o;
         dynamic_engine.confidence_score o] ->
      exists e, OutcomeResponse_of o = Raise e
}.

Section Server.
Context {RT : PyRuntime} {PV : PyValues} {PD : Pydantic}.

Definition Store := dict JobRecord.t.

Definition convert_outcome_to_response (outcome : dynamic_engine.Outcome)
  : result OutcomeResponse.t :=
  OutcomeResponse_of outcome.

(** [[convert_outcome_to_response(outcome) for outcome in outcomes]] *)
Fixpoint convert_outcomes (outcomes : list dynamic_engine.Outcome)
  : result (list OutcomeResponse.t) :=
  match outcomes with
  | [] => Ok []
  | outcome :: rest =>
      r <- convert_outcome_to_response outcome ;;
      rs <- convert_outcomes rest ;;
      Ok (r :: rs)
  end.

Definition convert_analysis_to_response
  (analysis : dynamic_engine.ScenarioAnalysis) (analysis_id : str)
  : result AnalysisResponse.t :=
  outcomes <- convert_outcomes (dynamic_engine.outcomes analysis) ;;
  Ok {| AnalysisResponse.analysis_id := analysis_id;
        AnalysisResponse.situation := dynamic_engine.situation analysis;
        AnalysisResponse.context_factors := dynamic_engine.context_factors analysis;
        AnalysisResponse.outcomes := outcomes;
        AnalysisResponse.key_variables := dynamic_engine.key_variables analysis;
        AnalysisResponse.recommendations := dynamic_engine.recommendations analysis;
        AnalysisResponse.analysis_timestamp :=
          dynamic_engine.analysis_timestamp analysis;
        AnalysisResponse.status := txt "completed" |}.

(** [record["status"] = s] *)
Definition set_status (record : JobRecord.t) (s : str) : JobRecord.t :=
  {| JobRecord.analysis_id := JobRecord.analysis_id record;
     JobRecord.status := s;
     JobRecord.created_at := JobRecord.created_at record;
     JobRecord.request := JobRecord.request record;
     JobRecord.analysis := JobRecord.analysis record;
     JobRecord.completed_at := JobRecord.completed_at record;
     JobRecord.error := JobRecord.error record |}.

(** [record.update({"status": "completed", "analysis": a, "completed_at": t})] *)
Definition update_completed (record : JobRecord.t)
  (a : dynamic_engine.ScenarioAnalysis) (t : str) : JobRecord.t :=
  {| JobRecord.analysis_id := JobRecord.analysis_id record;
     JobRecord.status := txt "completed";
     JobRecord.created_at := JobRecord.created_at record;
     JobRecord.request := JobRecord.request record;
     JobRecord.analysis := Some a;
     JobRecord.completed_at := Some t;
     JobRecord.error := JobRecord.error record |}.

(** [record.update({"status": "failed", "error": e, "completed_at": t})] *)
Definition update_failed (record : JobRecord.t) (e : str) (t : str) : JobRecord.t :=
  {| JobRecord.analysis_id := JobRecord.analysis_id record;
     JobRecord.status := txt "failed";
     JobRecord.created_at := JobRecord.created_at record;
     JobRecord.request := JobRecord.request record;
     JobRecord.analysis := JobRecord.analysis record;
     JobRecord.completed_at := Some t;
     JobRecord.error := Some e |}.

(** The [try] block of [perform_analysis]: the contents of
    [analysis_store] after each of its writes, in order, and how the block
    ends. *)
Definition perform_analysis_try
  (analysis_store : Store) (analysis_id : str) (request : AnalysisRequest.t)
  (w : effects) : list Store * result unit :=
  match dict_get analysis_store analysis_id with
  | None => ([], Raise (key_error analysis_id))
  | Some record =>
      let store1 :=
        dict_set analysis_store analysis_id (set_status record (txt "processing")) in
      match __init__ (connect w) (AnalysisRequest.api_key request)
              (AnalysisRequest.model request) with
      | Raise e => ([store1], Raise e)
      | Ok analyzer =>
          match dynamic_engine.analyze analyzer (reply w) (t_analysis w)
                  (AnalysisRequest.situation request)
                  (AnalysisRequest.context request) with
          | Raise e => ([store1], Raise e)
          | Ok analysis =>
              match dict_get store1 analysis_id with
              | None => ([store1], Raise (key_error analysis_id))
              | Some record =>
                  ([store1;
                    dict_set store1 analysis_id
                      (update_completed record analysis (t_completed w))],
                   Ok tt)
              end
          end
      end
  end.

(** [perform_analysis] with the [except Exception] handler: the successive
    contents of the store, and the exception that leaves the task, if
    any. *)
Definition perform_analysis_writes
  (analysis_store : Store) (analysis_id : str) (request : AnalysisRequest.t)
  (w : effects) : list Store * result unit :=
  let (writes, r) := perform_analysis_try analysis_store analysis_id request w in
  match r with
  | Ok _ => (writes, Ok tt)
  | Raise e =>
      let current := last writes analysis_store in
      match dict_get current analysis_id with
      | None => (writes, Raise (key_error analysis_id))
      | Some record =>
          (writes ++ [dict_set current analysis_id
                        (update_failed record e (t_completed w))],
           Ok tt)
      end
  end.

(** [perform_analysis]: the store it leaves and how it ends. *)
Definition perform_analysis
  (analysis_store : Store) (analysis_id : str) (request : AnalysisRequest.t)
  (w : effects) : Store * result unit :=
  let (writes, r) := perform_analysis_writes analysis_store analysis_id request w in
  (last writes analysis_store, r).

(** [create_analysis]; [uuid] is [str(uuid.uuid4())], [background_tasks]
    the tasks scheduled so far. *)
Definition create_analysis
  (analysis_store : Store) (background_tasks : list (str * AnalysisRequest.t))
  (request : AnalysisRequest.t) (uuid now : str)
  : Store * list (str * AnalysisRequest.t) * AnalysisStatus.t :=
  let analysis_id := uuid in
  let record :=
    {| JobRecord.analysis_id := analysis_id;
       JobRecord.status := txt "queued";
       JobRecord.created_at := now;
       JobRecord.request := request;
       JobRecord.analysis := None;
       JobRecord.completed_at := None;
       JobRecord.error := None |} in
  let analysis_store := dict_set analysis_store analysis_id record in
  let background_tasks := background_tasks ++ [(analysis_id, request)] in
  (analysis_store, background_tasks,
   {| AnalysisStatus.analysis_id := analysis_id;
      AnalysisStatus.status := txt "queued";
      AnalysisStatus.created_at := now;
      AnalysisStatus.completed_at := None;
      AnalysisStatus.error := None |}).

Definition get_analysis_status (analysis_store : Store) (analysis_id : str)
  : response AnalysisStatus.t :=
  match dict_get analysis_store analysis_id with
  | None => HTTPException 404 (txt "Analysis not found")
  | Some record =>
      Return {| AnalysisStatus.analysis_id := analysis_id;
                AnalysisStatus.status := JobRecord.status record;
                AnalysisStatus.created_at := JobRecord.created_at record;
                AnalysisStatus.completed_at := JobRecord.completed_at record;
                AnalysisStatus.error := JobRecord.error record |}
  end.

(** [get_analysis_result]: what the route answers, a value or an
    [HTTPException], or [Raise] with the exception that leaves it, which
    is not an [HTTPException]. *)
Definition get_analysis_result (analysis_store : Store) (analysis_id : str)
  : result (response AnalysisResponse.t) :=
  match dict_get analysis_store analysis_id with
  | None => Ok (HTTPException 404 (txt "Analysis not found"))
  | Some record =>
      if negb (str_eqb (JobRecord.status record) (txt "completed")) then
        Ok (HTTPException 400
              (txt "Analysis not completed. Status: " ++ JobRecord.status record))
      else
        match JobRecord.analysis record with
        | None => Ok (HTTPException 500 (txt "Analysis data not available"))
        | Some analysis =>
            r <- convert_analysis_to_response analysis analysis_id ;;
            Ok (Return r)
        end
  end.

(** [analyze_sync]; [uuid] is [str(uuid.uuid4())], read after the
    analysis.  The [try] covers the analyzer, the analysis and the
    conversion. *)
Definition analyze_sync (request : AnalysisRequest.t) (w : effects) (uuid : str)
  : response AnalysisResponse.t :=
  let body :=
    analyzer <- __init__ (connect w) (AnalysisRequest.api_key request)
                  (AnalysisRequest.model request) ;;
    analysis <- dynamic_engine.analyze analyzer (reply w) (t_analysis w)
                  (AnalysisRequest.situation request)
                  (AnalysisRequest.context request) ;;
    let analysis_id := uuid in
    convert_analysis_to_response analysis analysis_id in
  match body with
  | Ok r => Return r
  | Raise e => HTTPException 500 (txt "Analysis failed: " ++ e)
  end.

Definition delete_analysis (analysis_store : Store) (analysis_id : str)
  : Store * response str :=
  if negb (dict_mem analysis_store analysis_id) then
    (analysis_store, HTTPException 404 (txt "Analysis not found"))
  else (dict_del analysis_store analysis_id,
        Return (txt "Analysis deleted successfully")).

End Server.

End dynamic_server.

(** ** The job pipeline on values of any type *)

Module dynamic_pipeline.
Import Py scenario_analyzer api_server json.
Import dynamic_server.

Section WithRuntime.
Context {RT : PyRuntime} {PV : PyValues} {PD : Pydantic}.

Record system := {
  analysis_store : Store;
  background_tasks : list (str * AnalysisRequest.t);
  issued : list str
}.

Inductive event :=
| Submit (request : AnalysisRequest.t) (uuid now : str)
| Execute (analysis_id : str) (w : effects)
| Delete (analysis_id : str).

Definition initial : system :=
  {| analysis_store := []; background_tasks := []; issued := [] |}.

(** One event: the state it leaves; [None] when the event cannot
    happen. *)
Definition step (s : system) (e : event) : option system :=
  match e with
  | Submit request uuid now =>
      if existsb (str_eqb uuid) (issued s) then None
      else
        let '(store, tasks, _) :=
          create_analysis (analysis_store s) (background_tasks s) request uuid now in
        Some {| analysis_store := store;
                background_tasks := tasks;
                issued := uuid :: issued s |}
  | Execute analysis_id w =>
      match pipeline.take_task analysis_id (background_tasks s) with
      | None => None
      | Some (request, tasks) =>
          let (store, _) :=
            perform_analysis (analysis_store s) analysis_id request w in
          Some {| analysis_store := store;
                  background_tasks := tasks;
                  issued := issued s |}
      end
  | Delete analysis_id =>
      let (store, _) := delete_analysis (analysis_store s) analysis_id in
      Some {| analysis_store := store;
              background_tasks := background_tasks s;
              issued := issued s |}
  end.

(** A sequence of events: the final state. *)
Fixpoint run (s : system) (events : list event) : option system :=
  match events with
  | [] => Some s
  | e :: events' =>
      match step s e with
      | None => None
      | Some s' => run s' events'
      end
  end.

End WithRuntime.
End dynamic_pipeline.

(** ** The vocabulary for values of any type *)

Module DynamicSpec.
Import Py scenario_analyzer api_server json Spec.

(** The JSON object of an outcome with values of the declared types. *)
Definition json_of (o : Outcome) : value :=
  VDict [(txt "description", VStr (description o));
         (txt "probability", VFloat (probability o));
         (txt "impact_level", VStr (impact_level o));
         (txt "risk_factors", VList (map VStr (risk_factors o)));
         (txt "opportunities", VList (map VStr (opportunities o)));
         (txt "timeline", VStr (timeline o));
         (txt "confidence_score", VFloat (confidence_score o))].

(** A reply with values of the declared types, as the parsed value. *)
Definition reply_of (reply : ai_reply) : dynamic_engine.ai_reply :=
  match reply with
  | Ok payload => Ok (VList (map json_of payload))
  | Raise e => Raise e
  end.

(** An analysis with values of the declared types, as an object. *)
Definition analysis_object (a : ScenarioAnalysis) : dynamic_engine.ScenarioAnalysis :=
  {| dynamic_engine.situation := situation a;
     dynamic_engine.context_factors := context_factors a;
     dynamic_engine.outcomes := map dynamic_engine.object_of (outcomes a);
     dynamic_engine.key_variables := key_variables a;
     dynamic_engine.recommendations := recommendations a;
     dynamic_engine.analysis_timestamp := analysis_timestamp a |}.

(** [v > 0.3] is defined: [v] is a number or a Boolean. *)
Definition ordered_with_float (v : value) : bool :=
  match v with
  | VBool _ | VInt _ | VFloat _ => true
  | VNone | VStr _ | VList _ | VDict _ => false
  end.

(** The engine cannot work with the outcome: its risk factors or its
    opportunities are not iterable, or its probability is not ordered with
    a float. *)
Definition unworkable (o : dynamic_engine.Outcome) : Prop :=
  iterate (dynamic_engine.risk_factors o) = None
  \/ ordered_with_float (dynamic_engine.probability o) = false
  \/ iterate (dynamic_engine.opportunities o) = None.

Section WithRuntime.
Context {RT : PyRuntime} {PV : PyValues} {PD : dynamic_server.Pydantic}.

(** What the engine does for one request: the analyzer is built, then
    [analyze] runs; either may raise. *)
Definition run_engine (w : dynamic_server.effects) (request : AnalysisRequest.t)
  : result dynamic_engine.ScenarioAnalysis :=
  analyzer <- __init__ (dynamic_server.connect w) (AnalysisRequest.api_key request)
                (AnalysisRequest.model request) ;;
  dynamic_engine.analyze analyzer (dynamic_server.reply w)
    (dynamic_server.t_analysis w)
    (AnalysisRequest.situation request) (AnalysisRequest.context request).

(** The record that the task leaves for a job whose record it found. *)
Definition record_after (record : dynamic_server.JobRecord.t) (request : AnalysisRequest.t)
  (w : dynamic_server.effects) : dynamic_server.JobRecord.t :=
  match run_engine w request with
  | Ok analysis =>
      dynamic_server.update_completed (dynamic_server.set_status record (txt "processing")) analysis (dynamic_server.t_completed w)
  | Raise e =>
      dynamic_server.update_failed (dynamic_server.set_status record (txt "processing")) e (dynamic_server.t_completed w)
  end.

(** A record between two events: it is queued, completed or failed, and a
    completed one has its analysis. *)
Definition settled (r : dynamic_server.JobRecord.t) : Prop :=
  (dynamic_server.JobRecord.status r = queued
   \/ dynamic_server.JobRecord.status r = completed
   \/ dynamic_server.JobRecord.status r = failed)
  /\ (dynamic_server.JobRecord.status r = completed ->
      exists a, dynamic_server.JobRecord.analysis r = Some a).

Definition all_settled (store : dynamic_server.Store) : Prop :=
  forall k r, dict_get store k = Some r -> settled r.

End WithRuntime.

End DynamicSpec.

(** ** Sample data with values of other types *)

Module DynamicExamples.
Import Py scenario_analyzer api_server json Spec Examples.
Import dynamic_server dynamic_pipeline DynamicSpec.

(** The name of the type of a value, as messages print it. *)
Definition type_name (v : value) : str :=
  match v with
  | VNone => txt "NoneType"
  | VBool _ => txt "bool"
  | VInt _ => txt "int"
  | VFloat _ => txt "float"
  | VStr _ => txt "str"
  | VList _ => txt "list"
  | VDict _ => txt "dict"
  end.

(** The messages of CPython 3.11 for the four exceptions. *)
Definition cpython_message (e : exception) : str :=
  match e with
  | TypeError_not_iterable v =>
      txt "'" ++ type_name v ++ txt "' object is not iterable"
  | AttributeError_lower v =>
      txt "'" ++ type_name v ++ txt "' object has no attribute 'lower'"
  | TypeError_not_ordered v =>
      txt "'>' not supported between instances of '" ++ type_name v
      ++ txt "' and 'float'"
  | TypeError_unhashable v =>
      txt "unhashable type: '" ++ type_name v ++ txt "'"
  end.

(** the strings of a list that holds strings only *)
Fixpoint strings_of (l : list value) : option (list str) :=
  match l with
  | [] => Some []
  | VStr s :: rest =>
      match strings_of rest with
      | Some strs => Some (s :: strs)
      | None => None
      end
  | _ :: _ => None
  end.

(** A runtime to evaluate with, over [plain_runtime]: a string prints as
    itself and [None] and the Booleans by their names; a set of strings is
    that of [plain_runtime].  The samples below format no other value and
    build no other set; for those this runtime prints the name of the type
    and keeps the list as it is. *)
Definition plain_format (v : value) : str :=
  match v with
  | VStr s => s
  | VNone => txt "None"
  | VBool true => txt "True"
  | VBool false => txt "False"
  | _ => type_name v
  end.

Definition plain_set (l : list value) : list value :=
  match strings_of l with
  | Some strs => map VStr (first_occurrences strs)
  | None => l
  end.

#[refine] Instance plain_values : PyValues (RT := plain_runtime) := {
  str_of_exception := cpython_message;
  format_value := plain_format;
  set_iter_values := plain_set
}.
Proof.
  - reflexivity.
  - intro l. unfold plain_set.
    assert (E : strings_of (map VStr l) = Some l).
    { induction l as [|s l IH]; cbn [map strings_of]; [reflexivity|].
      now rewrite IH. }
    now rewrite E.
  - intros l x. unfold plain_set.
    destruct (strings_of l) as [strs|] eqn:E; [|auto].
    assert (El : l = map VStr strs).
    { clear x. revert strs E.
      induction l as [|v l IH]; intros strs H; cbn [strings_of] in H.
      - injection H as <-. reflexivity.
      - destruct v; try discriminate H.
        destruct (strings_of l) as [strs'|]; [|discriminate H].
        injection H as <-. cbn [map]. now rewrite (IH strs' eq_refl). }
    subst l. intro H.
    apply in_map_iff in H. destruct H as [s [<- Hs]].
    apply in_map. unfold first_occurrences in Hs.
    rewrite <- in_rev, nodup_In, <- in_rev in Hs. exact Hs.
Defined.

(** A validation that accepts the values of the declared types and no
    others.  Pydantic also converts some values of other types; it accepts
    [None] for none of the seven fields. *)
Definition declared_only (o : dynamic_engine.Outcome) : result OutcomeResponse.t :=
  match dynamic_engine.description o, dynamic_engine.probability o,
        dynamic_engine.impact_level o, dynamic_engine.risk_factors o,
        dynamic_engine.opportunities o, dynamic_engine.timeline o,
        dynamic_engine.confidence_score o with
  | VStr d, VFloat p, VStr i, VList rs, VList os, VStr t, VFloat c =>
      match strings_of rs, strings_of os with
      | Some risks, Some opps =>
          Ok {| OutcomeResponse.description := d;
                OutcomeResponse.probability := p;
                OutcomeResponse.impact_level := i;
                OutcomeResponse.risk_factors := risks;
                OutcomeResponse.opportunities := opps;
                OutcomeResponse.timeline := t;
                OutcomeResponse.confidence_score := c |}
      | _, _ => Raise (txt "1 validation error for OutcomeResponse")
      end
  | _, _, _, _, _, _, _ => Raise (txt "1 validation error for OutcomeResponse")
  end.

#[refine] Instance declared_types : Pydantic := {
  OutcomeResponse_of := declared_only
}.
Proof.
  - intro o. unfold declared_only, dynamic_engine.object_of.
    assert (E : forall l, strings_of (map VStr l) = Some l).
    { induction l as [|s l IH]; cbn [map strings_of]; [reflexivity|].
      now rewrite IH. }
    cbn. now rewrite !E.
  - intros o H. unfold declared_only.
    exists (txt "1 validation error for OutcomeResponse").
    cbn [In] in H.
    destruct H as [H | [H | [H | [H | [H | [H | [H | []]]]]]]]; rewrite H;
      repeat match goal with
             | |- context [match ?v with _ => _ end] => destruct v
             end; reflexivity.
Defined.

(** A reply that the engine accepts and cannot work with: the probability
    is a string. *)
Definition string_probability : value :=
  VList [VDict [(txt "description", VStr (txt "Steady growth"));
                (txt "probability", VStr (txt "0.4"));
                (txt "impact_level", VStr (txt "Medium"));
                (txt "risk_factors", VList [VStr (txt "Churn")]);
                (txt "opportunities", VList [VStr (txt "Upsell")]);
                (txt "timeline", VStr (txt "Medium term"));
                (txt "confidence_score", VFloat 0.8)]].

(** A reply that the engine works with and the response model rejects:
    the timeline is [null]. *)
Definition null_timeline : value :=
  VList [VDict [(txt "description", VStr (txt "Steady growth"));
                (txt "probability", VFloat 0.4);
                (txt "impact_level", VStr (txt "Medium"));
                (txt "risk_factors", VList [VStr (txt "Churn")]);
                (txt "opportunities", VList [VStr (txt "Upsell")]);
                (txt "timeline", VNone);
                (txt "confidence_score", VFloat 0.8)]].

(** A reply with values of the declared types. *)
Definition well_typed : value :=
  VList [json_of certain_success].

Definition provider_says (payload : value) : effects :=
  {| connect := Ok tt;
     reply := Ok payload;
     t_analysis := txt "2024-05-01T11:00:00";
     t_completed := txt "2024-05-01T11:00:01" |}.

Definition library_missing : effects :=
  {| connect := Raise (txt "The api_key client option must be set");
     reply := Ok well_typed;
     t_analysis := txt "2024-05-01T11:00:00";
     t_completed := txt "2024-05-01T11:00:01" |}.

(** A store with one queued job, submitted with a key. *)
Definition one_job : Store (RT := plain_runtime) :=
  [(txt "job-1",
    {| JobRecord.analysis_id := txt "job-1";
       JobRecord.status := txt "queued";
       JobRecord.created_at := txt "2024-05-01T10:00:00";
       JobRecord.request := keyed_request;
       JobRecord.analysis := None;
       JobRecord.completed_at := None;
       JobRecord.error := None |})].

(** A job is submitted with a key and its task gets the reply with the
    [null] timeline; a second job gets the string probability. *)
Definition null_timeline_morning
  : list (event (RT := plain_runtime)) :=
  [Submit keyed_request (txt "job-1") (txt "2024-05-01T10:00:00");
   Submit keyed_request (txt "job-2") (txt "2024-05-01T10:05:00");
   Execute (txt "job-1") (provider_says null_timeline);
   Execute (txt "job-2") (provider_says string_probability)].

End DynamicExamples.

(* ===================================================================== *)
(** * Part II. Properties                                                 *)
(* ===================================================================== *)

(** ** The rule-based strategy *)

Module RuleBased.
Import Py scenario_analyzer Spec.

Section WithRuntime.
Context {RT : PyRuntime}.

(** C3. For every situation and every list of context factors the
    rule-based strategy returns exactly four outcomes, in the order
    optimal, expected, challenging (the "difficult" outcome), adverse; their
    probabilities are 0.25, 0.45, 0.25, 0.05 and their floating-point sum
    is exactly 1.0; their impact levels are High, Medium, Medium, High and
    their confidence scores 0.7, 0.85, 0.75, 0.6.  The strategy is a total
    function: it has no failing case. *)
Theorem rule_based_outcomes_canonical :
  forall (situation : str) (context_factors : list str),
    let outs := _rule_based_outcomes situation context_factors in
    List.length outs = 4
    /\ map description outs =
         [txt "Optimal outcome - all factors align favorably";
          txt "Expected outcome - moderate success with some challenges";
          txt "Difficult outcome - significant obstacles encountered";
          txt "Adverse outcome - multiple failures compound"]
    /\ map probability outs = [0.25; 0.45; 0.25; 0.05]%float
    /\ fold_left PrimFloat.add (map probability outs) 0%float = 1%float
    /\ map impact_level outs = [txt "High"; txt "Medium"; txt "Medium"; txt "High"]
    /\ map confidence_score outs = [0.7; 0.85; 0.75; 0.6]%float.
Proof.
  intros situation context_factors outs.
  subst outs. unfold _rule_based_outcomes. cbn [app map List.length].
  repeat split; reflexivity.
Qed.

End WithRuntime.
End RuleBased.

(** ** Text: substrings and the keyword patterns *)

Module TextFacts.
Import Py scenario_analyzer Spec.

Lemma last_from_cons (A : Type) (prev : option A) (c : A) (l : list A) :
  last_from prev (c :: l) = last_from (Some c) l.
Proof. reflexivity. Qed.

Lemma last_from_nonempty (A : Type) (p q : option A) (l : list A) :
  l <> [] -> last_from p l = last_from q l.
Proof.
  destruct l as [|c l]; [congruence|]. intros _. reflexivity.
Qed.

Lemma fold_left_append (A B : Type) (g : B -> A) (items : list B) :
  forall init : list A,
    fold_left (fun acc x => acc ++ [g x]) items init = init ++ map g items.
Proof.
  induction items as [|x items IH]; intro init; simpl.
  - now rewrite app_nil_r.
  - rewrite IH, <- app_assoc. reflexivity.
Qed.

Lemma pooled_flat_map (field : Outcome -> list str) (outs : list Outcome) :
  pooled field outs = flat_map field outs.
Proof.
  unfold pooled.
  assert (H : forall init, fold_left (fun acc o => acc ++ field o) outs init
                           = init ++ flat_map field outs).
  { induction outs as [|o outs IH]; intro init; simpl.
    - now rewrite app_nil_r.
    - rewrite IH, app_assoc. reflexivity. }
  apply (H []).
Qed.

Section WithRuntime.
Context {RT : PyRuntime}.

Lemma starts_with_iff (p s : str) :
  starts_with p s = true <-> exists post, s = p ++ post.
Proof.
  revert s. induction p as [|a p IH]; intro s; simpl.
  - split; [intros _; now exists s | reflexivity].
  - destruct s as [|b s].
    + split; [discriminate | intros [post H]; discriminate].
    + rewrite andb_true_iff, N.eqb_eq, IH. split.
      * intros [-> [post ->]]. now exists post.
      * intros [post H]. injection H as -> ->. split; [reflexivity | now exists post].
Qed.

Lemma contains_iff (needle hay : str) :
  contains needle hay = true <-> occurs_in needle hay.
Proof.
  unfold occurs_in. induction hay as [|c hay IH]; simpl.
  - rewrite orb_false_r, starts_with_iff. split.
    + intros [post H]. now exists [], post.
    + intros [pre [post H]]. destruct pre; simpl in H.
      * now exists post.
      * discriminate.
  - rewrite orb_true_iff, starts_with_iff, IH. split.
    + intros [[post H] | [pre [post H]]].
      * now exists [], post.
      * exists (c :: pre), post. simpl. now rewrite H.
    + intros [pre [post H]]. destruct pre as [|c' pre]; simpl in H.
      * left. now exists post.
      * right. injection H as _ H. now exists pre, post.
Qed.

Lemma match_literal_iff (kw : str) :
  forall (prev : option char) (s : str),
    match_literal kw prev s = true <->
    exists post, s = kw ++ post
                 /\ boundary (last_from prev kw) (hd_error post) = true.
Proof.
  induction kw as [|k kw IH]; intros prev s; simpl.
  - split.
    + intro H. now exists s.
    + intros [post [-> H]]. exact H.
  - destruct s as [|c s].
    + split; [discriminate | intros [post [H _]]; discriminate].
    + rewrite andb_true_iff, N.eqb_eq, IH. split.
      * intros [-> [post [-> H]]]. now exists post.
      * intros [post [H1 H2]]. injection H1 as -> ->.
        split; [reflexivity | now exists post].
Qed.

Lemma match_here_iff (alts : list str) (prev : option char) (s : str) :
  match_here alts prev s = true <->
  exists kw post,
    In kw alts /\ s = kw ++ post
    /\ boundary prev (hd_error s) = true
    /\ boundary (last_from prev kw) (hd_error post) = true.
Proof.
  unfold match_here. rewrite andb_true_iff, existsb_exists. split.
  - intros [Hb [kw [Hin Hm]]]. apply match_literal_iff in Hm.
    destruct Hm as [post [Hs Hpost]]. now exists kw, post.
  - intros [kw [post [Hin [Hs [Hb Hpost]]]]]. split; [exact Hb|].
    exists kw. split; [exact Hin|]. apply match_literal_iff. now exists post.
Qed.

(** What [re.search] finds: an alternative at some position with [\b] on
    both of its sides. *)
Lemma search_from_iff (alts : list str) (s : str) :
  forall prev : option char,
    search_from alts prev s = true <->
    exists pre kw post,
      In kw alts /\ s = pre ++ kw ++ post
      /\ boundary (last_from prev pre) (hd_error (kw ++ post)) = true
      /\ boundary (last_from (last_from prev pre) kw) (hd_error post) = true.
Proof.
  induction s as [|c s IH]; intro prev; simpl search_from.
  - rewrite orb_false_r, match_here_iff. split.
    + intros [kw [post [Hin [Hs [Hb Hpost]]]]].
      exists [], kw, post. simpl. rewrite <- Hs. auto.
    + intros [pre [kw [post [Hin [Hs [Hb Hpost]]]]]].
      destruct pre; [|discriminate]. simpl in Hs, Hb, Hpost.
      rewrite <- Hs in Hb. exists kw, post. auto.
  - rewrite orb_true_iff, match_here_iff, IH. split.
    + intros [[kw [post [Hin [Hs [Hb Hpost]]]]]
             | [pre [kw [post [Hin [Hs [Hb Hpost]]]]]]].
      * exists [], kw, post. simpl. rewrite <- Hs. auto.
      * exists (c :: pre), kw, post. rewrite last_from_cons, Hs. auto.
    + intros [pre [kw [post [Hin [Hs [Hb Hpost]]]]]].
      destruct pre as [|c' pre].
      * left. simpl in Hs, Hb, Hpost. rewrite <- Hs in Hb.
        exists kw, post. auto.
      * right. simpl in Hs. injection Hs as -> Hs.
        rewrite last_from_cons in Hb, Hpost. now exists pre, kw, post.
Qed.

Lemma wordy_nonempty (kw : str) : wordy kw = true -> kw <> [].
Proof. destruct kw; [discriminate | discriminate]. Qed.

(** For such keywords the pattern finds exactly the whole-word
    occurrences. *)
Lemma re_search_words_iff (alts : list str) (s : str) :
  Forall (fun kw => wordy kw = true) alts ->
  re_search_words alts s = true <->
  exists kw, In kw alts /\ occurs_as_whole_word kw s.
Proof.
  intro Hw. rewrite Forall_forall in Hw.
  unfold re_search_words, occurs_as_whole_word. rewrite search_from_iff.
  assert (Hside : forall kw pre post, In kw alts ->
    (boundary (last_from None pre) (hd_error (kw ++ post)) = true
     /\ boundary (last_from (last_from None pre) kw) (hd_error post) = true)
    <-> (word_at (last_from None pre) = false
         /\ word_at (hd_error post) = false)).
  { intros kw pre post Hin. specialize (Hw kw Hin).
    pose proof (wordy_nonempty Hw) as Hne.
    unfold wordy in Hw. apply andb_true_iff in Hw. destruct Hw as [Hh Hl].
    rewrite (last_from_nonempty (last_from None pre) None Hne).
    assert (Hhd : hd_error (kw ++ post) = hd_error kw)
      by (destruct kw; [congruence | reflexivity]).
    unfold boundary. rewrite Hhd, Hh, Hl.
    destruct (word_at (last_from None pre)), (word_at (hd_error post));
      simpl; intuition congruence. }
  split.
  - intros [pre [kw [post [Hin [Hs [Hb Hpost]]]]]].
    exists kw. split; [exact Hin|]. exists pre, post.
    split; [exact Hs|]. apply (Hside kw pre post Hin). auto.
  - intros [kw [Hin [pre [post [Hs Hnw]]]]].
    exists pre, kw, post. split; [exact Hin|]. split; [exact Hs|].
    apply (Hside kw pre post Hin). exact Hnw.
Qed.

Lemma category_matches_iff (s : str) (c : category) :
  Forall (fun kw => wordy kw = true) (keywords c) ->
  re_search_words (keywords c) s = true <-> category_matches s c.
Proof. intro Hw. unfold category_matches. now apply re_search_words_iff. Qed.

Lemma categories_wordy :
  Forall (fun c => Forall (fun kw => wordy kw = true) (keywords c)) categories.
Proof. repeat constructor. Qed.

End WithRuntime.
End TextFacts.

(** ** The analysis engine *)

Module AnalyzerFacts.
Import Py scenario_analyzer Spec Examples TextFacts.

Lemma selected_filter (A : Type) (P : A -> Prop) (f : A -> bool) (l : list A) :
  Forall (fun x => f x = true <-> P x) l -> selected P l (filter f l).
Proof.
  induction 1 as [|x l Hx _ IH]; simpl.
  - constructor.
  - destruct (f x) eqn:E.
    + apply selected_keep; [now apply Hx | exact IH].
    + apply selected_skip; [|exact IH].
      intro HP. apply Hx in HP. congruence.
Qed.

Lemma hd_filter_find (A : Type) (f : A -> bool) (l : list A) :
  hd_error (filter f l) = find f l.
Proof.
  induction l as [|x l IH]; simpl; [reflexivity|].
  destruct (f x); [reflexivity | exact IH].
Qed.

Section WithRuntime.
Context {RT : PyRuntime}.

(** C7. Context-factor extraction emits the factor of each of the five
    categories (business/commercial, economic, human resources,
    technology, time constraints) one of whose keywords occurs as a whole
    word in the lower-cased situation, in the order of the categories,
    then one "<key>: <value>" string per pair of the context mapping in
    its iteration order; the single default factor is emitted exactly when
    these two parts are both empty. *)
Theorem extract_context_factors_spec :
  forall (situation : str) (context : option (list (str * py_object))),
  exists cats : list category,
    selected (category_matches (lower situation)) categories cats
    /\ _extract_context_factors situation context =
       or_default [txt "General situational context"]
         (map factor cats ++ context_entries context).
Proof.
  intros situation context.
  exists (filter (fun c => re_search_words (keywords c) (lower situation)) categories).
  split.
  - apply selected_filter.
    eapply Forall_impl; [|apply categories_wordy].
    intros c Hc. now apply category_matches_iff.
  - unfold _extract_context_factors, categories. cbn [filter keywords].
    destruct (re_search_words _ _); destruct (re_search_words _ _);
      destruct (re_search_words _ _); destruct (re_search_words _ _);
      destruct (re_search_words _ _);
      destruct context as [[|kv items]|];
      cbn [map factor app context_entries or_default];
      try reflexivity;
      cbn [fold_left]; rewrite fold_left_append; reflexivity.
Qed.

Lemma generate_recommendations_eq (situation : str) (outs : list Outcome) :
  _generate_recommendations situation outs =
  prepare_entry outs
  ++ map (app (txt "Mitigate risk: "))
       (firstn 3 (set_iter (flat_map risk_factors outs)))
  ++ map (app (txt "Leverage opportunity: "))
       (firstn 2 (set_iter (flat_map opportunities outs)))
  ++ closing_recommendations.
Proof.
  unfold _generate_recommendations, prepare_entry.
  rewrite !pooled_flat_map, !fold_left_append.
  rewrite <- hd_filter_find.
  destruct (filter _ outs) as [|o high]; cbn [hd_error app];
    rewrite <- ?app_assoc; reflexivity.
Qed.

Lemma first_distinct_set_iter (n : nat) (pool : list str) :
  first_distinct n pool (firstn n (set_iter pool)).
Proof.
  exists (set_iter pool). split; [apply set_iter_NoDup|].
  split; [apply set_iter_In | reflexivity].
Qed.

(** C8. For every list of outcomes the recommendations are, in order:
    the "prepare primarily for" entry of the first outcome in generation
    order whose probability exceeds 0.3 (no entry when no outcome
    qualifies); one "mitigate risk" entry for each of the first three
    distinct pooled risk factors; one "leverage opportunity" entry for each
    of the first two distinct pooled opportunities; and the two closing
    recommendations, which come last whatever the input. *)
Theorem generate_recommendations_shape :
  forall (situation : str) (outs : list Outcome),
  exists risks opps : list str,
    _generate_recommendations situation outs =
      prepare_entry outs
      ++ map (app (txt "Mitigate risk: ")) risks
      ++ map (app (txt "Leverage opportunity: ")) opps
      ++ [txt "Monitor key variables closely";
          txt "Maintain flexibility for scenario pivots"]
    /\ first_distinct 3 (flat_map risk_factors outs) risks
    /\ first_distinct 2 (flat_map opportunities outs) opps
    /\ List.length risks <= 3
    /\ List.length opps <= 2.
Proof.
  intros situation outs.
  exists (firstn 3 (set_iter (flat_map risk_factors outs))),
         (firstn 2 (set_iter (flat_map opportunities outs))).
  split; [apply generate_recommendations_eq|].
  split; [apply first_distinct_set_iter|].
  split; [apply first_distinct_set_iter|].
  split; apply firstn_le_length.
Qed.

Lemma generate_outcomes_rule_based
  (self : ScenarioAnalyzer) (reply : ai_reply) (situation : str) (factors : list str) :
  rule_based_path self reply ->
  _generate_outcomes self reply situation factors
  = _rule_based_outcomes situation factors.
Proof.
  unfold _generate_outcomes, _ai_generate_outcomes.
  intros [Hc | [e ->]].
  - now rewrite Hc.
  - now destruct (client self).
Qed.

Lemma rule_based_risk_scan (situation : str) (factors : list str) :
  let risks := pooled risk_factors (_rule_based_outcomes situation factors) in
  existsb (fun risk => contains (txt "resource") (lower risk)) risks = true
  /\ existsb (fun risk => contains (txt "execution") (lower risk)) risks = true
  /\ existsb (fun risk => contains (txt "external") (lower risk)) risks = true.
Proof. repeat split; vm_compute; reflexivity. Qed.

Lemma rule_based_key_variables_eq (situation : str) (factors : list str) :
  _identify_key_variables situation (_rule_based_outcomes situation factors)
  = situation_scan situation
    ++ [txt "Resource management"; txt "Execution capability";
        txt "External environment"].
Proof.
  unfold _identify_key_variables, situation_scan.
  destruct (rule_based_risk_scan situation factors) as [H1 [H2 H3]].
  cbv zeta in H1, H2, H3. rewrite H1, H2, H3.
  destruct (contains (txt "decision") (lower situation));
    destruct (contains (txt "resource") (lower situation));
    destruct (contains (txt "market") (lower situation));
    destruct (contains (txt "team") (lower situation)); reflexivity.
Qed.

(** C10. Whenever the rule-based strategy supplies the outcomes, the key
    variables of the analysis are those of the situation scan followed by
    "Resource management", "Execution capability" and "External
    environment": the three are always present and the result is never the
    pair of default variables, for every situation text. *)
Theorem rule_based_key_variables :
  forall (self : ScenarioAnalyzer) (reply : ai_reply) (now situation : str)
         (context : option (list (str * py_object))),
    rule_based_path self reply ->
    let kv := key_variables (analyze self reply now situation context) in
    In (txt "Resource management") kv
    /\ In (txt "Execution capability") kv
    /\ In (txt "External environment") kv
    /\ kv = situation_scan situation
            ++ [txt "Resource management"; txt "Execution capability";
                txt "External environment"]
    /\ kv <> [txt "Situational dynamics"; txt "External factors"].
Proof.
  intros self reply now situation context Hpath kv.
  assert (Hkv : kv = situation_scan situation
                     ++ [txt "Resource management"; txt "Execution capability";
                         txt "External environment"]).
  { subst kv. unfold analyze. cbn [key_variables].
    rewrite generate_outcomes_rule_based by exact Hpath.
    apply rule_based_key_variables_eq. }
  rewrite Hkv.
  repeat split; try (apply in_or_app; right; simpl; tauto).
  intro Heq. apply (f_equal (@List.length str)) in Heq.
  rewrite length_app in Heq. simpl in Heq. lia.
Qed.

(** C2, as the code has it. When the rule-based strategy supplies the
    outcomes (no credentials, or the attempt with the provider raised),
    every outcome of the analysis has its probability and its confidence
    score in [[0, 1]]. When the analyzer has a client and the provider's
    payload is accepted, the outcomes of the analysis are those of the
    payload, unchanged and unchecked. *)
Theorem outcomes_bounded_on_rule_based_path :
  forall (self : ScenarioAnalyzer) (reply : ai_reply) (now situation : str)
         (context : option (list (str * py_object))),
    (rule_based_path self reply ->
     Forall bounded (outcomes (analyze self reply now situation context)))
    /\ (forall (c : OpenAI) (payload : list Outcome),
          client self = Some c -> reply = Ok payload ->
          outcomes (analyze self reply now situation context) = payload).
Proof.
  intros self reply now situation context. split.
  - intro Hpath. unfold analyze. cbn [outcomes].
    rewrite generate_outcomes_rule_based by exact Hpath.
    unfold _rule_based_outcomes, bounded, in_unit_interval. cbn [app].
    repeat constructor.
  - intros c payload Hc ->. unfold analyze. cbn [outcomes].
    unfold _generate_outcomes. now rewrite Hc.
Qed.

Lemma startup_context_factors :
  _extract_context_factors startup_situation startup_context
  = [txt "Business/Commercial context"; txt "Economic factors";
     txt "Human resources"; txt "industry: Technology"].
Proof.
  cbv beta iota zeta delta [_extract_context_factors startup_context fold_left fst snd].
  rewrite py_format_str. vm_compute. reflexivity.
Qed.

(** C1, as the code has it. For the situation "I'm launching a startup
    with my team, market conditions are uncertain", the context
    {"industry": "Technology"} and no credentials, [analyze] returns an
    analysis whose context factors are "Business/Commercial context",
    "Economic factors", "Human resources" and "industry: Technology" (the
    categories are matched on the situation text, which names no
    technology keyword), whose outcomes are the four rule-based ones,
    whose key variables are "Market conditions", "Team performance and
    dynamics" and the three variables of the risk scan, and whose
    recommendations have at least three entries and end with the two
    closing ones. *)
Theorem startup_end_to_end :
  forall (connect : result unit) (model now : str) (reply : ai_reply),
  exists analyzer : ScenarioAnalyzer,
    __init__ connect None model = Ok analyzer
    /\ let a := analyze analyzer reply now startup_situation startup_context in
       context_factors a =
         [txt "Business/Commercial context"; txt "Economic factors";
          txt "Human resources"; txt "industry: Technology"]
       /\ outcomes a = _rule_based_outcomes startup_situation (context_factors a)
       /\ key_variables a =
            [txt "Market conditions"; txt "Team performance and dynamics";
             txt "Resource management"; txt "Execution capability";
             txt "External environment"]
       /\ 3 <= List.length (recommendations a)
       /\ exists pre, recommendations a = pre ++ closing_recommendations.
Proof.
  intros connect model now reply.
  exists {| client := None; model := model |}.
  split; [reflexivity|].
  cbv zeta. unfold analyze.
  cbn [context_factors outcomes key_variables recommendations client
       _generate_outcomes].
  split; [apply startup_context_factors|].
  split; [reflexivity|].
  split.
  - rewrite rule_based_key_variables_eq. vm_compute. reflexivity.
  - rewrite generate_recommendations_eq.
    set (outs := _rule_based_outcomes _ _).
    assert (Hp : prepare_entry outs =
                 [txt "Prepare primarily for: "
                  ++ txt "Expected outcome - moderate success with some challenges"])
      by (vm_compute; reflexivity).
    rewrite Hp. split.
    + rewrite !length_app. simpl. lia.
    + eexists. rewrite !app_assoc. reflexivity.
Qed.

End WithRuntime.

Lemma rule_based_key_variables_witness :
  rule_based_path no_credentials (Raise (txt "timeout"))
  /\ In (txt "Resource management")
       (key_variables
          (analyze (RT := plain_runtime) no_credentials (Raise (txt "timeout"))
             (txt "2024-05-01T10:00:00") (txt "We must take a decision") None)).
Proof.
  assert (Hpath : rule_based_path no_credentials (Raise (txt "timeout")))
    by (left; reflexivity).
  split; [exact Hpath|].
  exact (proj1 (@rule_based_key_variables plain_runtime _ _ _ _ None Hpath)).
Defined.

Lemma outcomes_bounded_witness :
  rule_based_path with_credentials (Raise (txt "connection refused"))
  /\ Forall bounded
       (outcomes
          (analyze (RT := plain_runtime) with_credentials
             (Raise (txt "connection refused")) (txt "2024-05-01T10:00:00")
             (txt "Should we expand to a new market?") None))
  /\ outcomes
       (analyze (RT := plain_runtime) with_credentials (Ok [certain_success])
          (txt "2024-05-01T10:00:00") (txt "Should we expand to a new market?") None)
     = [certain_success].
Proof.
  assert (Hpath : rule_based_path with_credentials (Raise (txt "connection refused")))
    by (right; eexists; reflexivity).
  split; [exact Hpath|]. split.
  - exact (proj1 (@outcomes_bounded_on_rule_based_path plain_runtime
             with_credentials (Raise (txt "connection refused"))
             (txt "2024-05-01T10:00:00")
             (txt "Should we expand to a new market?") None) Hpath).
  - exact (proj2 (@outcomes_bounded_on_rule_based_path plain_runtime
             with_credentials (Ok [certain_success])
             (txt "2024-05-01T10:00:00")
             (txt "Should we expand to a new market?") None)
             (OpenAI_client (txt "sk-test")) [certain_success] eq_refl eq_refl).
Defined.

(** C2 as stated fails: an accepted payload with a probability of 1.5
    reaches the analysis as it is. *)
Lemma ai_outcome_out_of_range :
  ~ Forall bounded
      (outcomes
         (analyze (RT := plain_runtime) with_credentials (Ok [certain_success])
            (txt "2024-05-01T10:00:00") (txt "Should we expand to a new market?")
            None)).
Proof.
  intro H. change (Forall bounded [certain_success]) in H.
  inversion H as [|o l Hb _]; subst.
  destruct Hb as [[_ Hle] _]. vm_compute in Hle. discriminate.
Qed.

(** C1 as stated fails: "Technology factors" is not among the context
    factors of the example. *)
Lemma startup_has_no_technology_factor :
  ~ In (txt "Technology factors")
      (context_factors
         (analyze (RT := plain_runtime) no_credentials (Raise (txt "unused"))
            (txt "2024-05-01T10:00:00") startup_situation startup_context)).
Proof.
  vm_compute. intuition discriminate.
Qed.

End AnalyzerFacts.

(** ** The store and the read operations *)

Module ApiFacts.
Import Py scenario_analyzer api_server Spec TextFacts.

Lemma str_eqb_eq (a b : str) : str_eqb a b = true <-> a = b.
Proof.
  unfold str_eqb. destruct (str_eq_dec a b); split; congruence.
Qed.

Lemma str_eqb_refl (a : str) : str_eqb a a = true.
Proof. now apply str_eqb_eq. Qed.

Lemma str_eqb_neq (a b : str) : str_eqb a b = false <-> a <> b.
Proof.
  unfold str_eqb. destruct (str_eq_dec a b); split; congruence.
Qed.

Lemma str_leb_total (a b : str) : str_leb a b = false -> str_leb b a = true.
Proof.
  revert b. induction a as [|x a IH]; intros [|y b]; simpl; try congruence.
  rewrite (N.compare_antisym x y).
  destruct (x ?= y)%N; simpl; [apply IH | discriminate | reflexivity].
Qed.

Lemma str_leb_trans (a b c : str) :
  str_leb a b = true -> str_leb b c = true -> str_leb a c = true.
Proof.
  revert b c. induction a as [|x a IH]; intros [|y b] [|z c]; simpl;
    try congruence.
  destruct (N.compare_spec x y) as [-> | Hxy | Hxy]; try discriminate.
  - destruct (y ?= z)%N; try congruence. apply IH.
  - intros _. destruct (N.compare_spec y z) as [-> | Hyz | Hyz]; try discriminate.
    + intros _. apply N.compare_lt_iff in Hxy. now rewrite Hxy.
    + intros _. assert (H : (x < z)%N) by lia.
      apply N.compare_lt_iff in H. now rewrite H.
Qed.

Section ListFacts.
Variable V : Type.

Lemma firstn_subset (n : nat) (l : list V) (z : V) :
  In z (firstn n l) -> In z l.
Proof.
  revert n. induction l as [|y l IH]; intros [|n]; simpl; try tauto.
  intros [-> | H]; [now left | right; now apply (IH n)].
Qed.

Lemma firstn_sorted (R : V -> V -> Prop) (n : nat) (l : list V) :
  StronglySorted R l -> StronglySorted R (firstn n l).
Proof.
  intro H. revert n. induction H as [|y l Hs IH Hy]; intros [|n]; simpl;
    try constructor.
  - apply IH.
  - rewrite Forall_forall in Hy |- *. intros z Hz.
    apply Hy. eapply firstn_subset; exact Hz.
Qed.

Lemma slice_to_firstn (n : Z) (l : list V) :
  exists m : nat, slice_to n l = firstn m l.
Proof.
  unfold slice_to. destruct (0 <=? n)%Z; eexists; reflexivity.
Qed.

Lemma slice_to_length (n : Z) (l : list V) :
  (0 <= n)%Z -> (Z.of_nat (List.length (slice_to n l)) <= n)%Z.
Proof.
  intro Hn. unfold slice_to.
  apply Z.leb_le in Hn. rewrite Hn. apply Z.leb_le in Hn.
  pose proof (firstn_le_length (Z.to_nat n) l). lia.
Qed.

Lemma map_sorted (W : Type) (f : V -> W) (R : W -> W -> Prop) (l : list V) :
  StronglySorted (fun a b => R (f a) (f b)) l -> StronglySorted R (map f l).
Proof.
  induction 1 as [|y l Hs IH Hy]; simpl; constructor; [exact IH|].
  rewrite Forall_forall in Hy |- *. intros z Hz.
  apply in_map_iff in Hz. destruct Hz as [v [<- Hv]]. now apply Hy.
Qed.

End ListFacts.

Section SortFacts.
Variable V : Type.
Variable key : V -> str.

Lemma insert_reverse_In (x z : V) (l : list V) :
  In z (insert_reverse key x l) <-> z = x \/ In z l.
Proof.
  induction l as [|y l IH]; simpl.
  - intuition.
  - destruct (str_ltb (key x) (key y)); simpl; rewrite ?IH; intuition.
Qed.

Lemma sort_reverse_In (z : V) (l : list V) :
  In z (sort_reverse key l) <-> In z l.
Proof.
  induction l as [|x l IH]; simpl; [reflexivity|].
  rewrite insert_reverse_In, IH. intuition.
Qed.

Lemma insert_reverse_length (x : V) (l : list V) :
  List.length (insert_reverse key x l) = S (List.length l).
Proof.
  induction l as [|y l IH]; simpl; [reflexivity|].
  destruct (str_ltb (key x) (key y)); simpl; [now rewrite IH | reflexivity].
Qed.

Lemma insert_reverse_sorted (x : V) (l : list V) :
  StronglySorted (key_ge key) l -> StronglySorted (key_ge key) (insert_reverse key x l).
Proof.
  induction 1 as [|y l Hs IH Hy]; simpl.
  - repeat constructor.
  - unfold str_ltb. destruct (str_leb (key y) (key x)) eqn:E; simpl.
    + constructor; [now constructor|].
      constructor; [exact E|].
      rewrite Forall_forall in Hy |- *. intros z Hz.
      unfold key_ge in *. eapply str_leb_trans; [apply Hy, Hz | exact E].
    + constructor; [exact IH|].
      rewrite Forall_forall in Hy |- *. intros z Hz.
      apply insert_reverse_In in Hz. destruct Hz as [-> | Hz].
      * unfold key_ge. now apply str_leb_total.
      * now apply Hy.
Qed.

Lemma sort_reverse_sorted (l : list V) : StronglySorted (key_ge key) (sort_reverse key l).
Proof.
  induction l as [|x l IH]; simpl; [constructor | now apply insert_reverse_sorted].
Qed.

End SortFacts.

Section DictFacts.
Variable V : Type.

Lemma dict_get_set_eq (d : dict V) (k : str) (v : V) :
  dict_get (dict_set d k v) k = Some v.
Proof.
  induction d as [|[k' v'] d IH]; simpl.
  - now rewrite str_eqb_refl.
  - destruct (str_eqb k' k) eqn:E; simpl; rewrite E; [reflexivity | exact IH].
Qed.

Lemma dict_get_set_ne (d : dict V) (k k2 : str) (v : V) :
  k <> k2 -> dict_get (dict_set d k v) k2 = dict_get d k2.
Proof.
  intro Hne. induction d as [|[k' v'] d IH]; simpl.
  - apply str_eqb_neq in Hne. now rewrite Hne.
  - destruct (str_eqb k' k) eqn:E; simpl.
    + apply str_eqb_eq in E. subst k'.
      apply str_eqb_neq in Hne. now rewrite Hne.
    + destruct (str_eqb k' k2); [reflexivity | exact IH].
Qed.

Lemma dict_get_del_ne (d : dict V) (k k2 : str) :
  k <> k2 -> dict_get (dict_del d k) k2 = dict_get d k2.
Proof.
  intro Hne. induction d as [|[k' v'] d IH]; simpl; [reflexivity|].
  destruct (str_eqb k' k) eqn:E; simpl.
  - apply str_eqb_eq in E. subst k'.
    apply str_eqb_neq in Hne. now rewrite Hne.
  - destruct (str_eqb k' k2); [reflexivity | exact IH].
Qed.

Lemma dict_get_del_eq (d : dict V) (k : str) :
  dict_get (dict_del d k) k = None.
Proof.
  induction d as [|[k' v'] d IH]; simpl; [reflexivity|].
  destruct (str_eqb k' k) eqn:E; simpl; [exact IH | now rewrite E].
Qed.

Lemma dict_get_In (d : dict V) (k : str) (v : V) :
  dict_get d k = Some v -> In v (dict_values d).
Proof.
  induction d as [|[k' v'] d IH]; simpl; [discriminate|].
  destruct (str_eqb k' k).
  - intro H. injection H as ->. now left.
  - intro H. right. now apply IH.
Qed.

End DictFacts.

Section WithRuntime.
Context {RT : PyRuntime}.

(** The analysis that a response carries. *)
Lemma analysis_of_response_convert (a : ScenarioAnalysis) (analysis_id : str) :
  analysis_of_response (convert_analysis_to_response a analysis_id) = a.
Proof.
  destruct a as [s cf outs kv recs ts].
  unfold analysis_of_response, convert_analysis_to_response. simpl. f_equal.
  rewrite map_map. rewrite <- (map_id outs) at 2.
  apply map_ext. now intros [].
Qed.

Lemma occurs_in_suffix (pre s : str) : occurs_in s (pre ++ s).
Proof. exists pre, []. now rewrite app_nil_r. Qed.


(** X24. When the record is not in the store, the task changes nothing
    and the [KeyError] of the handler leaves it. *)
Remark perform_analysis_without_record :
  forall (store : Store) (analysis_id : str) (request : AnalysisRequest.t)
         (w : effects),
    dict_get store analysis_id = None ->
    perform_analysis store analysis_id request w
    = (store, Raise (key_error analysis_id)).
Proof.
  intros store analysis_id request w Hget.
  unfold perform_analysis, perform_analysis_writes, perform_analysis_try.
  rewrite Hget. cbn [last]. rewrite Hget. reflexivity.
Qed.

(** C9, as the code has it. For every store, [ListAnalyses] lists
    records of the store, each by its summary; when the limit (10 by
    default) is not negative it lists at most that many; when a non-empty
    status filter is given every listed record has that status; the list
    is ordered by [created_at], newest first. *)
Theorem list_analyses_spec :
  forall (store : Store) (limit : option Z) (status : option str),
    let n := match limit with Some n => n | None => 10%Z end in
    let listed := list_analyses store limit status in
    ((0 <= n)%Z -> (Z.of_nat (List.length listed) <= n)%Z)
    /\ (forall s, status = Some s -> s <> [] ->
          Forall (fun a => AnalysisStatus.status a = s) listed)
    /\ StronglySorted newest_first listed
    /\ Forall (fun a => exists record,
                  In record (dict_values store)
                  /\ a = status_of_record (JobRecord.analysis_id record) record)
         listed.
Proof.
  intros store limit status n listed.
  subst listed. unfold list_analyses. fold n.
  set (chosen := match status with
                 | Some s => if truthy s
                             then filter (fun a => str_eqb (JobRecord.status a) s)
                                    (dict_values store)
                             else dict_values store
                 | None => dict_values store
                 end).
  assert (Hchosen : forall r, In r chosen -> In r (dict_values store)).
  { intros r. subst chosen. destruct status as [s|]; [|tauto].
    destruct (truthy s); [|tauto]. intro H. apply filter_In in H. tauto. }
  destruct (slice_to_firstn n (sort_reverse JobRecord.created_at chosen)) as [m Hm].
  assert (Hin : forall r,
             In r (slice_to n (sort_reverse JobRecord.created_at chosen)) ->
             In r chosen).
  { intros r Hr. rewrite Hm in Hr. apply firstn_subset in Hr.
    apply -> sort_reverse_In in Hr. exact Hr. }
  split; [|split; [|split]].
  - intro Hn. rewrite length_map. now apply slice_to_length.
  - intros s -> Hs. apply Forall_forall. intros a Ha.
    apply in_map_iff in Ha. destruct Ha as [r [<- Hr]].
    apply Hin in Hr. subst chosen. destruct s as [|c s]; [congruence|].
    cbn [truthy] in Hr. apply filter_In in Hr. destruct Hr as [_ Hr].
    apply str_eqb_eq in Hr. exact Hr.
  - apply map_sorted. rewrite Hm. apply firstn_sorted.
    apply (sort_reverse_sorted JobRecord.created_at).
  - apply Forall_forall. intros a Ha.
    apply in_map_iff in Ha. destruct Ha as [r [<- Hr]].
    exists r. split; [apply Hchosen, Hin, Hr | reflexivity].
Qed.

End WithRuntime.
End ApiFacts.

(** ** The job lifecycle *)

Module PipelineFacts.
Import Py scenario_analyzer api_server pipeline Spec TextFacts ApiFacts.

Lemma statuses_distinct :
  queued <> processing /\ queued <> completed /\ queued <> failed
  /\ processing <> completed /\ processing <> failed /\ completed <> failed.
Proof. repeat split; intro H; vm_compute in H; discriminate H. Qed.

Lemma next_status_refl (a : str) : next_status a a.
Proof. now left. Qed.

Lemma follows_app (l1 l2 : list str) :
  forall last : option str,
    follows last (l1 ++ l2)
    <-> follows last l1 /\ follows (last_from last l1) l2.
Proof.
  induction l1 as [|x l1 IH]; intro last; cbn [app follows].
  - unfold last_from. simpl. tauto.
  - rewrite IH, last_from_cons. tauto.
Qed.

Lemma terminal_stays (t : str) (l : list str) :
  t = completed \/ t = failed ->
  follows (Some t) l -> Forall (eq t) l.
Proof.
  intro Ht. induction l as [|x l IH]; simpl; [constructor|].
  intros [Hx Hl].
  assert (t = x).
  { destruct statuses_distinct as [? [? [? [? [? ?]]]]].
    destruct Hx as [Hx | [[Hx _] | [Hx _]]]; [exact Hx | |];
      destruct Ht; congruence. }
  subst x. constructor; [reflexivity | now apply IH].
Qed.

Lemma changes_from_same (t : str) (l : list str) :
  Forall (eq t) l -> changes_from (Some t) l = [].
Proof.
  induction 1 as [|x l <- _ IH]; simpl; [reflexivity|].
  now rewrite str_eqb_refl.
Qed.

Lemma changes_from_terminal (t : str) (l : list str) :
  t = completed \/ t = failed ->
  follows (Some t) l -> changes_from (Some t) l = [].
Proof. intros Ht Hl. now apply changes_from_same, terminal_stays. Qed.

Lemma changes_from_processing (l : list str) :
  follows (Some processing) l ->
  changes_from (Some processing) l = []
  \/ changes_from (Some processing) l = [completed]
  \/ changes_from (Some processing) l = [failed].
Proof.
  destruct statuses_distinct as [Hqp [Hqc [Hqf [Hpc [Hpf Hcf]]]]].
  induction l as [|x l IH]; simpl; [now left|].
  intros [Hx Hl].
  destruct Hx as [<- | [[Hx _] | [_ [-> | ->]]]].
  - rewrite str_eqb_refl. now apply IH.
  - congruence.
  - apply str_eqb_neq in Hpc. rewrite Hpc.
    rewrite changes_from_terminal by auto. auto.
  - apply str_eqb_neq in Hpf. rewrite Hpf.
    rewrite changes_from_terminal by auto. auto.
Qed.

Lemma changes_from_queued (l : list str) :
  follows (Some queued) l ->
  exists rest, changes_from (Some queued) l = rest
               /\ (rest = [] \/ rest = [processing]
                   \/ rest = [processing; completed]
                   \/ rest = [processing; failed]).
Proof.
  destruct statuses_distinct as [Hqp [Hqc [Hqf [Hpc [Hpf Hcf]]]]].
  induction l as [|x l IH]; simpl.
  - intros _. exists []. auto.
  - intros [Hx Hl].
    destruct Hx as [<- | [[_ ->] | [Hx _]]].
    + rewrite str_eqb_refl. now apply IH.
    + apply str_eqb_neq in Hqp. rewrite Hqp.
      eexists. split; [reflexivity|].
      destruct (changes_from_processing l Hl) as [-> | [-> | ->]]; auto.
    + congruence.
Qed.

(** The changes of a history that starts from nothing. *)
Lemma follows_prefix (l : list str) :
  follows None l ->
  is_prefix (changes l) [queued; processing; completed]
  \/ is_prefix (changes l) [queued; processing; failed].
Proof.
  unfold changes, is_prefix. destruct l as [|x l]; simpl.
  - intros _. left. eexists. reflexivity.
  - intros [-> Hl].
    destruct (changes_from_queued l Hl) as [rest [-> [-> | [-> | [-> | ->]]]]].
    + left. eexists. reflexivity.
    + left. eexists. reflexivity.
    + left. exists []. reflexivity.
    + right. exists []. reflexivity.
Qed.

Lemma no_regress_step (a x b : str) :
  next_status a x -> no_regress x b -> no_regress a b.
Proof.
  destruct statuses_distinct as [Hqp [Hqc [Hqf [Hpc [Hpf Hcf]]]]].
  unfold next_status, no_regress, later_stage.
  intros [<- | [[-> ->] | [-> Hx]]] Hb; [exact Hb | |].
  - destruct Hb as [<- | [[? _] | [_ Hb]]]; [ | congruence | ].
    + right. left. auto.
    + right. left. split; [reflexivity|]. tauto.
  - destruct Hb as [<- | [[? _] | [? _]]].
    + right. right. auto.
    + destruct Hx; congruence.
    + destruct Hx; congruence.
Qed.

Lemma follows_no_regress (l : list str) :
  forall a : str,
    follows (Some a) l ->
    Forall (no_regress a) l /\ StronglySorted no_regress l.
Proof.
  induction l as [|x l IH]; intros a; simpl.
  - intros _. split; constructor.
  - intros [Hx Hl]. destruct (IH x Hl) as [Hall Hs].
    split.
    + constructor.
      * apply (no_regress_step Hx). now left.
      * eapply Forall_impl; [|exact Hall].
        intros b Hb. exact (no_regress_step Hx Hb).
    + now constructor.
Qed.

Lemma follows_sorted (l : list str) :
  follows None l -> StronglySorted no_regress l.
Proof.
  destruct l as [|x l]; simpl; [constructor|].
  intros [-> Hl]. destruct (@follows_no_regress l queued Hl) as [Hall Hs].
  now constructor.
Qed.

Section WithRuntime.
Context {RT : PyRuntime}.

Lemma status_history_app (analysis_id : str) (h1 h2 : list Store) :
  status_history analysis_id (h1 ++ h2)
  = status_history analysis_id h1 ++ status_history analysis_id h2.
Proof. apply flat_map_app. Qed.

(** Writes that leave the record of the job as it is add nothing new to
    its history. *)
Lemma unchanged_history
  (analysis_id : str) (last : option str) (store : Store) (writes : list Store) :
  (forall r, dict_get store analysis_id = Some r -> last = Some (JobRecord.status r)) ->
  Forall (fun st => dict_get st analysis_id = dict_get store analysis_id) writes ->
  follows last (status_history analysis_id writes)
  /\ last_from last (status_history analysis_id writes) = last.
Proof.
  intros Hlast Hall. induction Hall as [|st writes Hst _ IH]; simpl.
  - split; [exact I | reflexivity].
  - rewrite Hst. destruct (dict_get store analysis_id) as [r|] eqn:E.
    + rewrite (Hlast r eq_refl) in IH |- *. cbn [app follows].
      rewrite last_from_cons. destruct IH as [IH1 IH2].
      repeat split; [apply next_status_refl | exact IH1 | exact IH2].
    + exact IH.
Qed.

Lemma take_task_spec (k : str) (tasks : list (str * AnalysisRequest.t)) :
  forall (request : AnalysisRequest.t) (rest : list (str * AnalysisRequest.t)),
    take_task k tasks = Some (request, rest) ->
    In k (map fst tasks)
    /\ (forall x, In x (map fst rest) -> In x (map fst tasks))
    /\ (NoDup (map fst tasks) ->
        NoDup (map fst rest) /\ ~ In k (map fst rest)).
Proof.
  induction tasks as [|[k' r'] tasks IH]; intros request rest; simpl.
  - discriminate.
  - destruct (str_eqb k' k) eqn:E.
    + intro H. injection H as <- <-. apply str_eqb_eq in E. subst k'.
      split; [now left|].
      split; [intros x Hx; now right|].
      intro Hnd. inversion Hnd; subst. auto.
    + destruct (take_task k tasks) as [[r rest']|]; [|discriminate].
      intro H. injection H as <- <-.
      destruct (IH r rest' eq_refl) as [Hk' [Hsub Hnd]]. simpl.
      split; [now right|]. split.
      * intros x [Hx | Hx]; [now left | right; now apply Hsub].
      * intro Hnodup. inversion Hnodup as [|? ? Hnotin Hnd']; subst.
        destruct (Hnd Hnd') as [Hnd'' Hk]. split.
        -- constructor; [|exact Hnd'']. intro Hin. apply Hnotin. now apply Hsub.
        -- intros [Heq | Hin]; [|now apply Hk].
           apply str_eqb_neq in E. congruence.
Qed.

(** The task of one job leaves the records of the others as they are. *)
Lemma perform_analysis_writes_other
  (store : Store) (k : str) (request : AnalysisRequest.t) (w : effects)
  (analysis_id : str) :
  k <> analysis_id ->
  Forall (fun st => dict_get st analysis_id = dict_get store analysis_id)
    (fst (perform_analysis_writes store k request w)).
Proof.
  intro Hne. unfold perform_analysis_writes, perform_analysis_try.
  destruct (dict_get store k) as [r|] eqn:E.
  - destruct (__init__ _ _ _) as [analyzer | e].
    + rewrite dict_get_set_eq. cbn [fst].
      repeat constructor; rewrite !dict_get_set_ne by exact Hne; reflexivity.
    + cbn [last]. rewrite dict_get_set_eq. cbn [fst app].
      repeat constructor; rewrite !dict_get_set_ne by exact Hne; reflexivity.
  - cbn [last]. rewrite E. cbn [fst]. constructor.
Qed.

(** The task of a job whose record is there writes "processing", then
    "completed" or "failed". *)
Lemma perform_analysis_writes_own
  (store : Store) (analysis_id : str) (request : AnalysisRequest.t) (w : effects)
  (r : JobRecord.t) :
  dict_get store analysis_id = Some r ->
  exists t : str,
    (t = completed \/ t = failed)
    /\ status_history analysis_id
         (fst (perform_analysis_writes store analysis_id request w))
       = [processing; t]
    /\ forall r',
         dict_get (last (fst (perform_analysis_writes store analysis_id request w))
                     store) analysis_id = Some r' ->
         JobRecord.status r' = t.
Proof.
  intro Hget. unfold perform_analysis_writes, perform_analysis_try.
  rewrite Hget. destruct (__init__ _ _ _) as [analyzer | e].
  - rewrite dict_get_set_eq. cbn [fst last]. exists completed.
    split; [now left|]. split.
    + unfold status_history. cbn [flat_map]. rewrite !dict_get_set_eq. reflexivity.
    + intros r'. rewrite dict_get_set_eq. intro H. injection H as <-. reflexivity.
  - cbn [last]. rewrite dict_get_set_eq. cbn [fst app last]. exists failed.
    split; [now right|]. split.
    + unfold status_history. cbn [flat_map]. rewrite !dict_get_set_eq. reflexivity.
    + intros r'. rewrite dict_get_set_eq. intro H. injection H as <-. reflexivity.
Qed.

Lemma perform_analysis_writes_absent
  (store : Store) (analysis_id : str) (request : AnalysisRequest.t) (w : effects) :
  dict_get store analysis_id = None ->
  fst (perform_analysis_writes store analysis_id request w) = [].
Proof.
  intro Hget. unfold perform_analysis_writes, perform_analysis_try.
  rewrite Hget. cbn [last]. rewrite Hget. reflexivity.
Qed.

Lemma fresh_not_issued (uuid : str) (ids : list str) :
  existsb (str_eqb uuid) ids = false -> ~ In uuid ids.
Proof.
  intros Hex Hin.
  assert (existsb (str_eqb uuid) ids = true) as Htrue.
  { apply existsb_exists. exists uuid. split; [exact Hin | apply str_eqb_refl]. }
  congruence.
Qed.

Lemma last_unchanged (analysis_id : str) (store : Store) (writes : list Store) :
  Forall (fun st => dict_get st analysis_id = dict_get store analysis_id) writes ->
  dict_get (last writes store) analysis_id = dict_get store analysis_id.
Proof.
  induction 1 as [|st writes Hst Hall IH]; [reflexivity|].
  destruct writes as [|st' writes]; [exact Hst | exact IH].
Qed.

Lemma NoDup_snoc (A : Type) (x : A) (l : list A) :
  ~ In x l -> NoDup l -> NoDup (l ++ [x]).
Proof.
  intros Hx Hl. apply (Permutation_NoDup (l := x :: l)).
  - apply Permutation_cons_append.
  - now constructor.
Qed.

(** replaces the last status of the goal by the one [H] proves equal *)
Ltac same_last H :=
  match goal with
  | |- job_invariant _ ?x _ =>
      let E := fresh "E" in
      assert (E : x = _) by exact H; rewrite E; clear E
  end.

(** One event keeps the invariant of every job and extends its history by
    statuses that follow the last one. *)
Lemma step_invariant
  (analysis_id : str) (last : option str) (s s' : system) (e : event)
  (writes : list Store) :
  job_invariant analysis_id last s ->
  step s e = Some (s', writes) ->
  follows last (status_history analysis_id writes)
  /\ job_invariant analysis_id
       (last_from last (status_history analysis_id writes)) s'.
Proof.
  intros [I1 [I2 [I3 [I4 I6]]]] Hstep.
  destruct e as [request uuid now | k w | k]; cbn [step] in Hstep.
  - (* a submission *)
    destruct (existsb (str_eqb uuid) (issued s)) eqn:Ex; [discriminate|].
    apply fresh_not_issued in Ex.
    cbv beta iota zeta delta [create_analysis] in Hstep. injection Hstep as <- <-.
    assert (Htasks : ~ In uuid (map fst (background_tasks s)))
      by (intro H; apply Ex, I4, H).
    destruct (str_eq_dec uuid analysis_id) as [-> | Hne].
    + rewrite (I6 Ex). unfold status_history. cbn [flat_map].
      rewrite dict_get_set_eq. cbn [app follows]. unfold last_from. cbn [fold_left].
      split; [split; [reflexivity | exact I]|].
      unfold job_invariant.
      cbn [analysis_store background_tasks issued].
      rewrite map_app. cbn [map fst].
      split; [|split; [|split; [|split]]].
      * intros r. rewrite dict_get_set_eq. intro H. injection H as <-. reflexivity.
      * reflexivity.
      * now apply NoDup_snoc.
      * intros k Hk. apply in_app_or in Hk. destruct Hk as [Hk | [<- | []]];
          [right; now apply I4 | now left].
      * intro H. exfalso. apply H. now left.
    + destruct (@unchanged_history analysis_id last (analysis_store s)
                  [dict_set (analysis_store s) uuid
                     {| JobRecord.analysis_id := uuid;
                        JobRecord.status := txt "queued";
                        JobRecord.created_at := now;
                        JobRecord.request := request;
                        JobRecord.analysis := None;
                        JobRecord.completed_at := None;
                        JobRecord.error := None |}] I1) as [Hf Hl].
      { constructor; [|constructor]. now apply dict_get_set_ne. }
      split; [exact Hf|]. same_last Hl.
      unfold job_invariant.
      cbn [analysis_store background_tasks issued].
      rewrite map_app. cbn [map fst].
      split; [|split; [|split; [|split]]].
      * intros r. rewrite dict_get_set_ne by exact Hne. apply I1.
      * intro Hk. apply in_app_or in Hk. destruct Hk as [Hk | [Hk | []]];
          [now apply I2 | congruence].
      * now apply NoDup_snoc.
      * intros k Hk. apply in_app_or in Hk. destruct Hk as [Hk | [<- | []]];
          [right; now apply I4 | now left].
      * intro H. apply I6. intro Hin. apply H. now right.
  - (* a run of a background task *)
    destruct (take_task k (background_tasks s)) as [[request rest]|] eqn:Et;
      [|discriminate].
    destruct (@take_task_spec k (background_tasks s) request rest Et)
      as [Hk [Hsub Hnd]].
    destruct (Hnd I3) as [Hnd' Hgone].
    destruct (perform_analysis_writes (analysis_store s) k request w)
      as [writes' r] eqn:Ep.
    injection Hstep as <- <-.
    assert (Hw : writes' = fst (perform_analysis_writes (analysis_store s) k request w))
      by (now rewrite Ep).
    destruct (str_eq_dec k analysis_id) as [-> | Hne].
    + destruct (dict_get (analysis_store s) analysis_id) as [rec|] eqn:Eg.
      * destruct (@perform_analysis_writes_own (analysis_store s) analysis_id
                    request w rec Eg) as [t [Ht [Hh Hlast]]].
        rewrite <- Hw in Hh, Hlast. rewrite Hh, (I2 Hk).
        cbn [follows]. unfold last_from. cbn [fold_left].
        split.
        { split; [right; left; auto|]. split; [|exact I].
          right. right. auto. }
        unfold job_invariant. cbn [analysis_store background_tasks issued].
        split; [|split; [|split; [|split]]].
        -- intros r' Hr'. now rewrite (Hlast r' Hr').
        -- intro H. contradiction.
        -- exact Hnd'.
        -- intros x Hx. apply I4, Hsub, Hx.
        -- intro H. exfalso. apply H, I4, Hk.
      * rewrite (@perform_analysis_writes_absent (analysis_store s) analysis_id
                   request w Eg) in Hw. subst writes'.
        cbn [status_history flat_map follows List.last]. unfold last_from. cbn [fold_left].
        split; [exact I|].
        unfold job_invariant. cbn [analysis_store background_tasks issued].
        split; [|split; [|split; [|split]]].
        -- intros r' Hr'. congruence.
        -- intro H. contradiction.
        -- exact Hnd'.
        -- intros x Hx. apply I4, Hsub, Hx.
        -- exact I6.
    + pose proof (@perform_analysis_writes_other (analysis_store s) k request w
                    analysis_id Hne) as Hother.
      rewrite <- Hw in Hother.
      destruct (@unchanged_history analysis_id last (analysis_store s) writes'
                  I1 Hother) as [Hf Hl].
      split; [exact Hf|]. same_last Hl.
      unfold job_invariant. cbn [analysis_store background_tasks issued].
      split; [|split; [|split; [|split]]].
      * intros r'.
        rewrite (@last_unchanged analysis_id (analysis_store s) writes' Hother).
        apply I1.
      * intro H. apply I2, Hsub, H.
      * exact Hnd'.
      * intros x Hx. apply I4, Hsub, Hx.
      * exact I6.
  - (* a delete *)
    unfold delete_analysis in Hstep.
    destruct (negb (dict_mem (analysis_store s) k)).
    + injection Hstep as <- <-.
      destruct (@unchanged_history analysis_id last (analysis_store s)
                  [analysis_store s] I1) as [Hf Hl].
      { now repeat constructor. }
      split; [exact Hf|]. same_last Hl.
      unfold job_invariant. cbn [analysis_store background_tasks issued].
      auto.
    + injection Hstep as <- <-.
      destruct (str_eq_dec k analysis_id) as [-> | Hne].
      * unfold status_history. cbn [flat_map]. rewrite dict_get_del_eq.
        cbn [app follows]. unfold last_from. cbn [fold_left].
        split; [exact I|].
        unfold job_invariant. cbn [analysis_store background_tasks issued].
        split; [|auto].
        intros r. rewrite dict_get_del_eq. discriminate.
      * destruct (@unchanged_history analysis_id last (analysis_store s)
                    [dict_del (analysis_store s) k] I1) as [Hf Hl].
        { constructor; [|constructor]. now apply dict_get_del_ne. }
        split; [exact Hf|]. same_last Hl.
        unfold job_invariant. cbn [analysis_store background_tasks issued].
        split; [|auto].
        intros r. rewrite dict_get_del_ne by exact Hne. apply I1.
Qed.

Lemma run_follows (analysis_id : str) (events : list event) :
  forall (last : option str) (s s' : system) (history : list Store),
    job_invariant analysis_id last s ->
    run s events = Some (s', history) ->
    follows last (status_history analysis_id history).
Proof.
  induction events as [|e events IH]; intros last s s' history Hinv; cbn [run].
  - intro H. injection H as <- <-. exact I.
  - destruct (step s e) as [[s1 writes]|] eqn:Es; [|discriminate].
    destruct (run s1 events) as [[s2 rest]|] eqn:Er; [|discriminate].
    intro H. injection H as <- <-.
    destruct (@step_invariant analysis_id last s s1 e writes Hinv Es)
      as [Hf Hinv'].
    rewrite status_history_app. apply follows_app.
    split; [exact Hf | exact (IH _ _ _ _ Hinv' Er)].
Qed.

Lemma initial_invariant (analysis_id : str) :
  job_invariant analysis_id None initial.
Proof.
  unfold job_invariant, initial. cbn.
  split; [discriminate|]. split; [tauto|]. split; [constructor|].
  split; [tauto | reflexivity].
Qed.

(** C6. Along every sequence of submissions, runs of background tasks
    and deletes, the status of each job changes along a prefix of queued,
    processing, completed or of queued, processing, failed; and of two
    readings of the status of a job the later one is the same status or a
    later stage: the status never moves backwards and never leaves
    "completed" or "failed". *)
Theorem status_history_lifecycle :
  forall (events : list event) (s : system) (history : list Store)
         (analysis_id : str),
    run initial events = Some (s, history) ->
    (is_prefix (changes (status_history analysis_id history))
       [queued; processing; completed]
     \/ is_prefix (changes (status_history analysis_id history))
          [queued; processing; failed])
    /\ StronglySorted no_regress (status_history analysis_id history).
Proof.
  intros events s history analysis_id Hrun.
  pose proof (@run_follows analysis_id events None initial s history
                (initial_invariant analysis_id) Hrun) as Hf.
  split; [now apply follows_prefix | now apply follows_sorted].
Qed.

End WithRuntime.
End PipelineFacts.

(** ** The properties at the sample data *)

Module Samples.
Import Py scenario_analyzer api_server pipeline Spec Examples.
Import TextFacts ApiFacts PipelineFacts.


Lemma list_analyses_witness :
  (Z.of_nat (List.length (list_analyses two_jobs (Some 1%Z) (Some queued))) <= 1)%Z
  /\ Forall (fun a => AnalysisStatus.status a = queued)
       (list_analyses two_jobs (Some 1%Z) (Some queued)).
Proof.
  destruct (@list_analyses_spec plain_runtime two_jobs (Some 1%Z) (Some queued))
    as [Hlen [Hfilter _]].
  split.
  - apply Hlen. lia.
  - apply (Hfilter queued eq_refl). intro H. vm_compute in H. discriminate H.
Defined.

(** C9 as stated fails: with the limit -1 and two jobs in the store, one
    job is listed, which is more than the limit; and with the empty string
    as status filter, jobs whose status is not the empty string are
    listed. *)
Lemma list_analyses_negative_limit :
  ~ (Z.of_nat (List.length (list_analyses two_jobs (Some (-1)%Z) None)) <= -1)%Z
  /\ ~ Forall (fun a => AnalysisStatus.status a = [])
         (list_analyses two_jobs None (Some [])).
Proof.
  split.
  - intro H. vm_compute in H. apply H. reflexivity.
  - intro H. inversion H as [|a l Ha _]. vm_compute in Ha. discriminate Ha.
Qed.

(** Jobs created at the same time keep the order of the store. *)
Example sort_reverse_is_stable :
  sort_reverse fst
    [(txt "10:00", 1); (txt "11:00", 2); (txt "10:00", 3); (txt "11:00", 4)]
  = [(txt "11:00", 2); (txt "11:00", 4); (txt "10:00", 1); (txt "10:00", 3)].
Proof. reflexivity. Qed.

Example busy_morning_changes :
  option_map
    (fun r => (changes (status_history (txt "job-1") (snd r)),
               changes (status_history (txt "job-2") (snd r))))
    (run initial busy_morning)
  = Some ([queued; processing; completed], [queued; processing; failed]).
Proof. vm_compute. reflexivity. Qed.

Lemma busy_morning_runs :
  match run initial busy_morning with
  | Some _ => true
  | None => false
  end = true.
Proof. vm_compute. reflexivity. Qed.

Lemma status_history_lifecycle_witness :
  exists s history,
    run initial busy_morning = Some (s, history)
    /\ (is_prefix (changes (status_history (txt "job-2") history))
          [queued; processing; completed]
        \/ is_prefix (changes (status_history (txt "job-2") history))
             [queued; processing; failed])
    /\ StronglySorted no_regress (status_history (txt "job-2") history).
Proof.
  pose proof busy_morning_runs as Hruns.
  destruct (run initial busy_morning) as [[s history]|] eqn:E.
  - exists s, history. split; [reflexivity|].
    exact (@status_history_lifecycle plain_runtime busy_morning s history
             (txt "job-2") E).
  - discriminate Hruns.
Defined.

End Samples.

(** ** The engine: further properties *)

Module AnalyzerMore.
Import Py scenario_analyzer Spec MoreSpec Examples TextFacts AnalyzerFacts.

Lemma named_In (tests : list (bool * str)) (x : str) :
  In x (named tests) <-> In (true, x) tests.
Proof.
  unfold named. rewrite in_flat_map. split.
  - intros [[b y] [Hin Hx]]. simpl in Hx. destruct b; simpl in Hx; [|tauto].
    destruct Hx as [<- | []]. exact Hin.
  - intro Hin. exists (true, x). split; [exact Hin | now left].
Qed.

Lemma named_length (tests : list (bool * str)) :
  List.length (named tests) <= List.length tests.
Proof.
  induction tests as [|[[|] x] tests IH]; simpl; lia.
Qed.

Lemma named_NoDup (tests : list (bool * str)) :
  NoDup (map snd tests) -> NoDup (named tests).
Proof.
  induction tests as [|[b x] tests IH]; simpl; intro H.
  - constructor.
  - inversion H as [|? ? Hx Hrest]; subst. destruct b; simpl; [|now apply IH].
    constructor; [|now apply IH].
    intro Hin. apply named_In in Hin. apply Hx.
    apply in_map_iff. now exists (true, x).
Qed.

Lemma NoDup_map_filter (A B : Type) (g : A -> B) (f : A -> bool) (l : list A) :
  NoDup (map g l) -> NoDup (map g (filter f l)).
Proof.
  induction l as [|x l IH]; simpl; intro H; [constructor|].
  inversion H as [|? ? Hx Hrest]; subst.
  destruct (f x); simpl; [|now apply IH].
  constructor; [|now apply IH].
  intro Hin. apply Hx. apply in_map_iff in Hin. destruct Hin as [y [Hy Hin]].
  apply filter_In in Hin. apply in_map_iff. exists y. tauto.
Qed.

(** Lists without repetition that have the same elements have the same
    length. *)
Lemma same_elements_length (l1 l2 : list str) :
  NoDup l1 -> NoDup l2 -> (forall x, In x l1 <-> In x l2) ->
  List.length l1 = List.length l2.
Proof.
  intros H1 H2 Hiff. apply Nat.le_antisymm.
  - apply NoDup_incl_length; [exact H1 | intros x Hx; now apply Hiff].
  - apply NoDup_incl_length; [exact H2 | intros x Hx; now apply Hiff].
Qed.

Section WithRuntime.
Context {RT : PyRuntime}.

Lemma push_if (b : bool) (acc : list str) (x : str) :
  (if b then acc ++ [x] else acc) = acc ++ (if b then [x] else []).
Proof. destruct b; [reflexivity | now rewrite app_nil_r]. Qed.

Lemma set_iter_length (l : list str) :
  List.length (set_iter l) = distinct_count l.
Proof.
  unfold distinct_count. apply same_elements_length.
  - apply set_iter_NoDup.
  - apply NoDup_nodup.
  - intro x. rewrite set_iter_In, nodup_In. reflexivity.
Qed.

Lemma set_iter_nil : set_iter [] = [].
Proof.
  destruct (set_iter []) as [|x l] eqn:E; [reflexivity|].
  exfalso. apply (proj1 (set_iter_In [] x)). rewrite E. now left.
Qed.

Lemma extract_context_factors_eq
  (situation : str) (context : option (list (str * py_object))) :
  _extract_context_factors situation context =
  or_default [txt "General situational context"]
    (map factor
       (filter (fun c => re_search_words (keywords c) (lower situation)) categories)
     ++ context_entries context).
Proof.
  unfold _extract_context_factors, categories. cbn [filter keywords].
  destruct (re_search_words _ _); destruct (re_search_words _ _);
    destruct (re_search_words _ _); destruct (re_search_words _ _);
    destruct (re_search_words _ _);
    destruct context as [[|kv items]|];
    cbn [map factor app context_entries or_default];
    try reflexivity;
    cbn [fold_left]; rewrite fold_left_append; reflexivity.
Qed.

Lemma identify_key_variables_eq (situation : str) (outs : list Outcome) :
  _identify_key_variables situation outs =
  or_default [txt "Situational dynamics"; txt "External factors"]
    (named (key_variable_tests situation outs)).
Proof.
  unfold _identify_key_variables, key_variable_tests, named.
  rewrite pooled_flat_map. cbv zeta. cbn [flat_map fst snd].
  rewrite !push_if. cbn [app]. rewrite <- !app_assoc, app_nil_r.
  reflexivity.
Qed.

(** X1. Context-factor extraction never returns the empty list; the
    default factor is in the result only when it is the whole result; and
    without context entries the result has at most five factors, all
    different. *)
Theorem extract_context_factors_shape :
  forall (situation : str) (context : option (list (str * py_object))),
    let factors := _extract_context_factors situation context in
    factors <> []
    /\ (In (txt "General situational context") factors ->
        factors = [txt "General situational context"])
    /\ (context_entries context = [] ->
        List.length factors <= 5 /\ NoDup factors).
Proof.
  intros situation context factors. subst factors.
  rewrite extract_context_factors_eq.
  set (cats := filter _ categories).
  assert (Hcats : forall f, In f (map factor cats) -> In f (map factor categories)).
  { intros f Hf. apply in_map_iff in Hf. destruct Hf as [c [<- Hc]].
    apply filter_In in Hc. apply in_map. tauto. }
  split; [|split].
  - destruct (map factor cats ++ context_entries context); simpl; discriminate.
  - destruct (map factor cats ++ context_entries context) as [|f l] eqn:E;
      [reflexivity|].
    cbn [or_default]. rewrite <- E. intro Hin. exfalso.
    apply in_app_or in Hin. destruct Hin as [Hin | Hin].
    + apply Hcats in Hin. vm_compute in Hin.
      repeat (destruct Hin as [Hin | Hin]; [discriminate Hin|]). exact Hin.
    + destruct context as [items|]; simpl in Hin; [|exact Hin].
      apply in_map_iff in Hin. destruct Hin as [kv [Heq _]].
      assert (Hcolon : In 58%N (txt "General situational context")).
      { rewrite <- Heq. apply in_or_app. right. now left. }
      vm_compute in Hcolon.
      repeat (destruct Hcolon as [Hcolon | Hcolon]; [discriminate Hcolon|]).
      exact Hcolon.
  - intros ->. rewrite app_nil_r.
    assert (Hlen : List.length (map factor cats) <= 5).
    { rewrite length_map. subst cats.
      etransitivity; [apply filter_length_le|]. reflexivity. }
    assert (Hnd : NoDup (map factor cats)).
    { subst cats. apply NoDup_map_filter.
      repeat (constructor; [vm_compute; intuition discriminate|]). constructor. }
    destruct (map factor cats) as [|f l]; cbn [or_default].
    + split; [simpl; lia | repeat constructor; simpl; tauto].
    + split; [exact Hlen | exact Hnd].
Qed.

(** X2. The key variables are never empty, never repeat a name and are at
    most seven. *)
Theorem identify_key_variables_shape :
  forall (situation : str) (outs : list Outcome),
    let variables := _identify_key_variables situation outs in
    variables <> []
    /\ NoDup variables
    /\ List.length variables <= 7.
Proof.
  intros situation outs variables. subst variables.
  rewrite identify_key_variables_eq.
  pose proof (named_length (key_variable_tests situation outs)) as Hlen.
  assert (Hnd : NoDup (named (key_variable_tests situation outs))).
  { apply named_NoDup. unfold key_variable_tests. cbn [map snd].
    repeat (constructor; [vm_compute; intuition discriminate|]). constructor. }
  cbn [key_variable_tests List.length] in Hlen.
  destruct (named (key_variable_tests situation outs)) as [|v l]; cbn [or_default].
  - split; [discriminate|]. split; [|simpl; lia].
    repeat (constructor; [vm_compute; intuition discriminate|]). constructor.
  - split; [discriminate|]. split; [exact Hnd | exact Hlen].
Qed.

(** X3. A situation that names "market" or "team" as a whole word, which
    gives it the economic or the human-resources context factor, also gets
    the market or the team key variable, whatever the outcomes. *)
Theorem whole_word_gives_key_variable :
  forall (situation : str) (outs : list Outcome),
    (occurs_as_whole_word (txt "market") (lower situation) ->
     In (txt "Economic factors") (_extract_context_factors situation None)
     /\ In (txt "Market conditions") (_identify_key_variables situation outs))
    /\ (occurs_as_whole_word (txt "team") (lower situation) ->
        In (txt "Human resources") (_extract_context_factors situation None)
        /\ In (txt "Team performance and dynamics")
             (_identify_key_variables situation outs)).
Proof.
  intros situation outs.
  assert (Hvar : forall kw name,
             In (contains kw (lower situation), name)
                (key_variable_tests situation outs) ->
             occurs_as_whole_word kw (lower situation) ->
             In name (_identify_key_variables situation outs)).
  { intros kw name Htest [pre [post [Hs _]]].
    assert (Hc : contains kw (lower situation) = true)
      by (apply contains_iff; now exists pre, post).
    rewrite Hc in Htest. apply named_In in Htest.
    rewrite identify_key_variables_eq.
    destruct (named (key_variable_tests situation outs)); [destruct Htest|].
    exact Htest. }
  assert (Hfac : forall c kw,
             In c categories -> In kw (keywords c) ->
             occurs_as_whole_word kw (lower situation) ->
             In (factor c) (_extract_context_factors situation None)).
  { intros c kw Hc Hkw Hocc.
    rewrite extract_context_factors_eq. cbn [context_entries]. rewrite app_nil_r.
    assert (Hin : In (factor c)
                    (map factor
                       (filter (fun c => re_search_words (keywords c) (lower situation))
                          categories))).
    { apply in_map. apply filter_In. split; [exact Hc|].
      apply category_matches_iff.
      - pose proof categories_wordy as Hw. rewrite Forall_forall in Hw.
        now apply Hw.
      - now exists kw. }
    destruct (map factor _); [destruct Hin | exact Hin]. }
  split; intro Hocc; split.
  - apply (Hfac {| keywords := [txt "market"; txt "economy"; txt "financial"];
                   factor := txt "Economic factors" |} (txt "market"));
      [simpl; tauto | simpl; tauto | exact Hocc].
  - apply (Hvar (txt "market")); [simpl; tauto | exact Hocc].
  - apply (Hfac {| keywords := [txt "team"; txt "people"; txt "employee"];
                   factor := txt "Human resources" |} (txt "team"));
      [simpl; tauto | simpl; tauto | exact Hocc].
  - apply (Hvar (txt "team")); [simpl; tauto | exact Hocc].
Qed.

(** X4. The number of recommendations: one for the first outcome above
    0.3 when there is one, one for each distinct pooled risk up to three,
    one for each distinct pooled opportunity up to two, and the two
    closing ones; so between two and eight, whatever the order of the
    sets. *)
Theorem generate_recommendations_length :
  forall (situation : str) (outs : list Outcome),
    let recs := _generate_recommendations situation outs in
    List.length recs =
      List.length (prepare_entry outs)
      + Nat.min 3 (distinct_count (flat_map risk_factors outs))
      + Nat.min 2 (distinct_count (flat_map opportunities outs))
      + 2
    /\ 2 <= List.length recs <= 8.
Proof.
  intros situation outs recs. subst recs.
  rewrite generate_recommendations_eq.
  rewrite !length_app, !length_map, !length_firstn, !set_iter_length.
  assert (Hp : List.length (prepare_entry outs) <= 1).
  { unfold prepare_entry. destruct (find _ outs); simpl; lia. }
  cbn [closing_recommendations List.length]. lia.
Qed.

(** X5. An analyzer with a client accepts an empty payload: the analysis
    then has no outcome, its recommendations are the two closing ones and
    its key variables come from the situation alone. *)
Theorem empty_payload_analysis :
  forall (self : ScenarioAnalyzer) (c : OpenAI) (now situation : str)
         (context : option (list (str * py_object))),
    client self = Some c ->
    let a := analyze self (Ok []) now situation context in
    outcomes a = []
    /\ recommendations a = closing_recommendations
    /\ key_variables a =
         or_default [txt "Situational dynamics"; txt "External factors"]
           (situation_scan situation).
Proof.
  intros self c now situation context Hc a. subst a.
  unfold analyze. cbn [outcomes recommendations key_variables].
  unfold _generate_outcomes. rewrite Hc. cbn [_ai_generate_outcomes].
  split; [reflexivity|]. split.
  - rewrite generate_recommendations_eq. cbn [flat_map prepare_entry find].
    rewrite set_iter_nil. reflexivity.
  - rewrite identify_key_variables_eq.
    unfold key_variable_tests, named, situation_scan.
    cbn [flat_map existsb fst snd app]. rewrite !app_nil_r. reflexivity.
Qed.

Lemma canonical_pools (situation : str) (factors : list str) :
  flat_map risk_factors (_rule_based_outcomes situation factors) = canonical_risks
  /\ flat_map opportunities (_rule_based_outcomes situation factors)
     = canonical_opportunities.
Proof. split; reflexivity. Qed.

Lemma canonical_counts :
  distinct_count canonical_risks = 8 /\ distinct_count canonical_opportunities = 8.
Proof. split; vm_compute; reflexivity. Qed.

(** X6. When the rule-based strategy supplies the outcomes there are
    exactly eight recommendations: the one for the expected outcome, three
    different risks of the canonical outcomes, two different
    opportunities of theirs, and the two closing ones. *)
Theorem rule_based_recommendations :
  forall (self : ScenarioAnalyzer) (reply : ai_reply) (now situation : str)
         (context : option (list (str * py_object))),
    rule_based_path self reply ->
    exists risks opps : list str,
      recommendations (analyze self reply now situation context) =
        [txt "Prepare primarily for: Expected outcome - moderate success with some challenges"]
        ++ map (app (txt "Mitigate risk: ")) risks
        ++ map (app (txt "Leverage opportunity: ")) opps
        ++ closing_recommendations
      /\ List.length risks = 3 /\ NoDup risks /\ incl risks canonical_risks
      /\ List.length opps = 2 /\ NoDup opps /\ incl opps canonical_opportunities.
Proof.
  intros self reply now situation context Hpath.
  unfold analyze. cbn [recommendations].
  rewrite generate_outcomes_rule_based by exact Hpath.
  rewrite generate_recommendations_eq.
  set (outs := _rule_based_outcomes _ _).
  destruct (canonical_pools situation (_extract_context_factors situation context))
    as [Hr Ho].
  fold outs in Hr, Ho. rewrite Hr, Ho.
  destruct canonical_counts as [Hcr Hco].
  exists (firstn 3 (set_iter canonical_risks)),
         (firstn 2 (set_iter canonical_opportunities)).
  split; [reflexivity|].
  assert (Hfirst : forall n pool x, In x (firstn n (set_iter pool)) -> In x pool).
  { intros n pool x Hx. apply set_iter_In.
    rewrite <- (firstn_skipn n (set_iter pool)). apply in_or_app. now left. }
  assert (Hnd : forall n pool, NoDup (firstn n (set_iter pool))).
  { intros n pool. pose proof (set_iter_NoDup pool) as H.
    rewrite <- (firstn_skipn n (set_iter pool)) in H.
    now apply NoDup_app_remove_r in H. }
  repeat split.
  - rewrite length_firstn, set_iter_length, Hcr. reflexivity.
  - apply Hnd.
  - intros x Hx. now apply Hfirst in Hx.
  - rewrite length_firstn, set_iter_length, Hco. reflexivity.
  - apply Hnd.
  - intros x Hx. now apply Hfirst in Hx.
Qed.

(** Without a key, or with the empty string as key, the analyzer is
    built whatever the provider's library does, it has no client, and the
    outcomes of every analysis are the rule-based ones whatever a provider
    would have replied. *)
Lemma no_key_is_rule_based :
  forall (connect : result unit) (model : str) (api_key : option str),
    no_key api_key ->
    exists analyzer : ScenarioAnalyzer,
      __init__ connect api_key model = Ok analyzer
      /\ client analyzer = None
      /\ forall (reply : ai_reply) (now situation : str)
                (context : option (list (str * py_object))),
           outcomes (analyze analyzer reply now situation context)
           = _rule_based_outcomes situation
               (_extract_context_factors situation context).
Proof.
  intros connect model api_key Hkey.
  exists {| client := None; model := model |}.
  split; [destruct Hkey as [-> | ->]; reflexivity|].
  split; reflexivity.
Qed.

End WithRuntime.
End AnalyzerMore.

(** ** The routes: further properties *)

Module ApiMore.
Import Py scenario_analyzer api_server pipeline Spec MoreSpec Examples.
Import TextFacts AnalyzerFacts ApiFacts AnalyzerMore.

Section DictMore.
Variable V : Type.

Lemma dict_get_keys (d : dict V) (k : str) :
  (exists v, dict_get d k = Some v) <-> In k (map fst d).
Proof.
  induction d as [|[k' v'] d IH]; simpl.
  - split; [intros [v H]; discriminate | tauto].
  - destruct (str_eqb k' k) eqn:E.
    + apply str_eqb_eq in E. split; [intros _; now left | intros _; eauto].
    + apply str_eqb_neq in E. rewrite IH. split; [tauto | intros [H | H]; tauto].
Qed.

Lemma dict_get_none_keys (d : dict V) (k : str) :
  dict_get d k = None <-> ~ In k (map fst d).
Proof.
  rewrite <- dict_get_keys. destruct (dict_get d k) as [v|].
  - split; [discriminate | intro H; exfalso; apply H; eauto].
  - split; [intros _ [v H]; discriminate | reflexivity].
Qed.

Lemma dict_set_keys (d : dict V) (k : str) (v : V) :
  In k (map fst d) -> map fst (dict_set d k v) = map fst d.
Proof.
  induction d as [|[k' v'] d IH]; simpl; [tauto|].
  destruct (str_eqb k' k) eqn:E; simpl; [reflexivity|].
  apply str_eqb_neq in E. intros [H | H]; [congruence|].
  now rewrite IH.
Qed.

Lemma dict_set_fresh (d : dict V) (k : str) (v : V) :
  ~ In k (map fst d) -> dict_set d k v = d ++ [(k, v)].
Proof.
  induction d as [|[k' v'] d IH]; simpl; [reflexivity|].
  intro H. destruct (str_eqb k' k) eqn:E.
  - apply str_eqb_eq in E. tauto.
  - rewrite IH by tauto. reflexivity.
Qed.

Lemma dict_del_absent (d : dict V) (k : str) :
  ~ In k (map fst d) -> dict_del d k = d.
Proof.
  induction d as [|[k' v'] d IH]; simpl; [reflexivity|].
  intro H. destruct (str_eqb k' k) eqn:E.
  - apply str_eqb_eq in E. tauto.
  - rewrite IH by tauto. reflexivity.
Qed.

Lemma dict_del_keys (d : dict V) (k : str) :
  map fst (dict_del d k) = filter (fun k' => negb (str_eqb k' k)) (map fst d).
Proof.
  induction d as [|[k' v'] d IH]; simpl; [reflexivity|].
  destruct (str_eqb k' k); simpl; now rewrite IH.
Qed.

(** In a dictionary the entry of a key is the one that a lookup finds. *)
Lemma dict_entry_get (d : dict V) (k : str) (v : V) :
  NoDup (map fst d) -> In (k, v) d -> dict_get d k = Some v.
Proof.
  induction d as [|[k' v'] d IH]; simpl; [tauto|].
  intros Hnd [Heq | Hin].
  - injection Heq as -> ->. now rewrite str_eqb_refl.
  - inversion Hnd as [|? ? Hk' Hnd']; subst.
    destruct (str_eqb k' k) eqn:E.
    + apply str_eqb_eq in E. subst k'. exfalso. apply Hk'.
      apply in_map_iff. now exists (k, v).
    + now apply IH.
Qed.

End DictMore.

Section WithRuntime.
Context {RT : PyRuntime}.

(** X7. After [DeleteAnalysis] of an identifier, known or not, [GetStatus]
    and [GetResult] of it fail with 404 and a second delete fails with
    404; the answers for every other identifier are the same as before. *)
Theorem delete_then_read :
  forall (store : Store) (analysis_id : str),
    let store' := fst (delete_analysis store analysis_id) in
    get_analysis_status store' analysis_id
      = HTTPException 404 (txt "Analysis not found")
    /\ get_analysis_result store' analysis_id
       = HTTPException 404 (txt "Analysis not found")
    /\ delete_analysis store' analysis_id
       = (store', HTTPException 404 (txt "Analysis not found"))
    /\ forall k, k <> analysis_id ->
         get_analysis_status store' k = get_analysis_status store k
         /\ get_analysis_result store' k = get_analysis_result store k.
Proof.
  intros store analysis_id store'.
  assert (Hgone : dict_get store' analysis_id = None).
  { subst store'. unfold delete_analysis, dict_mem.
    destruct (dict_get store analysis_id) eqn:E; cbn [negb fst].
    - apply dict_get_del_eq.
    - exact E. }
  assert (Hother : forall k, k <> analysis_id -> dict_get store' k = dict_get store k).
  { intros k Hk. subst store'. unfold delete_analysis, dict_mem.
    destruct (dict_get store analysis_id); cbn [negb fst]; [|reflexivity].
    apply dict_get_del_ne. congruence. }
  split; [|split; [|split]].
  - unfold get_analysis_status. now rewrite Hgone.
  - unfold get_analysis_result. now rewrite Hgone.
  - unfold delete_analysis at 1. unfold dict_mem. now rewrite Hgone.
  - intros k Hk. unfold get_analysis_status, get_analysis_result.
    now rewrite (Hother k Hk).
Qed.

(** X8. [DeleteAnalysis] of an unknown identifier fails with 404 and leaves
    the store as it is; of a known one it answers "Analysis deleted
    successfully", whatever the status of the job, and removes that key
    and no other. *)
Theorem delete_analysis_cases :
  forall (store : Store) (analysis_id : str),
    (dict_get store analysis_id = None ->
     delete_analysis store analysis_id
     = (store, HTTPException 404 (txt "Analysis not found")))
    /\ (forall r, dict_get store analysis_id = Some r ->
          snd (delete_analysis store analysis_id)
          = Return (txt "Analysis deleted successfully")
          /\ map fst (fst (delete_analysis store analysis_id))
             = filter (fun k => negb (str_eqb k analysis_id)) (map fst store)).
Proof.
  intros store analysis_id. unfold delete_analysis, dict_mem. split.
  - intros ->. reflexivity.
  - intros r ->. cbn [negb fst snd]. split; [reflexivity | apply dict_del_keys].
Qed.

(** X9. After [CreateAnalysis], [GetStatus] of the new identifier returns
    what the creation returned: status "queued", the creation time, no
    completion time and no error; [GetResult] of it fails with 400 and
    names the status; the task is scheduled last; and the records of the
    other identifiers are as before. *)
Theorem create_then_read :
  forall (store : Store) (tasks : list (str * AnalysisRequest.t))
         (request : AnalysisRequest.t) (uuid now : str),
    let created := create_analysis store tasks request uuid now in
    let store' := fst (fst created) in
    get_analysis_status store' uuid = Return (snd created)
    /\ snd created =
         {| AnalysisStatus.analysis_id := uuid;
            AnalysisStatus.status := queued;
            AnalysisStatus.created_at := now;
            AnalysisStatus.completed_at := None;
            AnalysisStatus.error := None |}
    /\ get_analysis_result store' uuid
       = HTTPException 400 (txt "Analysis not completed. Status: queued")
    /\ snd (fst created) = tasks ++ [(uuid, request)]
    /\ forall k, k <> uuid -> dict_get store' k = dict_get store k.
Proof.
  intros store tasks request uuid now created store'.
  subst store' created. unfold create_analysis. cbn [fst snd].
  split; [|split; [|split; [|split]]].
  - unfold get_analysis_status. rewrite dict_get_set_eq. reflexivity.
  - reflexivity.
  - unfold get_analysis_result. rewrite dict_get_set_eq. reflexivity.
  - reflexivity.
  - intros k Hk. apply dict_get_set_ne. congruence.
Qed.

(** X10. The background task never adds or removes a job and never moves
    one: the keys of the store are the same, in the same order; and the
    record it leaves for its job has the identifier, the creation time and
    the request of the record it found. *)
Theorem perform_analysis_keeps_jobs :
  forall (store : Store) (analysis_id : str) (request : AnalysisRequest.t)
         (w : effects),
    let store' := fst (perform_analysis store analysis_id request w) in
    map fst store' = map fst store
    /\ forall r', dict_get store' analysis_id = Some r' ->
         exists r, dict_get store analysis_id = Some r
                   /\ JobRecord.analysis_id r' = JobRecord.analysis_id r
                   /\ JobRecord.created_at r' = JobRecord.created_at r
                   /\ JobRecord.request r' = JobRecord.request r.
Proof.
  intros store analysis_id request w store'. subst store'.
  unfold perform_analysis, perform_analysis_writes, perform_analysis_try.
  destruct (dict_get store analysis_id) as [r|] eqn:E.
  - assert (Hk : In analysis_id (map fst store))
      by (apply dict_get_keys; eauto).
    destruct (__init__ _ _ _) as [analyzer | e].
    + rewrite dict_get_set_eq. cbn [List.last fst]. split.
      * rewrite !dict_set_keys; [reflexivity | exact Hk |].
        rewrite dict_set_keys; exact Hk.
      * intros r'. rewrite dict_get_set_eq. intro H. injection H as <-.
        exists r. auto.
    + cbn [List.last]. rewrite dict_get_set_eq. cbn [app List.last fst]. split.
      * rewrite !dict_set_keys; [reflexivity | exact Hk |].
        rewrite dict_set_keys; exact Hk.
      * intros r'. rewrite dict_get_set_eq. intro H. injection H as <-.
        exists r. auto.
  - cbn [List.last]. rewrite E. cbn [List.last fst].
    split; [reflexivity|]. intros r' H. congruence.
Qed.

(** X11. The response built for an analysis determines the analysis and
    the identifier, and its status is always "completed". *)
Theorem convert_analysis_to_response_injective :
  forall (a a' : ScenarioAnalysis) (analysis_id analysis_id' : str),
    AnalysisResponse.status (convert_analysis_to_response a analysis_id) = completed
    /\ (convert_analysis_to_response a analysis_id
        = convert_analysis_to_response a' analysis_id' ->
        a = a' /\ analysis_id = analysis_id').
Proof.
  intros a a' analysis_id analysis_id'. split; [reflexivity|].
  intro H. split.
  - rewrite <- (analysis_of_response_convert a analysis_id), H.
    apply analysis_of_response_convert.
  - apply (f_equal AnalysisResponse.analysis_id) in H. exact H.
Qed.

(** X13. A job submitted without a key, or with the empty string as key,
    never fails: when its task finds its record, the job ends "completed"
    with an analysis whose outcomes are the rule-based ones, whatever the
    provider's library and the provider would have done. *)
Theorem keyless_job_completes :
  forall (store : Store) (analysis_id : str) (request : AnalysisRequest.t)
         (w : effects) (r : JobRecord.t),
    dict_get store analysis_id = Some r ->
    no_key (AnalysisRequest.api_key request) ->
    exists (r' : JobRecord.t) (a : ScenarioAnalysis),
      snd (perform_analysis store analysis_id request w) = Ok tt
      /\ dict_get (fst (perform_analysis store analysis_id request w)) analysis_id
         = Some r'
      /\ JobRecord.status r' = completed
      /\ JobRecord.analysis r' = Some a
      /\ JobRecord.error r' = JobRecord.error r
      /\ outcomes a =
           _rule_based_outcomes (AnalysisRequest.situation request)
             (context_factors a).
Proof.
  intros store analysis_id request w r Hget Hkey.
  destruct (no_key_is_rule_based (connect w) (AnalysisRequest.model request) Hkey)
    as [analyzer [Hinit [Hclient Houts]]].
  unfold perform_analysis, perform_analysis_writes, perform_analysis_try.
  rewrite Hget, Hinit, dict_get_set_eq. cbn [List.last fst snd].
  eexists. eexists. split; [reflexivity|].
  split; [apply dict_get_set_eq|].
  cbn [update_completed JobRecord.status JobRecord.analysis JobRecord.error set_status].
  repeat split. apply Houts.
Qed.

End WithRuntime.

Lemma str_leb_refl (a : str) : str_leb a a = true.
Proof.
  induction a as [|x a IH]; simpl; [reflexivity|].
  now rewrite N.compare_refl.
Qed.

Section SortMore.
Variable V : Type.
Variable key : V -> str.

Lemma sort_reverse_length (l : list V) :
  List.length (sort_reverse key l) = List.length l.
Proof.
  induction l as [|x l IH]; simpl; [reflexivity|].
  now rewrite insert_reverse_length, IH.
Qed.

Lemma insert_reverse_perm (x : V) (l : list V) :
  Permutation (insert_reverse key x l) (x :: l).
Proof.
  induction l as [|y l IH]; simpl; [reflexivity|].
  destruct (str_ltb (key x) (key y)); [|reflexivity].
  rewrite IH. apply perm_swap.
Qed.

Lemma sort_reverse_perm (l : list V) : Permutation (sort_reverse key l) l.
Proof.
  induction l as [|x l IH]; simpl; [reflexivity|].
  rewrite insert_reverse_perm. now constructor.
Qed.

(** The sort is stable: the elements of one key keep their order. *)
Lemma insert_reverse_same_key (t : str) (x : V) (l : list V) :
  filter (fun a => str_eqb (key a) t) (insert_reverse key x l)
  = filter (fun a => str_eqb (key a) t) (x :: l).
Proof.
  induction l as [|y l IH]; [reflexivity|].
  cbn [insert_reverse]. destruct (str_ltb (key x) (key y)) eqn:E; [|reflexivity].
  cbn [filter] in IH |- *. rewrite IH.
  destruct (str_eqb (key x) t) eqn:Ex; [|reflexivity].
  destruct (str_eqb (key y) t) eqn:Ey; [|reflexivity].
  apply str_eqb_eq in Ex, Ey. unfold str_ltb in E.
  rewrite Ex, Ey, str_leb_refl in E. discriminate E.
Qed.

Lemma sort_reverse_same_key (t : str) (l : list V) :
  filter (fun a => str_eqb (key a) t) (sort_reverse key l)
  = filter (fun a => str_eqb (key a) t) l.
Proof.
  induction l as [|x l IH]; [reflexivity|].
  cbn [sort_reverse fold_right]. rewrite insert_reverse_same_key.
  cbn [filter]. fold (sort_reverse key l). now rewrite IH.
Qed.

End SortMore.

Lemma filter_map_comm (A B : Type) (g : A -> B) (q : B -> bool) (l : list A) :
  filter q (map g l) = map g (filter (fun a => q (g a)) l).
Proof.
  induction l as [|x l IH]; simpl; [reflexivity|].
  destruct (q (g x)); simpl; now rewrite IH.
Qed.

Section Listing.
Context {RT : PyRuntime}.

Lemma list_analyses_eq (store : Store) (limit : option Z) (status : option str) :
  list_analyses store limit status =
  map summary
    (slice_to (match limit with Some n => n | None => 10%Z end)
       (sort_reverse JobRecord.created_at (matching store status))).
Proof. reflexivity. Qed.

(** X14. How many jobs [ListAnalyses] lists: with a limit that is not
    negative, the limit or the number of jobs that the filter keeps,
    whichever is smaller; with a negative limit, that number less the size
    of the limit, or none. *)
Theorem list_analyses_length :
  forall (store : Store) (limit : option Z) (status : option str),
    let n := match limit with Some n => n | None => 10%Z end in
    let kept := Z.of_nat (List.length (matching store status)) in
    Z.of_nat (List.length (list_analyses store limit status)) =
      if (0 <=? n)%Z then Z.min n kept else Z.max 0 (kept + n).
Proof.
  intros store limit status n kept.
  rewrite list_analyses_eq. fold n. rewrite length_map.
  unfold slice_to.
  destruct (0 <=? n)%Z eqn:E;
    rewrite length_firstn, sort_reverse_length; fold kept.
  - apply Z.leb_le in E. lia.
  - apply Z.leb_gt in E. lia.
Qed.

(** X15. When the limit is at least the number of jobs that the filter
    keeps, [ListAnalyses] lists each of them once, and the jobs created at
    the same time are listed in the order of the store. *)
Theorem list_analyses_complete :
  forall (store : Store) (limit : option Z) (status : option str),
    let n := match limit with Some n => n | None => 10%Z end in
    (Z.of_nat (List.length (matching store status)) <= n)%Z ->
    Permutation (list_analyses store limit status)
      (map summary (matching store status))
    /\ forall t : str,
         filter (fun a => str_eqb (AnalysisStatus.created_at a) t)
           (list_analyses store limit status)
         = map summary
             (filter (fun r => str_eqb (JobRecord.created_at r) t)
                (matching store status)).
Proof.
  intros store limit status n Hn.
  rewrite list_analyses_eq. fold n.
  assert (Hslice : slice_to n (sort_reverse JobRecord.created_at (matching store status))
                   = sort_reverse JobRecord.created_at (matching store status)).
  { unfold slice_to.
    assert (H0 : (0 <= n)%Z) by lia. apply Z.leb_le in H0. rewrite H0.
    apply firstn_all2. rewrite sort_reverse_length. lia. }
  rewrite Hslice. split.
  - apply Permutation_map, sort_reverse_perm.
  - intro t. rewrite filter_map_comm. f_equal.
    apply (sort_reverse_same_key JobRecord.created_at t).
Qed.

End Listing.
End ApiMore.

(** ** The server between events *)

Module PipelineMore.
Import Py scenario_analyzer api_server pipeline Spec MoreSpec Examples.
Import TextFacts ApiFacts PipelineFacts AnalyzerMore ApiMore.

Section WithRuntime.
Context {RT : PyRuntime}.

Lemma queued_record_fields (r : JobRecord.t) :
  consistent_record r -> JobRecord.status r = queued ->
  JobRecord.analysis r = None /\ JobRecord.error r = None.
Proof.
  destruct statuses_distinct as [Hqp [Hqc [Hqf _]]].
  intros [[_ [Ha [He _]]] | [[Hs _] | [Hs _]]] Hq; [auto | congruence | congruence].
Qed.

(** The store that the task of a job leaves when it finds the record. *)
Lemma perform_analysis_writes_last
  (store : Store) (k : str) (request : AnalysisRequest.t) (w : effects)
  (r : JobRecord.t) :
  dict_get store k = Some r ->
  List.last (fst (perform_analysis_writes store k request w)) store
  = dict_set (dict_set store k (set_status r processing)) k
      match run_engine w request with
      | Ok a => update_completed (set_status r processing) a (t_completed w)
      | Raise e => update_failed (set_status r processing) e (t_completed w)
      end.
Proof.
  intro Hget.
  unfold perform_analysis_writes, perform_analysis_try, run_engine.
  rewrite Hget. destruct (__init__ _ _ _) as [analyzer | e].
  - rewrite dict_get_set_eq. reflexivity.
  - cbn [List.last]. rewrite dict_get_set_eq. reflexivity.
Qed.

Lemma initial_server_invariant : server_invariant initial.
Proof.
  unfold server_invariant, initial. cbn.
  repeat split; try constructor; try tauto; discriminate.
Qed.

Lemma step_server_invariant (s s' : system) (e : event) (writes : list Store) :
  server_invariant s -> step s e = Some (s', writes) -> server_invariant s'.
Proof.
  intros [G1 [G2 [G3 [G4 G5]]]] Hstep.
  destruct e as [request uuid now | k w | k]; cbn [step] in Hstep.
  - (* a submission *)
    destruct (existsb (str_eqb uuid) (issued s)) eqn:Ex; [discriminate|].
    apply fresh_not_issued in Ex.
    cbv beta iota zeta delta [create_analysis] in Hstep. injection Hstep as <- _.
    assert (Hkeys : ~ In uuid (map fst (analysis_store s)))
      by (intro H; apply Ex, G2, H).
    assert (Htasks : ~ In uuid (map fst (background_tasks s)))
      by (intro H; apply Ex, G5, H).
    unfold server_invariant. cbn [analysis_store background_tasks issued].
    rewrite (@dict_set_fresh _ (analysis_store s) uuid _ Hkeys). rewrite !map_app. cbn [map fst].
    split; [now apply NoDup_snoc|].
    split.
    { intros k Hk. apply in_app_or in Hk. destruct Hk as [Hk | [<- | []]];
        [right; now apply G2 | now left]. }
    split.
    { intros k r. rewrite <- (@dict_set_fresh _ (analysis_store s) uuid _ Hkeys).
      destruct (str_eq_dec uuid k) as [<- | Hne].
      - rewrite dict_get_set_eq. intro H. injection H as <-.
        cbn [JobRecord.analysis_id JobRecord.status].
        split; [reflexivity|]. split; [|reflexivity].
        left. repeat split.
      - rewrite dict_get_set_ne by exact Hne. intro Hr.
        destruct (G3 k r Hr) as [Hid [Hc Hq]].
        split; [exact Hid|]. split; [exact Hc|].
        intro Hk. apply Hq. apply in_app_or in Hk.
        destruct Hk as [Hk | [Hk | []]]; [exact Hk | congruence]. }
    split; [now apply NoDup_snoc|].
    intros k Hk. apply in_app_or in Hk. destruct Hk as [Hk | [<- | []]];
      [right; now apply G5 | now left].
  - (* a run of a background task *)
    destruct (take_task k (background_tasks s)) as [[request rest]|] eqn:Et;
      [|discriminate].
    destruct (@take_task_spec RT k (background_tasks s) request rest Et)
      as [Hk [Hsub Hnd]].
    destruct (Hnd G4) as [Hnd' Hgone].
    destruct (perform_analysis_writes (analysis_store s) k request w)
      as [writes' res] eqn:Ep.
    injection Hstep as <- _.
    assert (Hw : writes' = fst (perform_analysis_writes (analysis_store s) k request w))
      by (now rewrite Ep).
    unfold server_invariant. cbn [analysis_store background_tasks issued].
    destruct (dict_get (analysis_store s) k) as [r|] eqn:Eg.
    + rewrite Hw, (@perform_analysis_writes_last (analysis_store s) k request w r Eg).
      set (r2 := match run_engine w request with
                 | Ok a => _
                 | Raise e => _
                 end).
      assert (Hin : In k (map fst (analysis_store s)))
        by (apply dict_get_keys; eauto).
      assert (Hkeys : map fst (dict_set (dict_set (analysis_store s) k
                                           (set_status r processing)) k r2)
                      = map fst (analysis_store s)).
      { rewrite !dict_set_keys; [reflexivity | exact Hin |].
        rewrite dict_set_keys; exact Hin. }
      rewrite Hkeys.
      split; [exact G1|]. split; [exact G2|].
      split; [|split; [exact Hnd' | intros x Hx; apply G5, Hsub, Hx]].
      intros k' r'. destruct (str_eq_dec k k') as [<- | Hne].
      * rewrite dict_get_set_eq. intro H. injection H as <-.
        destruct (G3 k r Eg) as [Hid [Hc Hq]].
        destruct (@queued_record_fields r Hc (Hq Hk)) as [Ha He].
        split; [|split; [|intro H; contradiction]].
        -- subst r2. destruct (run_engine w request); exact Hid.
        -- subst r2. destruct (run_engine w request) as [a | e].
           ++ right. left. cbn. repeat split; eauto.
           ++ right. right. cbn. repeat split; eauto.
      * rewrite !dict_get_set_ne by exact Hne. intro Hr.
        destruct (G3 k' r' Hr) as [Hid [Hc Hq]].
        split; [exact Hid|]. split; [exact Hc|].
        intro Hk'. apply Hq, Hsub, Hk'.
    + rewrite (@perform_analysis_writes_absent RT (analysis_store s) k request w Eg)
        in Hw. subst writes'. cbn [List.last].
      split; [exact G1|]. split; [exact G2|].
      split; [|split; [exact Hnd' | intros x Hx; apply G5, Hsub, Hx]].
      intros k' r' Hr. destruct (G3 k' r' Hr) as [Hid [Hc Hq]].
      split; [exact Hid|]. split; [exact Hc|].
      intro Hk'. apply Hq, Hsub, Hk'.
  - (* a delete *)
    unfold delete_analysis in Hstep.
    destruct (negb (dict_mem (analysis_store s) k)); injection Hstep as <- _.
    + unfold server_invariant. cbn [analysis_store background_tasks issued]. auto.
    + unfold server_invariant. cbn [analysis_store background_tasks issued].
      rewrite dict_del_keys.
      split; [now apply NoDup_filter|].
      split; [intros x Hx; apply filter_In in Hx; apply G2; tauto|].
      split; [|auto].
      intros k' r'. destruct (str_eq_dec k k') as [<- | Hne].
      * rewrite dict_get_del_eq. discriminate.
      * rewrite dict_get_del_ne by exact Hne. apply G3.
Qed.

Lemma run_server_invariant (events : list event) :
  forall (s s' : system) (history : list Store),
    server_invariant s -> run s events = Some (s', history) -> server_invariant s'.
Proof.
  induction events as [|e events IH]; intros s s' history Hinv; cbn [run].
  - intro H. injection H as <- _. exact Hinv.
  - destruct (step s e) as [[s1 writes]|] eqn:Es; [|discriminate].
    destruct (run s1 events) as [[s2 rest]|] eqn:Er; [|discriminate].
    intro H. injection H as <- _.
    exact (IH s1 s2 rest (@step_server_invariant s s1 e writes Hinv Es) Er).
Qed.

Lemma reachable_invariant (events : list event) (s : system) (history : list Store) :
  run initial events = Some (s, history) -> server_invariant s.
Proof.
  intro Hrun.
  exact (@run_server_invariant events initial s history
           initial_server_invariant Hrun).
Qed.

(** The values of a store whose keys are distinct are the records that
    lookups find. *)
Lemma value_is_found (store : Store) (r : JobRecord.t) :
  NoDup (map fst store) -> In r (dict_values store) ->
  exists k, dict_get store k = Some r.
Proof.
  intros Hnd Hin. unfold dict_values in Hin. apply in_map_iff in Hin.
  destruct Hin as [[k r'] [Heq Hin]]. simpl in Heq. subst r'.
  exists k. now apply (@dict_entry_get _ store k r).
Qed.

(** X16. Along every sequence of events, every record of the store is
    stored under its own identifier and its fields agree with its status:
    a queued job has no analysis, no error and no completion time; a
    completed one has an analysis and a completion time and no error; a
    failed one has an error and a completion time and no analysis. No
    record is left "processing". *)
Theorem reachable_records_consistent :
  forall (events : list event) (s : system) (history : list Store)
         (k : str) (r : JobRecord.t),
    run initial events = Some (s, history) ->
    dict_get (analysis_store s) k = Some r ->
    JobRecord.analysis_id r = k /\ consistent_record r.
Proof.
  intros events s history k r Hrun Hget.
  destruct (@reachable_invariant events s history Hrun) as [_ [_ [G3 _]]].
  destruct (G3 k r Hget) as [Hid [Hc _]]. auto.
Qed.

(** X18. Along every sequence of events [health_check] reports no active
    analysis: the task writes "processing" and the final status in one
    go, so no record is "processing" between two events. *)
Theorem health_check_idle :
  forall (events : list event) (s : system) (history : list Store) (now : str),
    run initial events = Some (s, history) ->
    HealthResponse.active_analyses (health_check (analysis_store s) now) = 0.
Proof.
  intros events s history now Hrun.
  destruct (@reachable_invariant events s history Hrun) as [G1 [_ [G3 _]]].
  unfold health_check. cbn [HealthResponse.active_analyses].
  destruct (filter _ (dict_values (analysis_store s))) as [|r l] eqn:E;
    [reflexivity|].
  exfalso.
  assert (Hin : In r (filter (fun a => str_eqb (JobRecord.status a) (txt "processing"))
                        (dict_values (analysis_store s))))
    by (rewrite E; now left).
  apply filter_In in Hin. destruct Hin as [Hin Hp]. apply str_eqb_eq in Hp.
  destruct (@value_is_found (analysis_store s) r G1 Hin) as [k Hk].
  destruct (G3 k r Hk) as [_ [Hc _]].
  destruct statuses_distinct as [Hqp [_ [_ [Hpc [Hpf _]]]]].
  fold processing in Hp.
  destruct Hc as [[Hs _] | [[Hs _] | [Hs _]]]; congruence.
Qed.

(** X19. Along every sequence of events [ListAnalyses] never lists a job
    twice, and [GetStatus] of each listed identifier returns the listed
    summary. *)
Theorem listed_jobs_are_readable :
  forall (events : list event) (s : system) (history : list Store)
         (limit : option Z) (status : option str),
    run initial events = Some (s, history) ->
    let listed := list_analyses (analysis_store s) limit status in
    NoDup (map AnalysisStatus.analysis_id listed)
    /\ Forall (fun a =>
                 get_analysis_status (analysis_store s) (AnalysisStatus.analysis_id a)
                 = Return a)
         listed.
Proof.
  intros events s history limit status Hrun listed. subst listed.
  destruct (@reachable_invariant events s history Hrun) as [G1 [_ [G3 _]]].
  rewrite list_analyses_eq.
  set (n := match limit with Some n => n | None => 10%Z end).
  destruct (slice_to_firstn n
              (sort_reverse JobRecord.created_at (matching (analysis_store s) status)))
    as [m Hm].
  rewrite Hm.
  assert (Hsub : forall r, In r (matching (analysis_store s) status) ->
                           In r (dict_values (analysis_store s))).
  { intros r. unfold matching. destruct status as [st|]; [|tauto].
    destruct (truthy st); [|tauto]. intro H. apply filter_In in H. tauto. }
  assert (Hown : forall r, In r (dict_values (analysis_store s)) ->
                           dict_get (analysis_store s) (JobRecord.analysis_id r)
                           = Some r).
  { intros r Hr. destruct (@value_is_found (analysis_store s) r G1 Hr) as [k Hk].
    destruct (G3 k r Hk) as [Hid _]. now rewrite Hid. }
  split.
  - rewrite map_map. cbn [summary status_of_record AnalysisStatus.analysis_id].
    assert (Hall : NoDup (map JobRecord.analysis_id (dict_values (analysis_store s)))).
    { assert (Heq : map JobRecord.analysis_id (dict_values (analysis_store s))
                    = map fst (analysis_store s)).
      { unfold dict_values. rewrite map_map. apply map_ext_in.
        intros [k r] Hkr. simpl.
        destruct (G3 k r (@dict_entry_get _ (analysis_store s) k r G1 Hkr))
          as [Hid _]. exact Hid. }
      rewrite Heq. exact G1. }
    assert (Hmatch : NoDup (map JobRecord.analysis_id (matching (analysis_store s) status))).
    { unfold matching. destruct status as [st|]; [|exact Hall].
      destruct (truthy st); [|exact Hall]. now apply NoDup_map_filter. }
    assert (Hsorted : NoDup (map JobRecord.analysis_id
                               (sort_reverse JobRecord.created_at
                                  (matching (analysis_store s) status)))).
    { eapply Permutation_NoDup; [|exact Hmatch].
      apply Permutation_map, Permutation_sym, sort_reverse_perm. }
    rewrite <- (firstn_skipn m (sort_reverse _ _)) in Hsorted.
    rewrite map_app in Hsorted. now apply NoDup_app_remove_r in Hsorted.
  - apply Forall_forall. intros a Ha. apply in_map_iff in Ha.
    destruct Ha as [r [<- Hr]].
    apply firstn_subset in Hr. apply -> sort_reverse_In in Hr.
    unfold get_analysis_status. cbn [summary status_of_record AnalysisStatus.analysis_id].
    now rewrite (Hown r (Hsub r Hr)).
Qed.

Lemma absent_stays (analysis_id : str) (s s' : system) (e : event)
  (writes : list Store) :
  In analysis_id (issued s) ->
  dict_get (analysis_store s) analysis_id = None ->
  step s e = Some (s', writes) ->
  In analysis_id (issued s')
  /\ dict_get (analysis_store s') analysis_id = None
  /\ Forall (fun st => dict_get st analysis_id = None) writes.
Proof.
  intros Hissued Habsent Hstep.
  destruct e as [request uuid now | k w | k]; cbn [step] in Hstep.
  - destruct (existsb (str_eqb uuid) (issued s)) eqn:Ex; [discriminate|].
    apply fresh_not_issued in Ex.
    cbv beta iota zeta delta [create_analysis] in Hstep. injection Hstep as <- <-.
    cbn [analysis_store issued].
    assert (Hne : uuid <> analysis_id) by congruence.
    rewrite dict_get_set_ne by exact Hne.
    split; [now right|]. split; [exact Habsent|].
    constructor; [|constructor]. now rewrite dict_get_set_ne.
  - destruct (take_task k (background_tasks s)) as [[request rest]|]; [|discriminate].
    destruct (perform_analysis_writes (analysis_store s) k request w)
      as [writes' res] eqn:Ep.
    injection Hstep as <- <-. cbn [analysis_store issued].
    assert (Hw : writes' = fst (perform_analysis_writes (analysis_store s) k request w))
      by (now rewrite Ep).
    split; [exact Hissued|].
    destruct (str_eq_dec k analysis_id) as [-> | Hne].
    + rewrite (@perform_analysis_writes_absent RT (analysis_store s) analysis_id
                 request w Habsent) in Hw. subst writes'.
      split; [exact Habsent | constructor].
    + pose proof (@perform_analysis_writes_other RT (analysis_store s) k request w
                    analysis_id Hne) as Hother.
      rewrite <- Hw in Hother. split.
      * rewrite (@last_unchanged RT analysis_id (analysis_store s) writes' Hother).
        exact Habsent.
      * eapply Forall_impl; [|exact Hother]. intros st Hst. congruence.
  - unfold delete_analysis in Hstep.
    destruct (negb (dict_mem (analysis_store s) k)); injection Hstep as <- <-;
      cbn [analysis_store issued].
    + split; [exact Hissued|]. split; [exact Habsent|]. repeat constructor.
      exact Habsent.
    + assert (Hgone : dict_get (dict_del (analysis_store s) k) analysis_id = None).
      { destruct (str_eq_dec k analysis_id) as [-> | Hne].
        - apply dict_get_del_eq.
        - now rewrite dict_get_del_ne. }
      split; [exact Hissued|]. split; [exact Hgone|]. repeat constructor.
      exact Hgone.
Qed.

Lemma absent_for_ever (analysis_id : str) (events : list event) :
  forall (s s' : system) (history : list Store),
    In analysis_id (issued s) ->
    dict_get (analysis_store s) analysis_id = None ->
    run s events = Some (s', history) ->
    dict_get (analysis_store s') analysis_id = None
    /\ Forall (fun st => dict_get st analysis_id = None) history.
Proof.
  induction events as [|e events IH]; intros s s' history Hi Ha; cbn [run].
  - intro H. injection H as <- <-. split; [exact Ha | constructor].
  - destruct (step s e) as [[s1 writes]|] eqn:Es; [|discriminate].
    destruct (run s1 events) as [[s2 rest]|] eqn:Er; [|discriminate].
    intro H. injection H as <- <-.
    destruct (@absent_stays analysis_id s s1 e writes Hi Ha Es) as [Hi1 [Ha1 Hw]].
    destruct (IH s1 s2 rest Hi1 Ha1 Er) as [Ha2 Hrest].
    split; [exact Ha2 | apply Forall_app; auto].
Qed.

(** X20. A delete is for ever. After the delete of a job that was
    submitted, [GetStatus] of it fails with 404 in every later state of
    the store, also when its background task runs after the delete: the
    task does not bring the record back. *)
Theorem delete_is_permanent :
  forall (s s' : system) (events : list event) (history : list Store)
         (analysis_id : str),
    In analysis_id (issued s) ->
    run s (Delete analysis_id :: events) = Some (s', history) ->
    Forall (fun st => get_analysis_status st analysis_id
                      = HTTPException 404 (txt "Analysis not found"))
      (history ++ [analysis_store s']).
Proof.
  intros s s' events history analysis_id Hissued Hrun.
  cbn [run step] in Hrun.
  destruct (delete_analysis (analysis_store s) analysis_id) as [store1 res] eqn:Ed.
  assert (Hgone : dict_get store1 analysis_id = None).
  { pose proof (f_equal fst Ed) as H. cbn [fst] in H. rewrite <- H.
    unfold delete_analysis, dict_mem.
    destruct (dict_get (analysis_store s) analysis_id) eqn:E; cbn [negb fst].
    - apply dict_get_del_eq.
    - exact E. }
  destruct (run _ events) as [[s2 rest]|] eqn:Er; [|discriminate].
  injection Hrun as <- <-.
  destruct (@absent_for_ever analysis_id events
              {| analysis_store := store1;
                 background_tasks := background_tasks s;
                 issued := issued s |} s2 rest Hissued Hgone Er)
    as [Hlast Hrest].
  assert (Hall : Forall (fun st => dict_get st analysis_id = None)
                   (([store1] ++ rest) ++ [analysis_store s2])).
  { apply Forall_app. split; [|repeat constructor; exact Hlast].
    apply Forall_app. split; [repeat constructor; exact Hgone | exact Hrest]. }
  eapply Forall_impl; [|exact Hall].
  intros st Hst. unfold get_analysis_status. now rewrite Hst.
Qed.

End WithRuntime.
End PipelineMore.

(** ** The data of the dashboard *)

Module WebFacts.
Import Py scenario_analyzer Spec MoreSpec Examples web_interface.
Import TextFacts AnalyzerFacts ApiFacts AnalyzerMore.

Lemma uint_chars_inj (u v : Decimal.uint) : uint_chars u = uint_chars v -> u = v.
Proof.
  revert v. induction u as [|u IH|u IH|u IH|u IH|u IH|u IH|u IH|u IH|u IH|u IH];
    intros [|v|v|v|v|v|v|v|v|v|v]; simpl; intro H;
    try reflexivity; try discriminate H;
    injection H as H; f_equal; now apply IH.
Qed.

Lemma str_of_nat_inj (n m : nat) : str_of_nat n = str_of_nat m -> n = m.
Proof.
  unfold str_of_nat. intro H. apply uint_chars_inj in H.
  now apply DecimalNat.Unsigned.to_uint_inj.
Qed.

Lemma NoDup_map_injective (A B : Type) (f : A -> B) (l : list A) :
  (forall x y, f x = f y -> x = y) -> NoDup l -> NoDup (map f l).
Proof.
  intros Hinj. induction 1 as [|x l Hx _ IH]; simpl; constructor; [|exact IH].
  intro Hin. apply in_map_iff in Hin. destruct Hin as [y [Hy Hin]].
  apply Hinj in Hy. now subst y.
Qed.

Lemma enumerate_from_fst (A : Type) (l : list A) :
  forall i, map fst (enumerate_from i l) = seq i (List.length l).
Proof.
  induction l as [|x l IH]; intro i; simpl; [reflexivity|].
  now rewrite IH.
Qed.

Lemma enumerate_from_snd (A : Type) (l : list A) :
  forall i, map snd (enumerate_from i l) = l.
Proof.
  induction l as [|x l IH]; intro i; simpl; [reflexivity|].
  now rewrite IH.
Qed.

Lemma Forall2_enumerate (A B : Type) (R : A -> B -> Prop) (f : nat * A -> B)
  (l : list A) :
  (forall i x, R x (f (i, x))) ->
  forall i, Forall2 R l (map f (enumerate_from i l)).
Proof.
  intro H. induction l as [|x l IH]; intro i; cbn [enumerate_from map];
    constructor; [apply H | apply IH].
Qed.

(** X21. The table of the probability chart has one row for each outcome,
    in order, with its impact level; the rows are labelled "Outcome 1",
    "Outcome 2", ... and no two rows have the same label; a description of
    at most 50 characters is shown as it is, and a longer one is cut to
    its first 50 characters followed by "...". *)
Theorem probability_chart_rows_shape :
  forall outs : list Outcome,
    let rows := probability_chart_rows outs in
    map ProbabilityRow.Impact rows = map impact_level outs
    /\ map ProbabilityRow.Outcome rows
       = map (fun i => txt "Outcome " ++ str_of_nat i) (seq 1 (List.length outs))
    /\ NoDup (map ProbabilityRow.Outcome rows)
    /\ Forall2
         (fun o row =>
            List.length (ProbabilityRow.Description row) <= 53
            /\ (List.length (description o) <= 50 ->
                ProbabilityRow.Description row = description o)
            /\ (50 < List.length (description o) ->
                ProbabilityRow.Description row
                = firstn 50 (description o) ++ txt "..."))
         outs rows.
Proof.
  intros outs rows. subst rows. unfold probability_chart_rows.
  assert (Hlabels :
    map ProbabilityRow.Outcome
      (map (fun item : nat * Outcome =>
              {| ProbabilityRow.Outcome := txt "Outcome " ++ str_of_nat (fst item + 1);
                 ProbabilityRow.Description :=
                   if 50 <? List.length (description (snd item))
                   then firstn 50 (description (snd item)) ++ txt "..."
                   else description (snd item);
                 ProbabilityRow.Probability := (probability (snd item) * 100)%float;
                 ProbabilityRow.Impact := impact_level (snd item);
                 ProbabilityRow.Confidence :=
                   (confidence_score (snd item) * 100)%float |})
         (enumerate_from 0 outs))
    = map (fun i => txt "Outcome " ++ str_of_nat i) (seq 1 (List.length outs))).
  { rewrite map_map. cbn [ProbabilityRow.Outcome].
    rewrite <- seq_shift, map_map, <- (enumerate_from_fst outs 0), map_map.
    apply map_ext. intros [i o]. cbn [fst]. now rewrite Nat.add_1_r. }
  split; [|split; [exact Hlabels | split]].
  - rewrite map_map. cbn [ProbabilityRow.Impact].
    rewrite <- (enumerate_from_snd outs 0) at 2. now rewrite map_map.
  - rewrite Hlabels. apply NoDup_map_injective; [|apply seq_NoDup].
    intros i j H. apply app_inv_head in H. now apply str_of_nat_inj.
  - apply Forall2_enumerate. intros i o.
    cbn [ProbabilityRow.Description fst snd].
    destruct (50 <? List.length (description o)) eqn:E.
    + apply Nat.ltb_lt in E. split; [|split; [lia | reflexivity]].
      rewrite length_app, length_firstn.
      change (List.length (txt "...")) with 3. lia.
    + apply Nat.ltb_ge in E. split; [lia | split; [reflexivity | lia]].
Qed.

Lemma impact_score_valid (level : str) :
  valid_level level ->
  exists score, impact_score level = Done score /\ (1 <= score <= 3)%Z.
Proof.
  intros [-> | [-> | ->]]; eexists; (split; [reflexivity | lia]).
Qed.

Lemma impact_score_invalid (level : str) :
  ~ valid_level level -> impact_score level = Raises (KeyError level).
Proof.
  intro H. unfold impact_score, valid_level in *.
  destruct (str_eqb level (txt "Low")) eqn:E1;
    [apply str_eqb_eq in E1; tauto|].
  destruct (str_eqb level (txt "Medium")) eqn:E2;
    [apply str_eqb_eq in E2; tauto|].
  destruct (str_eqb level (txt "High")) eqn:E3;
    [apply str_eqb_eq in E3; tauto|].
  reflexivity.
Qed.

Lemma scatter_rows_valid (outs : list Outcome) :
  Forall (fun o => valid_level (impact_level o)) outs ->
  forall i, exists rows,
    scatter_rows_from i outs = Done rows
    /\ List.length rows = List.length outs
    /\ Forall (fun row => (1 <= ScatterRow.Impact_Score row <= 3)%Z) rows.
Proof.
  induction 1 as [|o outs Ho _ IH]; intro i; cbn [scatter_rows_from].
  - exists []. repeat split. constructor.
  - destruct (impact_score_valid Ho) as [score [-> Hscore]].
    destruct (IH (S i)) as [rows [-> [Hlen Hall]]].
    eexists. split; [reflexivity|]. split; [simpl; now rewrite Hlen|].
    constructor; [exact Hscore | exact Hall].
Qed.

Lemma scatter_rows_invalid (pre : list Outcome) (o : Outcome) (post : list Outcome) :
  Forall (fun o => valid_level (impact_level o)) pre ->
  ~ valid_level (impact_level o) ->
  forall i, scatter_rows_from i (pre ++ o :: post) = Raises (KeyError (impact_level o)).
Proof.
  intros Hpre Ho. induction Hpre as [|p pre Hp _ IH]; intro i;
    cbn [app scatter_rows_from].
  - now rewrite (impact_score_invalid Ho).
  - destruct (impact_score_valid Hp) as [score [-> _]]. now rewrite IH.
Qed.

Section WithRuntime.
Context {RT : PyRuntime}.



End WithRuntime.
End WebFacts.

(** ** The further properties at the sample data *)

Module MoreSamples.
Import Py scenario_analyzer api_server pipeline web_interface.
Import Spec MoreSpec Examples MoreExamples.
Import TextFacts AnalyzerFacts ApiFacts PipelineFacts.
Import AnalyzerMore ApiMore PipelineMore WebFacts Samples.

Lemma extract_context_factors_shape_witness :
  context_entries (RT := plain_runtime) None = []
  /\ List.length
       (_extract_context_factors (RT := plain_runtime)
          (txt "Our team missed the deadline") None) <= 5
  /\ (In (txt "General situational context")
        (_extract_context_factors (RT := plain_runtime) (txt "Nothing special") None)
      /\ _extract_context_factors (RT := plain_runtime) (txt "Nothing special") None
         = [txt "General situational context"]).
Proof.
  split; [reflexivity|]. split.
  - exact (proj1 (proj2 (proj2
             (@extract_context_factors_shape plain_runtime
                (txt "Our team missed the deadline") None)) eq_refl)).
  - assert (Hin : In (txt "General situational context")
                    (_extract_context_factors (RT := plain_runtime)
                       (txt "Nothing special") None))
      by (vm_compute; now left).
    split; [exact Hin|].
    exact (proj1 (proj2
             (@extract_context_factors_shape plain_runtime
                (txt "Nothing special") None)) Hin).
Defined.

Lemma whole_word_gives_key_variable_witness :
  occurs_as_whole_word (RT := plain_runtime) (txt "market")
    (lower (RT := plain_runtime) (txt "The market is slow"))
  /\ In (txt "Market conditions")
       (_identify_key_variables (RT := plain_runtime) (txt "The market is slow") []).
Proof.
  assert (Hocc : occurs_as_whole_word (RT := plain_runtime) (txt "market")
                   (lower (RT := plain_runtime) (txt "The market is slow"))).
  { exists (txt "the "), (txt " is slow"). repeat split. }
  split; [exact Hocc|].
  exact (proj2 (proj1 (@whole_word_gives_key_variable plain_runtime
                         (txt "The market is slow") []) Hocc)).
Defined.

Lemma empty_payload_analysis_witness :
  client with_credentials = Some (OpenAI_client (txt "sk-test"))
  /\ recommendations
       (analyze (RT := plain_runtime) with_credentials (Ok [])
          (txt "2024-05-01T10:00:00") (txt "Should we expand to a new market?") None)
     = closing_recommendations.
Proof.
  split; [reflexivity|].
  exact (proj1 (proj2
           (@empty_payload_analysis plain_runtime with_credentials
              (OpenAI_client (txt "sk-test")) (txt "2024-05-01T10:00:00")
              (txt "Should we expand to a new market?") None eq_refl))).
Defined.

Lemma rule_based_recommendations_witness :
  rule_based_path no_credentials (Raise (txt "unused"))
  /\ exists risks opps : list str,
       recommendations
         (analyze (RT := plain_runtime) no_credentials (Raise (txt "unused"))
            (txt "2024-05-01T10:00:00") (txt "Should we expand to a new market?") None)
       = [txt "Prepare primarily for: Expected outcome - moderate success with some challenges"]
         ++ map (app (txt "Mitigate risk: ")) risks
         ++ map (app (txt "Leverage opportunity: ")) opps
         ++ closing_recommendations
       /\ List.length risks = 3 /\ NoDup risks /\ incl risks canonical_risks
       /\ List.length opps = 2 /\ NoDup opps /\ incl opps canonical_opportunities.
Proof.
  assert (Hpath : rule_based_path no_credentials (Raise (txt "unused")))
    by (left; reflexivity).
  split; [exact Hpath|].
  exact (@rule_based_recommendations plain_runtime no_credentials
           (Raise (txt "unused")) (txt "2024-05-01T10:00:00")
           (txt "Should we expand to a new market?") None Hpath).
Defined.

Lemma delete_then_read_witness :
  txt "job-2" <> txt "job-1"
  /\ get_analysis_status (fst (delete_analysis two_jobs (txt "job-1"))) (txt "job-2")
     = get_analysis_status two_jobs (txt "job-2").
Proof.
  assert (Hne : txt "job-2" <> txt "job-1")
    by (intro H; vm_compute in H; discriminate H).
  split; [exact Hne|].
  exact (proj1 (proj2 (proj2 (proj2
           (@delete_then_read plain_runtime two_jobs (txt "job-1"))))
           (txt "job-2") Hne)).
Defined.

Lemma delete_analysis_cases_witness :
  dict_get two_jobs (txt "job-9") = None
  /\ delete_analysis two_jobs (txt "job-9")
     = (two_jobs, HTTPException 404 (txt "Analysis not found"))
  /\ snd (delete_analysis two_jobs (txt "job-1"))
     = Return (txt "Analysis deleted successfully").
Proof.
  split; [reflexivity|]. split.
  - exact (proj1 (@delete_analysis_cases plain_runtime two_jobs (txt "job-9")) eq_refl).
  - exact (proj1 (proj2 (@delete_analysis_cases plain_runtime two_jobs (txt "job-1"))
                    (job (txt "job-1") queued (txt "2024-05-01T10:00:00") None None)
                    eq_refl)).
Defined.

Lemma create_then_read_witness :
  txt "job-1" <> txt "job-3"
  /\ dict_get
       (fst (fst (create_analysis two_jobs [] market_request (txt "job-3")
                    (txt "2024-05-01T12:00:00")))) (txt "job-1")
     = dict_get two_jobs (txt "job-1").
Proof.
  assert (Hne : txt "job-1" <> txt "job-3")
    by (intro H; vm_compute in H; discriminate H).
  split; [exact Hne|].
  exact (proj2 (proj2 (proj2 (proj2
           (@create_then_read plain_runtime two_jobs [] market_request (txt "job-3")
              (txt "2024-05-01T12:00:00"))))) (txt "job-1") Hne).
Defined.

Lemma market_task_leaves_record :
  match dict_get (fst (perform_analysis two_jobs (txt "job-1") market_request
                         provider_up)) (txt "job-1") with
  | Some _ => true
  | None => false
  end = true.
Proof. vm_compute. reflexivity. Qed.

Lemma perform_analysis_keeps_jobs_witness :
  exists r' r,
    dict_get (fst (perform_analysis two_jobs (txt "job-1") market_request provider_up))
      (txt "job-1") = Some r'
    /\ dict_get two_jobs (txt "job-1") = Some r
    /\ JobRecord.created_at r' = JobRecord.created_at r.
Proof.
  pose proof market_task_leaves_record as Hleft.
  destruct (dict_get (fst (perform_analysis two_jobs (txt "job-1") market_request
                             provider_up)) (txt "job-1")) as [r'|] eqn:Hget;
    [|discriminate Hleft].
  destruct (proj2 (@perform_analysis_keeps_jobs plain_runtime two_jobs (txt "job-1")
                     market_request provider_up) r' Hget)
    as [r [Hr [_ [Hc _]]]].
  exists r', r. auto.
Defined.

Lemma convert_analysis_to_response_injective_witness :
  convert_analysis_to_response market_analysis (txt "job-2")
  = convert_analysis_to_response market_analysis (txt "job-2")
  /\ market_analysis = market_analysis /\ txt "job-2" = txt "job-2".
Proof.
  split; [reflexivity|].
  exact (proj2 (@convert_analysis_to_response_injective market_analysis
                  market_analysis (txt "job-2") (txt "job-2")) eq_refl).
Defined.

Lemma keyless_job_completes_witness :
  dict_get two_jobs (txt "job-1")
  = Some (job (txt "job-1") queued (txt "2024-05-01T10:00:00") None None)
  /\ no_key (AnalysisRequest.api_key market_request)
  /\ exists (r' : JobRecord.t) (a : ScenarioAnalysis),
       snd (perform_analysis two_jobs (txt "job-1") market_request provider_down)
       = Ok tt
       /\ dict_get (fst (perform_analysis two_jobs (txt "job-1") market_request
                           provider_down)) (txt "job-1") = Some r'
       /\ JobRecord.status r' = completed
       /\ JobRecord.analysis r' = Some a.
Proof.
  assert (Hkey : no_key (AnalysisRequest.api_key market_request))
    by (left; reflexivity).
  split; [reflexivity|]. split; [exact Hkey|].
  destruct (@keyless_job_completes plain_runtime two_jobs (txt "job-1")
              market_request provider_down
              (job (txt "job-1") queued (txt "2024-05-01T10:00:00") None None)
              eq_refl Hkey) as [r' [a [H1 [H2 [H3 [H4 _]]]]]].
  exists r', a. auto.
Defined.

Lemma list_analyses_complete_witness :
  (Z.of_nat (List.length (matching two_jobs (Some queued))) <= 10)%Z
  /\ Permutation (list_analyses two_jobs None (Some queued))
       (map summary (matching two_jobs (Some queued))).
Proof.
  assert (Hn : (Z.of_nat (List.length (matching two_jobs (Some queued))) <= 10)%Z)
    by (vm_compute; discriminate).
  split; [exact Hn|].
  exact (proj1 (@list_analyses_complete plain_runtime two_jobs None (Some queued) Hn)).
Defined.

Lemma perform_analysis_without_record_witness :
  dict_get two_jobs (txt "job-9") = None
  /\ perform_analysis two_jobs (txt "job-9") market_request provider_up
     = (two_jobs, Raise (key_error (txt "job-9"))).
Proof.
  split; [reflexivity|].
  exact (@perform_analysis_without_record plain_runtime two_jobs (txt "job-9")
           market_request provider_up eq_refl).
Defined.

(** The facts about every sequence of events, at [busy_morning]. *)
Lemma reachable_records_consistent_witness :
  exists s history r,
    run initial busy_morning = Some (s, history)
    /\ dict_get (analysis_store s) (txt "job-1") = Some r
    /\ JobRecord.analysis_id r = txt "job-1"
    /\ consistent_record r.
Proof.
  pose proof busy_morning_runs as Hruns.
  destruct (run initial busy_morning) as [[s history]|] eqn:E;
    [|discriminate Hruns].
  destruct (dict_get (analysis_store s) (txt "job-1")) as [r|] eqn:Er.
  - exists s, history, r. split; [reflexivity|]. split; [exact Er|].
    exact (@reachable_records_consistent plain_runtime busy_morning s history
             (txt "job-1") r E Er).
  - exfalso.
    assert (H : match option_map
                        (fun x => dict_get (analysis_store (fst x)) (txt "job-1"))
                        (run initial busy_morning) with
                | Some (Some _) => true
                | _ => false
                end = true) by (vm_compute; reflexivity).
    rewrite E in H. cbn [option_map fst] in H. rewrite Er in H. discriminate H.
Defined.

Lemma health_check_idle_witness :
  exists s history,
    run initial busy_morning = Some (s, history)
    /\ HealthResponse.active_analyses
         (health_check (analysis_store s) (txt "2024-05-01T13:00:00")) = 0.
Proof.
  pose proof busy_morning_runs as Hruns.
  destruct (run initial busy_morning) as [[s history]|] eqn:E;
    [|discriminate Hruns].
  exists s, history. split; [reflexivity|].
  exact (@health_check_idle plain_runtime busy_morning s history
           (txt "2024-05-01T13:00:00") E).
Defined.

Lemma listed_jobs_are_readable_witness :
  exists s history,
    run initial busy_morning = Some (s, history)
    /\ NoDup (map AnalysisStatus.analysis_id (list_analyses (analysis_store s) None None)).
Proof.
  pose proof busy_morning_runs as Hruns.
  destruct (run initial busy_morning) as [[s history]|] eqn:E;
    [|discriminate Hruns].
  exists s, history. split; [reflexivity|].
  exact (proj1 (@listed_jobs_are_readable plain_runtime busy_morning s history
                  None None E)).
Defined.

Lemma late_task_runs :
  match run waiting (Delete (txt "job-1") :: late_task) with
  | Some _ => true
  | None => false
  end = true.
Proof. vm_compute. reflexivity. Qed.

Lemma delete_is_permanent_witness :
  In (txt "job-1") (issued waiting)
  /\ exists s' history,
       run waiting (Delete (txt "job-1") :: late_task) = Some (s', history)
       /\ Forall (fun st => get_analysis_status st (txt "job-1")
                            = HTTPException 404 (txt "Analysis not found"))
            (history ++ [analysis_store s']).
Proof.
  assert (Hin : In (txt "job-1") (issued waiting)) by (right; left; reflexivity).
  split; [exact Hin|].
  pose proof late_task_runs as Hruns.
  destruct (run waiting (Delete (txt "job-1") :: late_task)) as [[s' history]|] eqn:E;
    [|discriminate Hruns].
  exists s', history. split; [reflexivity|].
  exact (@delete_is_permanent plain_runtime waiting s' late_task history
           (txt "job-1") Hin E).
Defined.

Lemma probability_chart_rows_shape_witness :
  List.length (description certain_success) <= 50
  /\ Forall2
       (fun o row =>
          List.length (ProbabilityRow.Description row) <= 53
          /\ (List.length (description o) <= 50 ->
              ProbabilityRow.Description row = description o)
          /\ (50 < List.length (description o) ->
              ProbabilityRow.Description row
              = firstn 50 (description o) ++ txt "..."))
       [certain_success] (probability_chart_rows [certain_success]).
Proof.
  split; [vm_compute; lia|].
  exact (proj2 (proj2 (proj2 (probability_chart_rows_shape [certain_success])))).
Defined.



End MoreSamples.

(** ** The engine and the server on values of any type *)

Module DynamicFacts.
Import Py scenario_analyzer api_server json Spec.
Import dynamic_server dynamic_pipeline DynamicSpec.
Import TextFacts ApiFacts.

Section WithRuntime.
Context {RT : PyRuntime} {PV : PyValues} {PD : Pydantic}.

(** *** Values of the declared types *)

Lemma Outcome_of_json_of (o : Outcome) :
  dynamic_engine.Outcome_of (json_of o) = Some (dynamic_engine.object_of o).
Proof. reflexivity. Qed.

Lemma Outcomes_of_declared (l : list Outcome) :
  dynamic_engine.Outcomes_of (map json_of l)
  = Some (map dynamic_engine.object_of l).
Proof.
  induction l as [|o l IH]; [reflexivity|].
  cbn [map dynamic_engine.Outcomes_of].
  now rewrite Outcome_of_json_of, IH.
Qed.

Lemma generate_outcomes_declared
  (self : ScenarioAnalyzer) (reply : ai_reply) (situation : str)
  (context_factors : list str) :
  dynamic_engine._generate_outcomes self (reply_of reply) situation context_factors
  = map dynamic_engine.object_of
      (_generate_outcomes self reply situation context_factors).
Proof.
  unfold dynamic_engine._generate_outcomes, _generate_outcomes.
  destruct (client self); [|reflexivity].
  unfold dynamic_engine._ai_generate_outcomes, _ai_generate_outcomes.
  destruct reply as [payload | e]; [|reflexivity].
  cbn [reply_of iterate]. now rewrite Outcomes_of_declared.
Qed.

Lemma pooled_risks_declared (l : list Outcome) :
  forall all : list value,
    dynamic_engine.pooled dynamic_engine.risk_factors
      (map dynamic_engine.object_of l) all
    = Ok (all ++ map VStr (flat_map risk_factors l)).
Proof.
  induction l as [|o l IH]; intro all; cbn [map dynamic_engine.pooled flat_map].
  - now rewrite app_nil_r.
  - cbn [dynamic_engine.object_of dynamic_engine.risk_factors iterate].
    now rewrite IH, map_app, app_assoc.
Qed.

Lemma pooled_opportunities_declared (l : list Outcome) :
  forall all : list value,
    dynamic_engine.pooled dynamic_engine.opportunities
      (map dynamic_engine.object_of l) all
    = Ok (all ++ map VStr (flat_map opportunities l)).
Proof.
  induction l as [|o l IH]; intro all; cbn [map dynamic_engine.pooled flat_map].
  - now rewrite app_nil_r.
  - cbn [dynamic_engine.object_of dynamic_engine.opportunities iterate].
    now rewrite IH, map_app, app_assoc.
Qed.

Lemma any_lower_contains_str (kw : str) (l : list str) :
  dynamic_engine.any_lower_contains kw (map VStr l)
  = Ok (existsb (fun risk => contains kw (lower risk)) l).
Proof.
  induction l as [|s l IH]; [reflexivity|].
  cbn [map dynamic_engine.any_lower_contains existsb].
  destruct (contains kw (lower s)); [reflexivity | exact IH].
Qed.

Lemma high_prob_declared (l : list Outcome) :
  dynamic_engine.high_prob (map dynamic_engine.object_of l)
  = Ok (map dynamic_engine.object_of
          (filter (fun o => (0.3 <? probability o)%float) l)).
Proof.
  induction l as [|o l IH]; [reflexivity|].
  cbn [map dynamic_engine.high_prob filter].
  cbn [dynamic_engine.object_of dynamic_engine.probability
       dynamic_engine.above_03 bind].
  rewrite IH. cbn [bind].
  destruct (0.3 <? probability o)%float; reflexivity.
Qed.

Lemma list_set_str (l : list str) :
  dynamic_engine.list_set (map VStr l) = Ok (map VStr (set_iter l)).
Proof.
  unfold dynamic_engine.list_set.
  assert (H : find (fun v => negb (hashable v)) (map VStr l) = None).
  { induction l as [|s l IH]; [reflexivity | exact IH]. }
  now rewrite H, set_iter_values_str.
Qed.

Lemma fold_format_str (prefix : str) (l : list str) :
  forall recs : list str,
    fold_left (fun recs v => recs ++ [prefix ++ format_value v]) (map VStr l) recs
    = fold_left (fun recs s => recs ++ [prefix ++ s]) l recs.
Proof.
  induction l as [|s l IH]; intro recs; [reflexivity|].
  cbn [map fold_left]. now rewrite format_value_str, IH.
Qed.

Lemma identify_key_variables_declared (situation : str) (l : list Outcome) :
  dynamic_engine._identify_key_variables situation
    (map dynamic_engine.object_of l)
  = Ok (_identify_key_variables situation l).
Proof.
  unfold dynamic_engine._identify_key_variables, _identify_key_variables.
  rewrite pooled_risks_declared, pooled_flat_map.
  cbn [app bind]. rewrite !any_lower_contains_str. reflexivity.
Qed.

Lemma generate_recommendations_declared (situation : str) (l : list Outcome) :
  dynamic_engine._generate_recommendations situation
    (map dynamic_engine.object_of l)
  = Ok (_generate_recommendations situation l).
Proof.
  unfold dynamic_engine._generate_recommendations, _generate_recommendations.
  rewrite high_prob_declared, pooled_risks_declared,
    pooled_opportunities_declared, !pooled_flat_map.
  cbn [app bind]. rewrite !list_set_str. cbn [bind].
  rewrite !firstn_map, !fold_format_str.
  destruct (filter (fun o => (0.3 <? probability o)%float) l) as [|o high];
    cbn [map]; [reflexivity|].
  cbn [dynamic_engine.object_of dynamic_engine.description].
  now rewrite format_value_str.
Qed.

(** On a reply whose values have the declared types the engine does not
    raise, and its analysis is the one of [scenario_analyzer.analyze]. *)
Lemma analyze_declared
  (self : ScenarioAnalyzer) (reply : ai_reply) (now situation : str)
  (context : option (list (str * py_object))) :
  dynamic_engine.analyze self (reply_of reply) now situation context
  = Ok (analysis_object (analyze self reply now situation context)).
Proof.
  unfold dynamic_engine.analyze, analyze.
  rewrite generate_outcomes_declared, identify_key_variables_declared,
    generate_recommendations_declared.
  reflexivity.
Qed.

(** X25. On a reply whose values have the declared types, and when the
    rule-based strategy supplies the outcomes, [analyze] does not raise,
    and the analysis it returns is the one computed on the typed values:
    the exceptions of [analyze] come from values of other types only. *)
Theorem analyze_on_declared_types :
  forall (self : ScenarioAnalyzer) (reply : ai_reply) (now situation : str)
         (context : option (list (str * py_object))),
    dynamic_engine.analyze self (reply_of reply) now situation context
    = Ok (analysis_object (analyze self reply now situation context))
    /\ (client self = None ->
        forall any_reply : dynamic_engine.ai_reply,
          dynamic_engine.analyze self any_reply now situation context
          = Ok (analysis_object (analyze self reply now situation context))).
Proof.
  intros self reply now situation context.
  split; [apply analyze_declared|].
  intros Hclient any_reply.
  rewrite <- (analyze_declared self reply now situation context).
  unfold dynamic_engine.analyze, dynamic_engine._generate_outcomes.
  rewrite Hclient. reflexivity.
Qed.

(** *** Values of other types *)

Lemma pooled_raises (field : dynamic_engine.Outcome -> value)
  (outcomes : list dynamic_engine.Outcome) :
  (exists o, In o outcomes /\ iterate (field o) = None) ->
  forall all : list value,
    exists e, dynamic_engine.pooled field outcomes all = Raise e.
Proof.
  induction outcomes as [|o outcomes IH]; intros [o' [Hin Hnone]] all.
  - destruct Hin.
  - cbn [dynamic_engine.pooled].
    destruct (iterate (field o)) as [items|] eqn:E.
    + destruct Hin as [<- | Hin]; [congruence|].
      apply IH. now exists o'.
    + eexists. reflexivity.
Qed.

Lemma high_prob_raises (outcomes : list dynamic_engine.Outcome) :
  (exists o, In o outcomes
             /\ ordered_with_float (dynamic_engine.probability o) = false) ->
  exists e, dynamic_engine.high_prob outcomes = Raise e.
Proof.
  induction outcomes as [|o outcomes IH]; intros [o' [Hin Hbad]].
  - destruct Hin.
  - cbn [dynamic_engine.high_prob].
    destruct (dynamic_engine.above_03 (dynamic_engine.probability o))
      as [keep | e] eqn:E; cbn [bind]; [|now exists e].
    destruct Hin as [<- | Hin].
    + destruct (dynamic_engine.probability o); cbn in Hbad, E; discriminate.
    + destruct (IH (ex_intro _ o' (conj Hin Hbad))) as [e He].
      rewrite He. now exists e.
Qed.

(** X26. [analyze] raises on every accepted reply that has an outcome it
    cannot work with: one whose [risk_factors] or [opportunities] are not
    iterable ([null], a number) or whose [probability] is not a number (a
    string, [null], a list, an object).  The constructor of [Outcome]
    accepts these values, and the exception is raised after the [try] of
    [_ai_generate_outcomes], so there is no rule-based analysis
    instead. *)
Theorem analyze_raises_on_other_types :
  forall (self : ScenarioAnalyzer) (c : OpenAI) (payload : value)
         (items : list value) (outs : list dynamic_engine.Outcome)
         (now situation : str) (context : option (list (str * py_object))),
    client self = Some c ->
    iterate payload = Some items ->
    dynamic_engine.Outcomes_of items = Some outs ->
    (exists o, In o outs /\ unworkable o) ->
    exists e,
      dynamic_engine.analyze self (Ok payload) now situation context = Raise e.
Proof.
  intros self c payload items outs now situation context Hclient Hiter Hobjs
         [o [Hin Hbad]].
  unfold dynamic_engine.analyze, dynamic_engine._generate_outcomes,
    dynamic_engine._ai_generate_outcomes.
  rewrite Hclient, Hiter, Hobjs.
  destruct (dynamic_engine._identify_key_variables situation outs)
    as [variables | e] eqn:Ekv; cbn [bind]; [|now exists e].
  assert (Hrecs : exists e,
             dynamic_engine._generate_recommendations situation outs = Raise e).
  { unfold dynamic_engine._generate_recommendations.
    destruct (dynamic_engine.high_prob outs) as [high | e] eqn:Ehigh;
      cbn [bind]; [|now exists e].
    destruct (dynamic_engine.pooled dynamic_engine.risk_factors outs [])
      as [all_risks | e] eqn:Erisks; cbn [bind]; [|now exists e].
    destruct (dynamic_engine.list_set all_risks) as [risks | e];
      cbn [bind]; [|now exists e].
    destruct (dynamic_engine.pooled dynamic_engine.opportunities outs [])
      as [all_opps | e] eqn:Eopps; cbn [bind]; [|now exists e].
    exfalso. destruct Hbad as [Hbad | [Hbad | Hbad]].
    - destruct (@pooled_raises dynamic_engine.risk_factors outs
                  (ex_intro _ o (conj Hin Hbad)) []) as [e He].
      congruence.
    - destruct (@high_prob_raises outs (ex_intro _ o (conj Hin Hbad))) as [e He].
      congruence.
    - destruct (@pooled_raises dynamic_engine.opportunities outs
                  (ex_intro _ o (conj Hin Hbad)) []) as [e He].
      congruence. }
  destruct Hrecs as [e He]. rewrite He. now exists e.
Qed.

(** *** The background task *)

Lemma perform_analysis_found
  (store : Store) (analysis_id : str) (request : AnalysisRequest.t)
  (w : effects) (record : JobRecord.t) :
  dict_get store analysis_id = Some record ->
  perform_analysis store analysis_id request w
  = (dict_set
       (dict_set store analysis_id (set_status record (txt "processing")))
       analysis_id (record_after record request w),
     Ok tt).
Proof.
  intro Hget.
  unfold perform_analysis, perform_analysis_writes, perform_analysis_try,
    record_after, run_engine.
  rewrite Hget.
  destruct (__init__ _ _ _) as [analyzer | e]; cbn [bind].
  - destruct (dynamic_engine.analyze _ _ _ _ _) as [analysis | e].
    + rewrite dict_get_set_eq. reflexivity.
    + cbn [last]. rewrite dict_get_set_eq. reflexivity.
  - cbn [last]. rewrite dict_get_set_eq. reflexivity.
Qed.

Lemma perform_analysis_not_found
  (store : Store) (analysis_id : str) (request : AnalysisRequest.t) (w : effects) :
  dict_get store analysis_id = None ->
  perform_analysis store analysis_id request w
  = (store, Raise (key_error analysis_id)).
Proof.
  intro Hget.
  unfold perform_analysis, perform_analysis_writes, perform_analysis_try.
  rewrite Hget. cbn [last]. rewrite Hget. reflexivity.
Qed.

(** C4. When the background task runs for a job whose record is in the
    store (the engine runs only then), it ends without raising, and it
    leaves the record of the job, and no other, changed.  If the engine
    raised, be it the constructor of the client or [analyze] on an
    accepted reply whose values it cannot work with, the status is
    "failed", [error] is the text of the exception and [completed_at] is
    set; if the engine returned, the status is "completed", the analysis
    is stored and [completed_at] is set. *)
Theorem background_task_outcome :
  forall (store : Store) (analysis_id : str) (request : AnalysisRequest.t)
         (w : effects) (record : JobRecord.t),
    dict_get store analysis_id = Some record ->
    exists record' : JobRecord.t,
      snd (perform_analysis store analysis_id request w) = Ok tt
      /\ dict_get (fst (perform_analysis store analysis_id request w)) analysis_id
         = Some record'
      /\ (forall k, k <> analysis_id ->
            dict_get (fst (perform_analysis store analysis_id request w)) k
            = dict_get store k)
      /\ JobRecord.completed_at record' = Some (t_completed w)
      /\ match run_engine w request with
         | Raise e =>
             JobRecord.status record' = failed
             /\ JobRecord.error record' = Some e
             /\ JobRecord.analysis record' = JobRecord.analysis record
         | Ok analysis =>
             JobRecord.status record' = completed
             /\ JobRecord.analysis record' = Some analysis
             /\ JobRecord.error record' = JobRecord.error record
         end.
Proof.
  intros store analysis_id request w record Hget.
  rewrite (@perform_analysis_found store analysis_id request w record Hget). cbn [fst snd].
  exists (record_after record request w).
  split; [reflexivity|].
  split; [apply dict_get_set_eq|].
  split.
  { intros k Hk. rewrite !dict_get_set_ne by congruence. reflexivity. }
  unfold record_after.
  destruct (run_engine w request) as [analysis | e]; repeat split.
Qed.

(** *** The two ways to ask for an analysis *)

Lemma convert_analysis_fields
  (a : dynamic_engine.ScenarioAnalysis) (analysis_id : str) (r : AnalysisResponse.t) :
  convert_analysis_to_response a analysis_id = Ok r ->
  forall analysis_id' : str,
    exists r',
      convert_analysis_to_response a analysis_id' = Ok r'
      /\ analysis_of_response r' = analysis_of_response r
      /\ AnalysisResponse.status r' = AnalysisResponse.status r
      /\ AnalysisResponse.analysis_id r' = analysis_id'
      /\ AnalysisResponse.analysis_id r = analysis_id.
Proof.
  unfold convert_analysis_to_response.
  destruct (convert_outcomes (dynamic_engine.outcomes a)) as [outs | e];
    cbn [bind]; [|discriminate].
  intros H analysis_id'. injection H as <-.
  eexists. split; [reflexivity|]. repeat split.
Qed.

Lemma convert_analysis_raises
  (a : dynamic_engine.ScenarioAnalysis) (analysis_id : str) (e : str) :
  convert_analysis_to_response a analysis_id = Raise e ->
  forall analysis_id' : str, convert_analysis_to_response a analysis_id' = Raise e.
Proof.
  unfold convert_analysis_to_response.
  destruct (convert_outcomes (dynamic_engine.outcomes a)) as [outs | e'];
    cbn [bind]; [discriminate|].
  intros H analysis_id'. exact H.
Qed.

Lemma analyze_sync_eq (request : AnalysisRequest.t) (w : effects) (uuid : str) :
  analyze_sync request w uuid
  = match run_engine w request with
    | Ok a =>
        match convert_analysis_to_response a uuid with
        | Ok r => Return r
        | Raise e => HTTPException 500 (txt "Analysis failed: " ++ e)
        end
    | Raise e => HTTPException 500 (txt "Analysis failed: " ++ e)
    end.
Proof.
  unfold analyze_sync, run_engine.
  destruct (__init__ _ _ _) as [analyzer | e]; cbn [bind]; [|reflexivity].
  destruct (dynamic_engine.analyze _ _ _ _ _) as [a | e]; reflexivity.
Qed.

(** X12. The synchronous route and the background task, for the same
    request and the same readings of the outside.  When [analyze_sync]
    returns a response, the job that the request starts ends "completed"
    and [get_analysis_result] returns the same response but for the
    identifier.  When [analyze_sync] fails, it fails with 500 and
    "Analysis failed: " followed by the text of an exception, and either
    the engine raised it, the job is "failed" with that text as error and
    [get_analysis_result] fails with 400; or the engine returned and the
    conversion to the response raised it: then the job is "completed"
    all the same, and [get_analysis_result] raises that exception at
    every read. *)
Theorem sync_and_background_agree :
  forall (store : Store) (tasks : list (str * AnalysisRequest.t))
         (request : AnalysisRequest.t) (uuid uuid' now : str) (w : effects),
    let store1 := fst (fst (create_analysis store tasks request uuid now)) in
    let store2 := fst (perform_analysis store1 uuid request w) in
    match analyze_sync request w uuid' with
    | Return r =>
        exists r',
          get_analysis_result store2 uuid = Ok (Return r')
          /\ analysis_of_response r' = analysis_of_response r
          /\ AnalysisResponse.status r' = AnalysisResponse.status r
          /\ AnalysisResponse.analysis_id r' = uuid
          /\ AnalysisResponse.analysis_id r = uuid'
    | HTTPException code detail =>
        exists e,
          code = 500%Z
          /\ detail = txt "Analysis failed: " ++ e
          /\ ((run_engine w request = Raise e
               /\ get_analysis_status store2 uuid =
                    Return {| AnalysisStatus.analysis_id := uuid;
                              AnalysisStatus.status := failed;
                              AnalysisStatus.created_at := now;
                              AnalysisStatus.completed_at := Some (t_completed w);
                              AnalysisStatus.error := Some e |}
               /\ get_analysis_result store2 uuid
                  = Ok (HTTPException 400
                          (txt "Analysis not completed. Status: failed")))
              \/ ((exists a, run_engine w request = Ok a)
                  /\ get_analysis_status store2 uuid =
                       Return {| AnalysisStatus.analysis_id := uuid;
                                 AnalysisStatus.status := completed;
                                 AnalysisStatus.created_at := now;
                                 AnalysisStatus.completed_at := Some (t_completed w);
                                 AnalysisStatus.error := None |}
                  /\ get_analysis_result store2 uuid = Raise e))
    end.
Proof.
  intros store tasks request uuid uuid' now w store1 store2.
  subst store2 store1. unfold create_analysis. cbn [fst].
  rewrite (@perform_analysis_found _ uuid request w _ (@dict_get_set_eq _ store uuid _)).
  cbn [fst].
  unfold get_analysis_result, get_analysis_status.
  rewrite !dict_get_set_eq.
  rewrite analyze_sync_eq. unfold record_after.
  destruct (run_engine w request) as [a | e]; cbn [bind].
  - cbn [update_completed set_status JobRecord.status JobRecord.analysis
         JobRecord.created_at JobRecord.completed_at JobRecord.error].
    replace (str_eqb (txt "completed") (txt "completed")) with true
      by (symmetry; apply str_eqb_refl).
    cbn [negb].
    destruct (convert_analysis_to_response a uuid') as [r | e] eqn:E.
    + destruct (@convert_analysis_fields a uuid' r E uuid) as [r' [E' H]].
      rewrite E'. cbn [bind]. exists r'. split; [reflexivity | exact H].
    + rewrite (@convert_analysis_raises a uuid' e E uuid). cbn [bind].
      exists e. split; [reflexivity|]. split; [reflexivity|].
      right. split; [now exists a|]. split; reflexivity.
  - cbn [update_failed set_status JobRecord.status JobRecord.analysis
         JobRecord.created_at JobRecord.completed_at JobRecord.error].
    replace (str_eqb (txt "failed") (txt "completed")) with false
      by (symmetry; apply str_eqb_neq; intro H; vm_compute in H; discriminate H).
    cbn [negb].
    exists e. split; [reflexivity|]. split; [reflexivity|].
    left. split; [reflexivity|]. split; reflexivity.
Qed.

(** *** The store between two events *)

Lemma create_analysis_settled
  (store : Store) (tasks : list (str * AnalysisRequest.t))
  (request : AnalysisRequest.t) (uuid now : str) :
  all_settled store ->
  all_settled (fst (fst (create_analysis store tasks request uuid now))).
Proof.
  intros H k r. unfold create_analysis. cbn [fst].
  destruct (str_eq_dec uuid k) as [<- | Hne].
  - rewrite dict_get_set_eq. intro E. injection E as <-.
    split; [now left|].
    cbn [JobRecord.status]. intro E. vm_compute in E. discriminate E.
  - rewrite dict_get_set_ne by exact Hne. apply H.
Qed.

Lemma perform_analysis_settled
  (store : Store) (analysis_id : str) (request : AnalysisRequest.t) (w : effects) :
  all_settled store ->
  all_settled (fst (perform_analysis store analysis_id request w)).
Proof.
  intros H k r.
  destruct (dict_get store analysis_id) as [record|] eqn:Hget.
  - rewrite (@perform_analysis_found store analysis_id request w record Hget). cbn [fst].
    destruct (str_eq_dec analysis_id k) as [<- | Hne].
    + rewrite dict_get_set_eq. intro E. injection E as <-.
      unfold record_after.
      destruct (run_engine w request) as [a | e]; split.
      * right. left. reflexivity.
      * intros _. now exists a.
      * right. right. reflexivity.
      * cbn [update_failed JobRecord.status]. intro E.
        vm_compute in E. discriminate E.
    + rewrite !dict_get_set_ne by exact Hne. apply H.
  - rewrite (@perform_analysis_not_found store analysis_id request w Hget). cbn [fst]. apply H.
Qed.

Lemma delete_analysis_settled (store : Store) (analysis_id : str) :
  all_settled store ->
  all_settled (fst (delete_analysis store analysis_id)).
Proof.
  intros H k r. unfold delete_analysis.
  destruct (negb (dict_mem store analysis_id)); cbn [fst]; [apply H|].
  destruct (str_eq_dec analysis_id k) as [<- | Hne].
  - now rewrite dict_get_del_eq.
  - rewrite dict_get_del_ne by exact Hne. apply H.
Qed.

Lemma step_settled (s s' : system) (e : event) :
  all_settled (analysis_store s) ->
  step s e = Some s' ->
  all_settled (analysis_store s').
Proof.
  intros H Hstep. destruct e as [request uuid now | analysis_id w | analysis_id];
    cbn [step] in Hstep.
  - destruct (existsb (str_eqb uuid) (issued s)); [discriminate Hstep|].
    pose proof (@create_analysis_settled (analysis_store s) (background_tasks s)
                  request uuid now H) as H'.
    destruct (create_analysis (analysis_store s) (background_tasks s) request uuid now)
      as [[store tasks] st].
    injection Hstep as <-. exact H'.
  - destruct (pipeline.take_task analysis_id (background_tasks s))
      as [[request tasks]|]; [|discriminate Hstep].
    pose proof (@perform_analysis_settled (analysis_store s) analysis_id request w H)
      as H'.
    destruct (perform_analysis (analysis_store s) analysis_id request w)
      as [store r].
    injection Hstep as <-. exact H'.
  - pose proof (@delete_analysis_settled (analysis_store s) analysis_id H) as H'.
    destruct (delete_analysis (analysis_store s) analysis_id) as [store r].
    injection Hstep as <-. exact H'.
Qed.

Lemma run_settled (events : list event) :
  forall s s' : system,
    all_settled (analysis_store s) ->
    run s events = Some s' ->
    all_settled (analysis_store s').
Proof.
  induction events as [|e events IH]; intros s s' H Hrun; cbn [run] in Hrun.
  - injection Hrun as <-. exact H.
  - destruct (step s e) as [s1|] eqn:E; [|discriminate Hrun].
    exact (IH s1 s' (@step_settled s s1 e H E) Hrun).
Qed.

(** X17. After every sequence of requests and task runs from the empty
    store, whatever the provider replied, [get_analysis_result] never
    answers 500 "Analysis data not available": it returns the response,
    or fails with 404, or fails with 400 for a job that is queued or
    failed, or, for a completed job whose analysis the response model does
    not accept, the validation error of the conversion leaves it. *)
Theorem result_read_after_any_run :
  forall (events : list event) (s : system) (analysis_id : str),
    run initial events = Some s ->
    (exists resp,
        get_analysis_result (analysis_store s) analysis_id = Ok (Return resp))
    \/ get_analysis_result (analysis_store s) analysis_id
       = Ok (HTTPException 404 (txt "Analysis not found"))
    \/ get_analysis_result (analysis_store s) analysis_id
       = Ok (HTTPException 400 (txt "Analysis not completed. Status: queued"))
    \/ get_analysis_result (analysis_store s) analysis_id
       = Ok (HTTPException 400 (txt "Analysis not completed. Status: failed"))
    \/ (exists record a e,
          dict_get (analysis_store s) analysis_id = Some record
          /\ JobRecord.status record = completed
          /\ JobRecord.analysis record = Some a
          /\ convert_analysis_to_response a analysis_id = Raise e
          /\ get_analysis_result (analysis_store s) analysis_id = Raise e).
Proof.
  intros events s analysis_id Hrun.
  assert (H0 : all_settled (analysis_store initial)) by (intros k r E; discriminate E).
  pose proof (@run_settled events initial s H0 Hrun) as H.
  unfold get_analysis_result.
  destruct (dict_get (analysis_store s) analysis_id) as [record|] eqn:Hget;
    [|right; left; reflexivity].
  destruct (H analysis_id record Hget) as [[Hs | [Hs | Hs]] Ha].
  - right. right. left. rewrite Hs. reflexivity.
  - destruct (Ha Hs) as [a Hsome]. rewrite Hs, Hsome.
    replace (str_eqb completed (txt "completed")) with true
      by (symmetry; apply str_eqb_refl).
    cbn [negb].
    destruct (convert_analysis_to_response a analysis_id) as [r | e] eqn:E;
      cbn [bind].
    + left. now exists r.
    + right. right. right. right. exists record, a, e. auto.
  - right. right. right. left. rewrite Hs. reflexivity.
Qed.

End WithRuntime.

End DynamicFacts.

(** ** Values of other types at the sample data *)

Module DynamicSamples.
Import Py scenario_analyzer api_server json Spec Examples.
Import dynamic_server dynamic_pipeline DynamicSpec DynamicExamples.
Import TextFacts ApiFacts DynamicFacts.

(** The engine accepts the reply with the string probability and raises
    from [_generate_recommendations]. *)
Lemma string_probability_raises :
  run_engine (provider_says string_probability) keyed_request
  = Raise (txt "'>' not supported between instances of 'str' and 'float'").
Proof. vm_compute. reflexivity. Qed.

Lemma library_missing_raises :
  run_engine library_missing keyed_request
  = Raise (txt "The api_key client option must be set").
Proof. vm_compute. reflexivity. Qed.

Lemma well_typed_returns :
  match run_engine (provider_says well_typed) keyed_request with
  | Ok a => dynamic_engine.outcomes a = [dynamic_engine.object_of certain_success]
  | Raise _ => False
  end.
Proof. vm_compute. reflexivity. Qed.

(** The task of a job whose reply has a string as probability, of one
    whose client cannot be built, and of one whose reply has the declared
    types. *)
Lemma background_task_outcome_witness :
  dict_get one_job (txt "job-1") <> None
  /\ (exists record',
        dict_get (fst (perform_analysis one_job (txt "job-1") keyed_request
                         (provider_says string_probability))) (txt "job-1")
        = Some record'
        /\ snd (perform_analysis one_job (txt "job-1") keyed_request
                  (provider_says string_probability)) = Ok tt
        /\ JobRecord.status record' = failed
        /\ JobRecord.error record'
           = Some (txt "'>' not supported between instances of 'str' and 'float'")
        /\ JobRecord.completed_at record' = Some (txt "2024-05-01T11:00:01"))
  /\ (exists record',
        dict_get (fst (perform_analysis one_job (txt "job-1") keyed_request
                         library_missing)) (txt "job-1")
        = Some record'
        /\ JobRecord.status record' = failed
        /\ JobRecord.error record'
           = Some (txt "The api_key client option must be set"))
  /\ (exists record' a,
        dict_get (fst (perform_analysis one_job (txt "job-1") keyed_request
                         (provider_says well_typed))) (txt "job-1")
        = Some record'
        /\ JobRecord.status record' = completed
        /\ JobRecord.analysis record' = Some a
        /\ JobRecord.completed_at record' = Some (txt "2024-05-01T11:00:01")).
Proof.
  split; [discriminate|]. split; [|split].
  - destruct (@background_task_outcome plain_runtime plain_values
                one_job (txt "job-1") keyed_request
                (provider_says string_probability) _ eq_refl)
      as [record' [H1 [H2 [_ [H4 H5]]]]].
    rewrite string_probability_raises in H5. destruct H5 as [H5 [H6 _]].
    exists record'. auto.
  - destruct (@background_task_outcome plain_runtime plain_values
                one_job (txt "job-1") keyed_request library_missing _ eq_refl)
      as [record' [_ [H2 [_ [_ H5]]]]].
    rewrite library_missing_raises in H5. destruct H5 as [H5 [H6 _]].
    exists record'. auto.
  - destruct (@background_task_outcome plain_runtime plain_values
                one_job (txt "job-1") keyed_request (provider_says well_typed)
                _ eq_refl)
      as [record' [_ [H2 [_ [H4 H5]]]]].
    pose proof well_typed_returns as Hret.
    destruct (run_engine (provider_says well_typed) keyed_request) as [a | e];
      [|contradiction].
    destruct H5 as [H5 [H6 _]].
    exists record', a. auto.
Defined.

Lemma null_timeline_sync :
  analyze_sync keyed_request (provider_says null_timeline) (txt "sync-1")
  = HTTPException 500
      (txt "Analysis failed: 1 validation error for OutcomeResponse").
Proof. vm_compute. reflexivity. Qed.

Lemma null_timeline_returns :
  match run_engine (provider_says null_timeline) keyed_request with
  | Ok _ => true
  | Raise _ => false
  end = true.
Proof. vm_compute. reflexivity. Qed.

(** The reply with the [null] timeline: the synchronous route fails with
    500, the job of the same request is completed, and reading its result
    raises. *)
Lemma sync_and_background_agree_witness :
  analyze_sync keyed_request (provider_says null_timeline) (txt "sync-1")
  = HTTPException 500
      (txt "Analysis failed: 1 validation error for OutcomeResponse")
  /\ get_analysis_result
       (fst (perform_analysis
               (fst (fst (create_analysis [] [] keyed_request (txt "job-1")
                            (txt "2024-05-01T10:00:00"))))
               (txt "job-1") keyed_request (provider_says null_timeline)))
       (txt "job-1")
     = Raise (txt "1 validation error for OutcomeResponse").
Proof.
  split; [exact null_timeline_sync|].
  pose proof (@sync_and_background_agree plain_runtime plain_values declared_types
                [] [] keyed_request (txt "job-1") (txt "sync-1")
                (txt "2024-05-01T10:00:00") (provider_says null_timeline)) as H.
  cbv zeta in H. rewrite null_timeline_sync in H.
  destruct H as [e [_ [He [[Hraise _] | [_ [_ Hres]]]]]].
  - pose proof null_timeline_returns as Hret.
    rewrite Hraise in Hret. discriminate Hret.
  - change (txt "Analysis failed: " ++ txt "1 validation error for OutcomeResponse"
            = txt "Analysis failed: " ++ e) in He.
    apply app_inv_head in He. subst e. exact Hres.
Defined.

Lemma null_timeline_morning_runs :
  match run initial null_timeline_morning with
  | Some s =>
      match get_analysis_result (analysis_store s) (txt "job-1"),
            get_analysis_result (analysis_store s) (txt "job-2") with
      | Raise _, Ok (HTTPException 400 _) => true
      | _, _ => false
      end
  | None => false
  end = true.
Proof. vm_compute. reflexivity. Qed.

(** After the morning with the two replies of other types: the events can
    happen, and the read of the first job is none of the answers of the
    route, the validation error leaves it. *)
Lemma result_read_after_any_run_witness :
  exists s,
    run initial null_timeline_morning = Some s
    /\ (exists e, get_analysis_result (analysis_store s) (txt "job-1") = Raise e)
    /\ ((exists resp,
            get_analysis_result (analysis_store s) (txt "job-1") = Ok (Return resp))
        \/ get_analysis_result (analysis_store s) (txt "job-1")
           = Ok (HTTPException 404 (txt "Analysis not found"))
        \/ get_analysis_result (analysis_store s) (txt "job-1")
           = Ok (HTTPException 400 (txt "Analysis not completed. Status: queued"))
        \/ get_analysis_result (analysis_store s) (txt "job-1")
           = Ok (HTTPException 400 (txt "Analysis not completed. Status: failed"))
        \/ (exists record a e,
              dict_get (analysis_store s) (txt "job-1") = Some record
              /\ JobRecord.status record = completed
              /\ JobRecord.analysis record = Some a
              /\ convert_analysis_to_response a (txt "job-1") = Raise e
              /\ get_analysis_result (analysis_store s) (txt "job-1") = Raise e)).
Proof.
  pose proof null_timeline_morning_runs as Hruns.
  destruct (run initial null_timeline_morning) as [s|] eqn:E;
    [|discriminate Hruns].
  exists s. split; [reflexivity|]. split.
  - destruct (get_analysis_result (analysis_store s) (txt "job-1")) as [r | e];
      [discriminate Hruns | now exists e].
  - exact (@result_read_after_any_run plain_runtime plain_values declared_types
             null_timeline_morning s (txt "job-1") E).
Defined.

(** The reply with the string probability is accepted, and [analyze]
    raises on it. *)
Lemma analyze_raises_on_other_types_witness :
  client with_credentials = Some (OpenAI_client (txt "sk-test"))
  /\ (exists items outs o,
        iterate string_probability = Some items
        /\ dynamic_engine.Outcomes_of items = Some outs
        /\ In o outs
        /\ dynamic_engine.probability o = VStr (txt "0.4")
        /\ unworkable o)
  /\ exists e,
       dynamic_engine.analyze (RT := plain_runtime) (PV := plain_values)
         with_credentials (Ok string_probability) (txt "2024-05-01T11:00:00")
         (txt "Should we expand to a new market?") None
       = Raise e.
Proof.
  split; [reflexivity|].
  assert (Hitems : exists items outs o,
             iterate string_probability = Some items
             /\ dynamic_engine.Outcomes_of items = Some outs
             /\ In o outs
             /\ dynamic_engine.probability o = VStr (txt "0.4")
             /\ unworkable o).
  { eexists. eexists. eexists.
    split; [reflexivity|]. split; [vm_compute; reflexivity|].
    split; [left; reflexivity|]. split; [reflexivity|].
    right. left. reflexivity. }
  split; [exact Hitems|].
  destruct Hitems as [items [outs [o [H1 [H2 [H3 [_ H5]]]]]]].
  exact (@analyze_raises_on_other_types plain_runtime plain_values
           with_credentials (OpenAI_client (txt "sk-test")) string_probability
           items outs (txt "2024-05-01T11:00:00")
           (txt "Should we expand to a new market?") None
           eq_refl H1 H2 (ex_intro _ o (conj H3 H5))).
Defined.

(** Without a client the reply is not read: the string probability does
    no harm. *)
Lemma analyze_on_declared_types_witness :
  client no_credentials = None
  /\ dynamic_engine.analyze (RT := plain_runtime) (PV := plain_values)
       no_credentials (Ok string_probability) (txt "2024-05-01T11:00:00")
       (txt "Should we expand to a new market?") None
     = Ok (analysis_object
             (analyze (RT := plain_runtime) no_credentials (Raise (txt "unused"))
                (txt "2024-05-01T11:00:00")
                (txt "Should we expand to a new market?") None)).
Proof.
  split; [reflexivity|].
  exact (proj2 (@analyze_on_declared_types plain_runtime plain_values
                  no_credentials (Raise (txt "unused"))
                  (txt "2024-05-01T11:00:00")
                  (txt "Should we expand to a new market?") None)
           eq_refl (Ok string_probability)).
Defined.

End DynamicSamples.
